(** * Image annotator: the client-side annotation editing core

    A shallow embedding of the editor's JavaScript (utilities.js, zoom.js,
    polygons.js, figures.js, rendering.js, the annotation and interaction
    modules and the global STATE object) together with the properties
    stated about it.

    Numbers.  JavaScript numbers are modelled as real numbers: the code
    uses [Math.sqrt], and the properties are stated up to floating-point
    tolerance, i.e. exactly over an ordered field with square roots.

    Asynchrony.  Every persistence function awaits one [fetch].  The
    outcome of that request is an input of the modelled function
    ([Response]), and the continuation after the [await] runs at once.

    Effects.  Toast messages and network requests are recorded, most
    recent first, in the [log] component of the state; DOM updates that
    do not feed back into STATE are left out.  A message text built from
    a template keeps its fixed words only.

    Time.  [new Date().toISOString()] is the argument [now] of the
    function that stamps a record or a snapshot.

    Values.  Annotations are values here.  In-place updates of a stored
    figure are updates of the store at that key.  [completePolygon] stores
    the transient point array itself; later in-place changes of that
    array are not followed, and no statement below is about them. *)

From Stdlib Require Import Reals Lra Lia ZArith List String.
From stdpp Require Import base gmap strings list.
Import ListNotations.
Open Scope R_scope.

(** ** Numbers *)

(** [Math.round]: the nearest integer, halves rounded up. *)
Definition Math_round (v : R) : R := IZR (Zfloor (v + / 2)).

Definition Math_max (a b : R) : R := Rmax a b.
Definition Math_min (a b : R) : R := Rmin a b.

(** [Math.sqrt]; only ever applied to sums of squares. *)
Definition Math_sqrt (v : R) : R := sqrt v.

(** ** Data model *)

(** A point object [{x, y}]. *)
Module Pt.
Record t : Type := mk { x : R; y : R }.
End Pt.

Inductive Shape : Type := circle | rectangle | line.

Definition Shape_eqb (a b : Shape) : bool :=
  match a, b with
  | circle, circle | rectangle, rectangle | line, line => true
  | _, _ => false
  end.

(** The [status] field: ['ok'] or ['occluded/missing']. *)
Inductive Status : Type := ok | occluded_missing.

(** The fields of a figure object.  [startX .. endY] exist in the
    JavaScript object only for lines; the code never reads them for the
    other shapes, where the model carries whatever value they were given. *)
Module Fig.
Record t : Type := mk {
  shape : Shape;
  x : R;
  y : R;
  size : R;
  startX : R;
  startY : R;
  endX : R;
  endY : R
}.

(** Assignments to some of the fields. *)
Definition with_xy (nx ny : R) (f : t) : t :=
  mk (shape f) nx ny (size f) (startX f) (startY f) (endX f) (endY f).
Definition with_size (ns : R) (f : t) : t :=
  mk (shape f) (x f) (y f) ns (startX f) (startY f) (endX f) (endY f).
Definition with_start (sx sy : R) (f : t) : t :=
  mk (shape f) (x f) (y f) (size f) sx sy (endX f) (endY f).
Definition with_end (ex ey : R) (f : t) : t :=
  mk (shape f) (x f) (y f) (size f) (startX f) (startY f) ex ey.
End Fig.

(** An annotation record.  The JavaScript objects are told apart by their
    [type] field: absent for landmarks, ['polygon'], ['figure'].
    Polygons and figures are always written with [status: 'ok']. *)
Inductive Annotation : Type :=
| Landmark (status : Status) (coordinates : option Pt.t) (timestamp : string)
| Polygon (points : list Pt.t) (timestamp : string)
| Figure (f : Fig.t) (timestamp : string).

Definition status_of (a : Annotation) : Status :=
  match a with
  | Landmark s _ _ => s
  | Polygon _ _ => ok
  | Figure _ _ => ok
  end.

Definition coordinates_of (a : Annotation) : option Pt.t :=
  match a with
  | Landmark _ c _ => c
  | _ => None
  end.

Definition points_of (a : Annotation) : option (list Pt.t) :=
  match a with
  | Polygon ps _ => Some ps
  | _ => None
  end.

Definition figure_of (a : Annotation) : option Fig.t :=
  match a with
  | Figure f _ => Some f
  | _ => None
  end.

(** ** The Annotation Store

    [STATE.annotations] is a plain object keyed by label name.  It is kept
    as the list of its entries in enumeration order ([Object.entries]): an
    assignment to an existing key keeps the key's position, an assignment
    to a new key appends it.  (A label that reads as an array index would
    be enumerated before the others; no statement below depends on where a
    new key lands.  Labels that collide with a property inherited from
    [Object.prototype] are not considered.) *)
Module Store.
Definition t : Type := list (string * Annotation).

Fixpoint get (s : t) (k : string) : option Annotation :=
  match s with
  | [] => None
  | (k', a) :: r => if String.eqb k k' then Some a else get r k
  end.

Fixpoint set (s : t) (k : string) (a : Annotation) : t :=
  match s with
  | [] => [(k, a)]
  | (k', a') :: r =>
      if String.eqb k k' then (k', a) :: r else (k', a') :: set r k a
  end.

Fixpoint delete (s : t) (k : string) : t :=
  match s with
  | [] => []
  | (k', a') :: r =>
      if String.eqb k k' then delete r k else (k', a') :: delete r k
  end.

Definition all (s : t) : list (string * Annotation) := s.

(** In-place mutation of the figure object stored under [k]
    ([figureData.x = ...] where [figureData = STATE.annotations[k]]).
    Nothing is stored under a missing key; an entry of another kind is
    left as it is by the model. *)
Definition mutate_figure (s : t) (k : string) (g : Fig.t -> Fig.t) : t :=
  match get s k with
  | Some (Figure f ts) => set s k (Figure (g f) ts)
  | _ => s
  end.
End Store.

(** ** Observable effects *)

Inductive MsgType : Type := info | success | warning | error.

(** The three REST endpoints [/api/landmarks], [/api/segments],
    [/api/figures]. *)
Inductive Endpoint : Type := api_landmarks | api_segments | api_figures.

(** The JSON body of a persistence request, by its [action]. *)
Inductive Body : Type :=
| act_coordinates (bx by_ : R)
| act_occluded
| act_polygon (points : list Pt.t)
| act_figure (bx by_ : R) (shape : Shape) (size : R)
| act_figure_line (f : Fig.t)
| act_update (bx by_ : R) (shape : Shape) (size : R)
| act_update_line (f : Fig.t)
| act_remove.

Inductive Event : Type :=
| ev_fetch (ep : Endpoint) (label : string) (body : Body)
| ev_message (text : string) (ty : MsgType).

(** What the awaited request turned into: a parsed reply with
    [status === 'success'], a parsed reply with any other status, or a
    rejected promise (network failure, unparsable reply) that lands in the
    [catch] block. *)
Inductive Response : Type := resp_success | resp_failure | resp_throw.

Definition is_fetch (e : Event) : bool :=
  match e with ev_fetch _ _ _ => true | ev_message _ _ => false end.

Definition is_error_message (e : Event) : bool :=
  match e with ev_message _ error => true | _ => false end.

Definition is_warning_message (e : Event) : bool :=
  match e with ev_message _ warning => true | _ => false end.

Definition fetch_count (l : list Event) : nat :=
  length (filter (fun e => is_fetch e = true) l).

(** ** The global STATE object

    The fields keep their names; they are grouped the way the object
    literal groups them by comment. *)

Inductive Tool : Type := tool_landmark | tool_polygon | tool_figure.
Inductive PolygonTool : Type := draw | edit | move.
Inductive PointType : Type := pt_start | pt_end.

(** Image, zoom and pan state. *)
Record View : Type := mkView {
  naturalWidth : R;
  naturalHeight : R;
  currentZoom : R;
  translateX : R;
  translateY : R
}.

(** [STATE.maxZoom]: given in the object literal and never assigned. *)
Definition maxZoom : R := 1000.

Record Pan : Type := mkPan {
  isDragging : bool;
  startDragX : R;
  startDragY : R
}.

(** Polygon drawing state. *)
Record PolyState : Type := mkPoly {
  activePolygonPoints : list Pt.t;
  polygonTool : PolygonTool;
  polygonDragging : bool;
  selectedPointIndex : Z;
  polygonMoveStart : option Pt.t
}.

(** Figure and line drawing state. *)
Record DrawState : Type := mkDraw {
  figureShape : Shape;
  figureDrawing : bool;
  figureStartX : R;
  figureStartY : R;
  linePoints : list Pt.t
}.

(** The eight resize handles ['nw' 'ne' 'sw' 'se' 'n' 's' 'w' 'e'] that
    [renderFigure] creates, and [handle.includes(c)] for a compass
    letter [c]. *)
Inductive Handle : Type := h_nw | h_ne | h_sw | h_se | h_n | h_s | h_w | h_e.
Inductive Compass : Type := c_n | c_s | c_e | c_w.

Definition includes (handle : Handle) (c : Compass) : bool :=
  match c, handle with
  | c_e, (h_ne | h_se | h_e) => true
  | c_w, (h_nw | h_sw | h_w) => true
  | c_s, (h_sw | h_se | h_s) => true
  | c_n, (h_nw | h_ne | h_n) => true
  | _, _ => false
  end.

(** Figure interaction state. *)
Record DragState : Type := mkDrag {
  selectedFigure : option string;
  figureDragging : bool;
  figureResizing : bool;
  figureDragStartX : R;
  figureDragStartY : R;
  figureOriginalX : R;
  figureOriginalY : R;
  figureOriginalSize : R;
  resizeHandle : option Handle;
  figureDragOffsetX : R;
  figureDragOffsetY : R;
  figureOriginalStartX : R;
  figureOriginalStartY : R;
  figureOriginalEndX : R;
  figureOriginalEndY : R
}.

Record LinePointState : Type := mkLinePoint {
  linePointDragging : bool;
  linePointDraggedFigure : option string;
  linePointDraggedType : option PointType
}.

Record HistoryEntry : Type := mkEntry {
  h_annotations : Store.t;
  h_timestamp : string
}.

(** [STATE.maxHistorySize]: given in the object literal and never
    assigned. *)
Definition maxHistorySize : Z := 50.

Record STATE : Type := mkSTATE {
  currentTool : Tool;
  selectedLabel : option string;
  annotations : Store.t;
  visibilityToggles : gmap string bool;
  imageLoaded : bool;
  isAnnotationMode : bool;
  view : View;
  pan : Pan;
  poly : PolyState;
  drawing : DrawState;
  drag : DragState;
  linePoint : LinePointState;
  history : list HistoryEntry;
  historyIndex : Z;
  log : list Event
}.

Definition set_currentTool v (s : STATE) : STATE :=
  mkSTATE v (selectedLabel s) (annotations s) (visibilityToggles s)
    (imageLoaded s) (isAnnotationMode s) (view s) (pan s) (poly s)
    (drawing s) (drag s) (linePoint s) (history s) (historyIndex s) (log s).
Definition set_selectedLabel v (s : STATE) : STATE :=
  mkSTATE (currentTool s) v (annotations s) (visibilityToggles s)
    (imageLoaded s) (isAnnotationMode s) (view s) (pan s) (poly s)
    (drawing s) (drag s) (linePoint s) (history s) (historyIndex s) (log s).
Definition set_annotations v (s : STATE) : STATE :=
  mkSTATE (currentTool s) (selectedLabel s) v (visibilityToggles s)
    (imageLoaded s) (isAnnotationMode s) (view s) (pan s) (poly s)
    (drawing s) (drag s) (linePoint s) (history s) (historyIndex s) (log s).
Definition set_visibilityToggles v (s : STATE) : STATE :=
  mkSTATE (currentTool s) (selectedLabel s) (annotations s) v
    (imageLoaded s) (isAnnotationMode s) (view s) (pan s) (poly s)
    (drawing s) (drag s) (linePoint s) (history s) (historyIndex s) (log s).
Definition set_imageLoaded v (s : STATE) : STATE :=
  mkSTATE (currentTool s) (selectedLabel s) (annotations s)
    (visibilityToggles s) v (isAnnotationMode s) (view s) (pan s) (poly s)
    (drawing s) (drag s) (linePoint s) (history s) (historyIndex s) (log s).
Definition set_isAnnotationMode v (s : STATE) : STATE :=
  mkSTATE (currentTool s) (selectedLabel s) (annotations s)
    (visibilityToggles s) (imageLoaded s) v (view s) (pan s) (poly s)
    (drawing s) (drag s) (linePoint s) (history s) (historyIndex s) (log s).
Definition set_view v (s : STATE) : STATE :=
  mkSTATE (currentTool s) (selectedLabel s) (annotations s)
    (visibilityToggles s) (imageLoaded s) (isAnnotationMode s) v (pan s)
    (poly s) (drawing s) (drag s) (linePoint s) (history s) (historyIndex s)
    (log s).
Definition set_pan v (s : STATE) : STATE :=
  mkSTATE (currentTool s) (selectedLabel s) (annotations s)
    (visibilityToggles s) (imageLoaded s) (isAnnotationMode s) (view s) v
    (poly s) (drawing s) (drag s) (linePoint s) (history s) (historyIndex s)
    (log s).
Definition set_poly v (s : STATE) : STATE :=
  mkSTATE (currentTool s) (selectedLabel s) (annotations s)
    (visibilityToggles s) (imageLoaded s) (isAnnotationMode s) (view s)
    (pan s) v (drawing s) (drag s) (linePoint s) (history s) (historyIndex s)
    (log s).
Definition set_drawing v (s : STATE) : STATE :=
  mkSTATE (currentTool s) (selectedLabel s) (annotations s)
    (visibilityToggles s) (imageLoaded s) (isAnnotationMode s) (view s)
    (pan s) (poly s) v (drag s) (linePoint s) (history s) (historyIndex s)
    (log s).
Definition set_drag v (s : STATE) : STATE :=
  mkSTATE (currentTool s) (selectedLabel s) (annotations s)
    (visibilityToggles s) (imageLoaded s) (isAnnotationMode s) (view s)
    (pan s) (poly s) (drawing s) v (linePoint s) (history s) (historyIndex s)
    (log s).
Definition set_linePoint v (s : STATE) : STATE :=
  mkSTATE (currentTool s) (selectedLabel s) (annotations s)
    (visibilityToggles s) (imageLoaded s) (isAnnotationMode s) (view s)
    (pan s) (poly s) (drawing s) (drag s) v (history s) (historyIndex s)
    (log s).
Definition set_history h i (s : STATE) : STATE :=
  mkSTATE (currentTool s) (selectedLabel s) (annotations s)
    (visibilityToggles s) (imageLoaded s) (isAnnotationMode s) (view s)
    (pan s) (poly s) (drawing s) (drag s) (linePoint s) h i (log s).
Definition set_log v (s : STATE) : STATE :=
  mkSTATE (currentTool s) (selectedLabel s) (annotations s)
    (visibilityToggles s) (imageLoaded s) (isAnnotationMode s) (view s)
    (pan s) (poly s) (drawing s) (drag s) (linePoint s) (history s)
    (historyIndex s) v.

(** The STATE object literal, with [window.currentAnnotations] as the
    initial annotations. *)
Definition initial_STATE (currentAnnotations : Store.t) : STATE :=
  mkSTATE tool_landmark None currentAnnotations ∅ false true
    (mkView 0 0 1 0 0)
    (mkPan false 0 0)
    (mkPoly [] draw false (-1) None)
    (mkDraw circle false 0 0 [])
    (mkDrag None false false 0 0 0 0 0 None 0 0 0 0 0 0)
    (mkLinePoint false None None)
    [] (-1) [].

(** A key or URL segment made from [STATE.selectedLabel]: [null] turns
    into the string ['null']. *)
Definition label_key (l : option string) : string :=
  match l with Some n => n | None => "null"%string end.

(** Comparisons of numbers as they appear in [if] conditions. *)
Definition Rltb (a b : R) : bool := if Rlt_dec a b then true else false.
Definition Rleb (a b : R) : bool := if Rle_dec a b then true else false.

(** ** utilities.js *)

(** A mouse event, read through [e.clientX - rect.left] and
    [e.clientY - rect.top]: the pointer position relative to the image
    container. *)
Record MouseEvent : Type := mkMouse { mouseX : R; mouseY : R }.

Definition eventToImageCoords (s : STATE) (e : MouseEvent) : Pt.t :=
  let containerX := mouseX e in
  let containerY := mouseY e in
  let imageX := (containerX - translateX (view s)) / currentZoom (view s) in
  let imageY := (containerY - translateY (view s)) / currentZoom (view s) in
  Pt.mk imageX imageY.

Definition imageToDisplayCoords (s : STATE) (imageX imageY : R) : Pt.t :=
  Pt.mk (imageX * currentZoom (view s) + translateX (view s))
        (imageY * currentZoom (view s) + translateY (view s)).

Definition displayToImageCoords (s : STATE) (displayX displayY : R) : Pt.t :=
  Pt.mk ((displayX - translateX (view s)) / currentZoom (view s))
        ((displayY - translateY (view s)) / currentZoom (view s)).

Definition isWithinImageBounds (s : STATE) (x y : R) : bool :=
  Rleb 0 x && Rleb 0 y
  && Rltb x (naturalWidth (view s)) && Rltb y (naturalHeight (view s)).

Definition showMessage (text : string) (ty : MsgType) (s : STATE) : STATE :=
  set_log (ev_message text ty :: log s) s.

(** The fetch call itself, as an entry of the log. *)
Definition fetch (ep : Endpoint) (label : string) (b : Body) (s : STATE)
  : STATE :=
  set_log (ev_fetch ep label b :: log s) s.

(** Stores are values here, so a deep copy is the store itself. *)
Definition deepClone (a : Store.t) : Store.t := a.

(** [l.slice(0, e)]: a negative [e] counts from the end. *)
Definition slice0 {A : Type} (l : list A) (e : Z) : list A :=
  if (e <? 0)%Z
  then firstn (Z.to_nat (Z.max (Z.of_nat (length l) + e) 0)) l
  else firstn (Z.to_nat e) l.

(** [l[i]] for a number [i]: [undefined] outside the list. *)
Definition index {A : Type} (l : list A) (i : Z) : option A :=
  if (i <? 0)%Z then None else nth_error l (Z.to_nat i).

Definition saveToHistory (now : string) (s : STATE) : STATE :=
  let h1 :=
    if (historyIndex s <? Z.of_nat (length (history s)) - 1)%Z
    then slice0 (history s) (historyIndex s + 1)
    else history s in
  let state := mkEntry (deepClone (annotations s)) now in
  let h2 := h1 ++ [state] in
  if (Z.of_nat (length h2) >? maxHistorySize)%Z
  then set_history (tl h2) (historyIndex s) s
  else set_history h2 (historyIndex s + 1) s.

(** Reading [STATE.history[i].annotations] throws when the entry is
    missing; the index has been moved by then. *)
Definition undo (s : STATE) : STATE :=
  if (historyIndex s >? 0)%Z then
    let s1 := set_history (history s) (historyIndex s - 1) s in
    match index (history s1) (historyIndex s1) with
    | Some e =>
        showMessage "Undo successful" success
          (set_annotations (deepClone (h_annotations e)) s1)
    | None => s1
    end
  else s.

Definition redo (s : STATE) : STATE :=
  if (historyIndex s <? Z.of_nat (length (history s)) - 1)%Z then
    let s1 := set_history (history s) (historyIndex s + 1) s in
    match index (history s1) (historyIndex s1) with
    | Some e =>
        showMessage "Redo successful" success
          (set_annotations (deepClone (h_annotations e)) s1)
    | None => s1
    end
  else s.

Definition toggleMode (s : STATE) : STATE :=
  let s1 := set_isAnnotationMode (negb (isAnnotationMode s)) s in
  showMessage
    (if isAnnotationMode s1 then "Annotation Mode" else "Panning Mode") info
    s1.

(** ** zoom.js *)

Definition set_currentZoom (z : R) (s : STATE) : STATE :=
  set_view (mkView (naturalWidth (view s)) (naturalHeight (view s)) z
              (translateX (view s)) (translateY (view s))) s.

Definition set_translate (tx ty : R) (s : STATE) : STATE :=
  set_view (mkView (naturalWidth (view s)) (naturalHeight (view s))
              (currentZoom (view s)) tx ty) s.

Definition zoomIn (s : STATE) : STATE :=
  if Rltb (currentZoom (view s)) maxZoom
  then set_currentZoom (Math_min maxZoom (currentZoom (view s) * 1.5)) s
  else s.

Definition zoomOut (s : STATE) : STATE :=
  if Rltb 0.1 (currentZoom (view s))
  then set_currentZoom (Math_max 0.1 (currentZoom (view s) / 1.5)) s
  else s.

(** [containerWidth], [containerHeight]: the size of the image
    container's bounding rectangle. *)
Definition resetView (containerWidth containerHeight : R) (s : STATE)
  : STATE :=
  let s1 := set_translate 0 0 (set_currentZoom 1 s) in
  let scaledWidth := naturalWidth (view s1) * currentZoom (view s1) in
  let scaledHeight := naturalHeight (view s1) * currentZoom (view s1) in
  let s2 :=
    if Rltb scaledWidth containerWidth
    then set_translate ((containerWidth - scaledWidth) / 2)
           (translateY (view s1)) s1
    else s1 in
  if Rltb scaledHeight containerHeight
  then set_translate (translateX (view s2))
         ((containerHeight - scaledHeight) / 2) s2
  else s2.

Record WheelEvent : Type := mkWheel {
  deltaY : R;
  wheelX : R;
  wheelY : R
}.

Definition handleWheel (e : WheelEvent) (s : STATE) : STATE :=
  let delta := if Rltb 0 (deltaY e) then 0.8 else 1.25 in
  let oldZoom := currentZoom (view s) in
  let s1 :=
    set_currentZoom
      (Math_min maxZoom (Math_max 0.1 (currentZoom (view s) * delta))) s in
  let mouseX := wheelX e in
  let mouseY := wheelY e in
  let mouseRelX := (mouseX - translateX (view s1)) / oldZoom in
  let mouseRelY := (mouseY - translateY (view s1)) / oldZoom in
  set_translate (mouseX - mouseRelX * currentZoom (view s1))
                (mouseY - mouseRelY * currentZoom (view s1)) s1.

(** A view operation, and a run of them. *)
Inductive ViewOp : Type :=
| op_zoomIn
| op_zoomOut
| op_handleWheel (e : WheelEvent)
| op_resetView (containerWidth containerHeight : R).

Definition view_step (s : STATE) (o : ViewOp) : STATE :=
  match o with
  | op_zoomIn => zoomIn s
  | op_zoomOut => zoomOut s
  | op_handleWheel e => handleWheel e s
  | op_resetView w h => resetView w h s
  end.

Definition view_run (ops : list ViewOp) (s : STATE) : STATE :=
  fold_left view_step ops s.

(** ** The annotation module (part_000) *)

(** A value used as a condition: [null] and the empty string are falsy. *)
Definition truthy (l : option string) : bool :=
  match l with
  | Some n => negb (String.eqb n "")
  | None => false
  end.

Definition set_activePolygonPoints (ps : list Pt.t) (s : STATE) : STATE :=
  set_poly (mkPoly ps (polygonTool (poly s)) (polygonDragging (poly s))
              (selectedPointIndex (poly s)) (polygonMoveStart (poly s))) s.

Definition setPolygonTool (tool : PolygonTool) (s : STATE) : STATE :=
  set_poly (mkPoly (activePolygonPoints (poly s)) tool
              (polygonDragging (poly s)) (selectedPointIndex (poly s))
              (polygonMoveStart (poly s))) s.

Definition switchTool (tool : Tool) (s : STATE) : STATE :=
  let s1 := set_currentTool tool s in
  let s2 :=
    match tool with
    | tool_polygon => s1
    | _ => set_activePolygonPoints [] s1
    end in
  showMessage "Switched tool mode" info (set_selectedLabel None s2).

Definition selectLabel (name : string) (s : STATE) : STATE :=
  let s1 := set_selectedLabel (Some name) s in
  let s2 :=
    match Store.get (annotations s1) name, currentTool s1 with
    | Some (Polygon ps _), tool_polygon =>
        setPolygonTool edit (set_activePolygonPoints ps s1)
    | _, _ => s1
    end in
  let s3 := if isAnnotationMode s2 then s2 else set_isAnnotationMode true s2 in
  showMessage "Selected label" info s3.

(** [!STATE.visibilityToggles[name]]: a missing entry negates to [true]. *)
Definition toggleVisibility (name : string) (s : STATE) : STATE :=
  let v := match visibilityToggles s !! name with
           | Some b => negb b
           | None => true
           end in
  set_visibilityToggles (<[name := v]> (visibilityToggles s)) s.

Definition markOccluded (name : string) (r : Response) (now : string)
    (s : STATE) : STATE :=
  let s1 := fetch api_landmarks name act_occluded s in
  match r with
  | resp_success =>
      let s2 :=
        set_annotations
          (Store.set (annotations s1) name (Landmark occluded_missing None now))
          s1 in
      showMessage "marked as occluded" success (saveToHistory now s2)
  | resp_failure => s1
  | resp_throw => showMessage "Failed to mark as occluded" error s1
  end.

(** [confirmed]: the answer to the confirmation dialog. *)
Definition deleteAnnotation (name : string) (confirmed : bool) (r : Response)
    (now : string) (s : STATE) : STATE :=
  if negb confirmed then s else
  let endpoint :=
    match Store.get (annotations s) name with
    | Some (Polygon _ _) => api_segments
    | Some (Figure _ _) => api_figures
    | _ => api_landmarks
    end in
  let s1 := fetch endpoint name act_remove s in
  match r with
  | resp_success =>
      let s2 := set_annotations (Store.delete (annotations s1) name) s1 in
      let s3 :=
        match selectedLabel s2 with
        | Some l => if String.eqb l name then set_selectedLabel None s2 else s2
        | None => s2
        end in
      showMessage "Deleted annotation" success (saveToHistory now s3)
  | resp_failure => s1
  | resp_throw => showMessage "Failed to delete annotation" error s1
  end.

Definition annotateLandmark (coords : Pt.t) (r : Response) (now : string)
    (s : STATE) : STATE :=
  let s1 :=
    fetch api_landmarks (label_key (selectedLabel s))
      (act_coordinates (Pt.x coords) (Pt.y coords)) s in
  match r with
  | resp_success =>
      let s2 :=
        set_annotations
          (Store.set (annotations s1) (label_key (selectedLabel s1))
             (Landmark ok (Some (Pt.mk (Pt.x coords) (Pt.y coords))) now))
          s1 in
      showMessage "Annotated" success (saveToHistory now s2)
  | resp_failure => s1
  | resp_throw => showMessage "Failed to save annotation" error s1
  end.

(** ** polygons.js *)

Definition set_polygonDragging (b : bool) (s : STATE) : STATE :=
  set_poly (mkPoly (activePolygonPoints (poly s)) (polygonTool (poly s)) b
              (selectedPointIndex (poly s)) (polygonMoveStart (poly s))) s.

Definition set_selectedPointIndex (i : Z) (s : STATE) : STATE :=
  set_poly (mkPoly (activePolygonPoints (poly s)) (polygonTool (poly s))
              (polygonDragging (poly s)) i (polygonMoveStart (poly s))) s.

Definition set_polygonMoveStart (p : option Pt.t) (s : STATE) : STATE :=
  set_poly (mkPoly (activePolygonPoints (poly s)) (polygonTool (poly s))
              (polygonDragging (poly s)) (selectedPointIndex (poly s)) p) s.

(** One round of the [forEach] in [findNearestPointIndex]; the running
    minimum starts at [Infinity], here [None]. *)
Definition nearest_step (coords : Pt.t) (threshold : R)
    (acc : Z * option R) (ip : nat * Pt.t) : Z * option R :=
  let '(closestIndex, closestDistance) := acc in
  let '(i, point) := ip in
  let distance :=
    Math_sqrt ((Pt.x point - Pt.x coords) * (Pt.x point - Pt.x coords)
               + (Pt.y point - Pt.y coords) * (Pt.y point - Pt.y coords)) in
  if Rltb distance threshold
     && match closestDistance with
        | None => true
        | Some d => Rltb distance d
        end
  then (Z.of_nat i, Some distance)
  else (closestIndex, closestDistance).

Definition findNearestPointIndex (coords : Pt.t) (s : STATE) : Z :=
  let threshold := 10 / currentZoom (view s) in
  let ps := activePolygonPoints (poly s) in
  fst (fold_left (nearest_step coords threshold)
         (combine (seq 0 (length ps)) ps) ((-1)%Z, None)).

Definition handlePolygonClick (coords : Pt.t) (s : STATE) : STATE :=
  match polygonTool (poly s) with
  | draw =>
      set_activePolygonPoints
        (activePolygonPoints (poly s) ++ [Pt.mk (Pt.x coords) (Pt.y coords)]) s
  | edit =>
      let s1 := set_selectedPointIndex (findNearestPointIndex coords s) s in
      if (selectedPointIndex (poly s1) =? -1)%Z then s1
      else set_polygonDragging true s1
  | move =>
      set_polygonMoveStart (Some (Pt.mk (Pt.x coords) (Pt.y coords)))
        (set_polygonDragging true s)
  end.

(** The vertex assignment [activePolygonPoints[i] = p].  The index comes
    from [findNearestPointIndex] and is in range; past the end JavaScript
    would grow the array with holes, which the list cannot show, so the
    model leaves the list as it is there. *)
Definition handlePolygonDrag (coords : Pt.t) (s : STATE) : STATE :=
  match polygonTool (poly s) with
  | edit =>
      if (selectedPointIndex (poly s) =? -1)%Z then s
      else
        set_activePolygonPoints
          (<[Z.to_nat (selectedPointIndex (poly s))
             := Pt.mk (Pt.x coords) (Pt.y coords)]>
             (activePolygonPoints (poly s))) s
  | move =>
      match polygonDragging (poly s), polygonMoveStart (poly s) with
      | true, Some start =>
          let deltaX := Pt.x coords - Pt.x start in
          let deltaY := Pt.y coords - Pt.y start in
          let s1 :=
            set_activePolygonPoints
              (map (fun point =>
                      Pt.mk (Pt.x point + deltaX) (Pt.y point + deltaY))
                 (activePolygonPoints (poly s))) s in
          set_polygonMoveStart (Some (Pt.mk (Pt.x coords) (Pt.y coords))) s1
      | _, _ => s
      end
  | draw => s
  end.

Definition completePolygon (r : Response) (now : string) (s : STATE)
  : STATE :=
  if (length (activePolygonPoints (poly s)) <? 3)%nat
  then showMessage "Need at least 3 points" warning s
  else
    let s1 :=
      fetch api_segments (label_key (selectedLabel s))
        (act_polygon (activePolygonPoints (poly s))) s in
    match r with
    | resp_success =>
        let s2 :=
          set_annotations
            (Store.set (annotations s1) (label_key (selectedLabel s1))
               (Polygon (activePolygonPoints (poly s1)) now)) s1 in
        setPolygonTool edit
          (showMessage "Polygon saved" success (saveToHistory now s2))
    | resp_failure => s1
    | resp_throw => showMessage "Failed to save polygon" error s1
    end.

Definition cancelPolygon (s : STATE) : STATE :=
  setPolygonTool draw (set_activePolygonPoints [] s).

(** ** figures.js *)

Definition set_linePoints (ps : list Pt.t) (s : STATE) : STATE :=
  set_drawing (mkDraw (figureShape (drawing s)) (figureDrawing (drawing s))
                 (figureStartX (drawing s)) (figureStartY (drawing s)) ps) s.

Definition set_figureDrawing (b : bool) (s : STATE) : STATE :=
  set_drawing (mkDraw (figureShape (drawing s)) b (figureStartX (drawing s))
                 (figureStartY (drawing s)) (linePoints (drawing s))) s.

Definition selectFigureShape (shape : Shape) (s : STATE) : STATE :=
  set_drawing (mkDraw shape (figureDrawing (drawing s))
                 (figureStartX (drawing s)) (figureStartY (drawing s))
                 (linePoints (drawing s))) s.

(** The figure object stored under a name.  A read of a field of a
    missing entry throws and ends the handler.  Entries of another kind
    are not reached through figure elements; the model treats them like a
    missing entry. *)
Definition figure_at (s : STATE) (name : string) : option Fig.t :=
  match Store.get (annotations s) name with
  | Some (Figure f _) => Some f
  | _ => None
  end.

Definition completeLineDrawing (r : Response) (now : string) (s : STATE)
  : STATE :=
  match linePoints (drawing s) with
  | [startPoint; endPoint] =>
      let dx := Pt.x endPoint - Pt.x startPoint in
      let dy := Pt.y endPoint - Pt.y startPoint in
      let length := Math_sqrt (dx * dx + dy * dy) in
      if Rltb length 10 then
        set_linePoints [] (showMessage "Line too short, draw longer" warning s)
      else
        let centerX := (Pt.x startPoint + Pt.x endPoint) / 2 in
        let centerY := (Pt.y startPoint + Pt.y endPoint) / 2 in
        let f := Fig.mk line centerX centerY (Math_round length)
                   (Pt.x startPoint) (Pt.y startPoint)
                   (Pt.x endPoint) (Pt.y endPoint) in
        let s1 :=
          fetch api_figures (label_key (selectedLabel s)) (act_figure_line f)
            s in
        let s2 :=
          match r with
          | resp_success =>
              let s' :=
                set_annotations
                  (Store.set (annotations s1) (label_key (selectedLabel s1))
                     (Figure f now)) s1 in
              showMessage "Created line" success (saveToHistory now s')
          | resp_failure => s1
          | resp_throw => showMessage "Failed to save line" error s1
          end in
        set_linePoints [] s2
  | _ => s
  end.

Definition startFigureDrawing (coords : Pt.t) (r : Response) (now : string)
    (s : STATE) : STATE :=
  match figureShape (drawing s) with
  | line =>
      let s1 :=
        set_linePoints
          (linePoints (drawing s) ++ [Pt.mk (Pt.x coords) (Pt.y coords)]) s in
      if (length (linePoints (drawing s1)) =? 2)%nat
      then completeLineDrawing r now s1
      else s1
  | shape =>
      set_drawing (mkDraw shape true (Pt.x coords) (Pt.y coords)
                     (linePoints (drawing s))) s
  end.

(** A circle or rectangle object has no endpoint fields; the model
    writes 0 for them. *)
Definition completeFigureDrawing (coords : Pt.t) (r : Response)
    (now : string) (s : STATE) : STATE :=
  if negb (figureDrawing (drawing s)) then s else
  let centerX := figureStartX (drawing s) in
  let centerY := figureStartY (drawing s) in
  let dx := Pt.x coords - centerX in
  let dy := Pt.y coords - centerY in
  let size := Math_round (Math_sqrt (dx * dx + dy * dy) * 2) in
  if Rltb size 10 then
    set_figureDrawing false
      (showMessage "Figure too small, draw larger" warning s)
  else
    let shape := figureShape (drawing s) in
    let s1 :=
      fetch api_figures (label_key (selectedLabel s))
        (act_figure centerX centerY shape size) s in
    let s2 :=
      match r with
      | resp_success =>
          let s' :=
            set_annotations
              (Store.set (annotations s1) (label_key (selectedLabel s1))
                 (Figure (Fig.mk shape centerX centerY size 0 0 0 0) now))
              s1 in
          showMessage "Created figure" success (saveToHistory now s')
      | resp_failure => s1
      | resp_throw => showMessage "Failed to save figure" error s1
      end in
    set_figureDrawing false s2.

(** The [size] that [completeFigureDrawing] computes for a pointer-up at
    [coords], named for use in statements. *)
Definition drawn_size (coords : Pt.t) (s : STATE) : R :=
  Math_round
    (Math_sqrt
       ((Pt.x coords - figureStartX (drawing s))
        * (Pt.x coords - figureStartX (drawing s))
        + (Pt.y coords - figureStartY (drawing s))
          * (Pt.y coords - figureStartY (drawing s))) * 2).

(** The Euclidean distance of two points given by their coordinates. *)
Definition distance (ax ay bx by_ : R) : R :=
  sqrt ((bx - ax) * (bx - ax) + (by_ - ay) * (by_ - ay)).

(** Twice the distance between the centre fixed at pointer-down and the
    pointer. *)
Definition twice_distance (coords : Pt.t) (s : STATE) : R :=
  2 * distance (figureStartX (drawing s)) (figureStartY (drawing s))
        (Pt.x coords) (Pt.y coords).

(** A mouse-down on a figure element: the pointer position, the resize
    handle hit (if the target is one), the figure's name, the centre of
    the figure element's bounding rectangle (relative to the container)
    and whether the element carries the class ['interactive']. *)
Record FigureMouseDown : Type := mkFigureMouseDown {
  fm_mouse : MouseEvent;
  fm_handle : option Handle;
  fm_figureName : string;
  fm_centerX : R;
  fm_centerY : R;
  fm_interactive : bool
}.

Definition handleFigureMouseDown (e : FigureMouseDown) (s : STATE) : STATE :=
  if isAnnotationMode s then s else
  let d := drag s in
  match fm_handle e with
  | Some handle =>
      match figure_at s (fm_figureName e) with
      | None =>
          set_drag
            (mkDrag (selectedFigure d) (figureDragging d) true
               (figureDragStartX d) (figureDragStartY d) (figureOriginalX d)
               (figureOriginalY d) (figureOriginalSize d) (Some handle)
               (figureDragOffsetX d) (figureDragOffsetY d)
               (figureOriginalStartX d) (figureOriginalStartY d)
               (figureOriginalEndX d) (figureOriginalEndY d)) s
      | Some figureData =>
          set_drag
            (mkDrag (selectedFigure d) (figureDragging d) true
               (mouseX (fm_mouse e)) (mouseY (fm_mouse e)) (figureOriginalX d)
               (figureOriginalY d) (Fig.size figureData) (Some handle)
               (figureDragOffsetX d) (figureDragOffsetY d)
               (figureOriginalStartX d) (figureOriginalStartY d)
               (figureOriginalEndX d) (figureOriginalEndY d)) s
      end
  | None =>
      match figure_at s (fm_figureName e) with
      | None =>
          set_drag
            (mkDrag (Some (fm_figureName e)) true (figureResizing d)
               (mouseX (fm_mouse e)) (mouseY (fm_mouse e)) (figureOriginalX d)
               (figureOriginalY d) (figureOriginalSize d) (resizeHandle d)
               (figureDragOffsetX d) (figureDragOffsetY d)
               (figureOriginalStartX d) (figureOriginalStartY d)
               (figureOriginalEndX d) (figureOriginalEndY d)) s
      | Some figureData =>
          set_drag
            (mkDrag (Some (fm_figureName e)) true (figureResizing d)
               (mouseX (fm_mouse e)) (mouseY (fm_mouse e))
               (Fig.x figureData) (Fig.y figureData) (figureOriginalSize d)
               (resizeHandle d)
               (fm_centerX e - mouseX (fm_mouse e))
               (fm_centerY e - mouseY (fm_mouse e))
               (figureOriginalStartX d) (figureOriginalStartY d)
               (figureOriginalEndX d) (figureOriginalEndY d)) s
      end
  end.

Definition set_selectedFigure (n : option string) (s : STATE) : STATE :=
  let d := drag s in
  set_drag
    (mkDrag n (figureDragging d) (figureResizing d) (figureDragStartX d)
       (figureDragStartY d) (figureOriginalX d) (figureOriginalY d)
       (figureOriginalSize d) (resizeHandle d) (figureDragOffsetX d)
       (figureDragOffsetY d) (figureOriginalStartX d) (figureOriginalStartY d)
       (figureOriginalEndX d) (figureOriginalEndY d)) s.

(** [elementExists]: a figure element of that name is in the document. *)
Definition selectFigure (figureName : string) (elementExists : bool)
    (s : STATE) : STATE :=
  if elementExists then set_selectedFigure (Some figureName) s else s.

Definition deselectAllFigures (s : STATE) : STATE :=
  set_selectedFigure None s.

Definition handleFigureClick (figureName : string) (elementExists : bool)
    (s : STATE) : STATE :=
  if isAnnotationMode s then s else selectFigure figureName elementExists s.

Definition updateFigurePosition (figureName : string) (newX newY : R)
    (s : STATE) : STATE :=
  set_annotations
    (Store.mutate_figure (annotations s) figureName (Fig.with_xy newX newY)) s.

Definition updateFigureSize (figureName : string) (newSize : R) (s : STATE)
  : STATE :=
  set_annotations
    (Store.mutate_figure (annotations s) figureName
       (Fig.with_size (Math_max 10 newSize))) s.

(** [saveFigureUpdate] after its [await]: what happens once the request
    has settled. *)
Definition saveFigureUpdate_settled (r : Response) (now : string)
    (s : STATE) : STATE :=
  match r with
  | resp_success => showMessage "Updated figure" success (saveToHistory now s)
  | resp_failure => s
  | resp_throw => showMessage "Failed to update figure" error s
  end.

Definition saveFigureUpdate (figureName : string) (x y : R) (shape : Shape)
    (size : R) (r : Response) (now : string) (s : STATE) : STATE :=
  saveFigureUpdate_settled r now
    (fetch api_figures figureName (act_update x y shape size) s).

(** The two branches of [completeFigureInteraction] make the same call;
    [None] stands for the TypeError of reading a missing figure, which
    leaves the interaction flags as they are. *)
Definition save_selectedFigure (r : Response) (now : string) (s : STATE)
  : option STATE :=
  let name := label_key (selectedFigure (drag s)) in
  match figure_at s name with
  | None => None
  | Some figureData =>
      Some (saveFigureUpdate name (Fig.x figureData) (Fig.y figureData)
              (Fig.shape figureData) (Fig.size figureData) r now s)
  end.

Definition completeFigureInteraction (r : Response) (now : string)
    (s : STATE) : STATE :=
  let saved :=
    if figureDragging (drag s) && truthy (selectedFigure (drag s))
    then save_selectedFigure r now s
    else if figureResizing (drag s) && truthy (selectedFigure (drag s))
    then save_selectedFigure r now s
    else Some s in
  match saved with
  | None => s
  | Some s1 =>
      let d := drag s1 in
      set_drag
        (mkDrag (selectedFigure d) false false (figureDragStartX d)
           (figureDragStartY d) (figureOriginalX d) (figureOriginalY d)
           (figureOriginalSize d) None (figureDragOffsetX d)
           (figureDragOffsetY d) (figureOriginalStartX d)
           (figureOriginalStartY d) (figureOriginalEndX d)
           (figureOriginalEndY d)) s1
  end.

Definition deleteSelectedFigure (r : Response) (now : string) (s : STATE)
  : STATE :=
  if negb (truthy (selectedFigure (drag s))) then s else
  let figureName := label_key (selectedFigure (drag s)) in
  let s1 := fetch api_figures figureName act_remove s in
  match r with
  | resp_success =>
      let s2 := set_annotations (Store.delete (annotations s1) figureName) s1 in
      showMessage "Deleted figure" success
        (deselectAllFigures (saveToHistory now s2))
  | resp_failure => s1
  | resp_throw => showMessage "Failed to delete figure" error s1
  end.

Definition handleLineMouseDown (e : FigureMouseDown) (s : STATE) : STATE :=
  if isAnnotationMode s then s else
  if negb (fm_interactive e) then s else
  let d := drag s in
  match figure_at s (fm_figureName e) with
  | None =>
      set_drag
        (mkDrag (Some (fm_figureName e)) true (figureResizing d)
           (mouseX (fm_mouse e)) (mouseY (fm_mouse e)) (figureOriginalX d)
           (figureOriginalY d) (figureOriginalSize d) (resizeHandle d)
           (figureDragOffsetX d) (figureDragOffsetY d)
           (figureOriginalStartX d) (figureOriginalStartY d)
           (figureOriginalEndX d) (figureOriginalEndY d)) s
  | Some figureData =>
      set_drag
        (mkDrag (Some (fm_figureName e)) true (figureResizing d)
           (mouseX (fm_mouse e)) (mouseY (fm_mouse e))
           (Fig.x figureData) (Fig.y figureData) (figureOriginalSize d)
           (resizeHandle d)
           (fm_centerX e - mouseX (fm_mouse e))
           (fm_centerY e - mouseY (fm_mouse e))
           (Fig.startX figureData) (Fig.startY figureData)
           (Fig.endX figureData) (Fig.endY figureData)) s
  end.

(** A mouse-down on one of the two end markers of a line. *)
Definition handleLinePointMouseDown (figureName : string)
    (pointType : PointType) (s : STATE) : STATE :=
  if isAnnotationMode s then s else
  set_linePoint (mkLinePoint true (Some figureName) (Some pointType)) s.

(** The request body is built inside the [try]: a missing figure ends in
    the [catch] block without any request. *)
Definition completeLinePointInteraction (r : Response) (now : string)
    (s : STATE) : STATE :=
  if linePointDragging (linePoint s)
     && truthy (linePointDraggedFigure (linePoint s))
  then
    let figureName := label_key (linePointDraggedFigure (linePoint s)) in
    let s2 :=
      match figure_at s figureName with
      | None => showMessage "Failed to update line" error s
      | Some figureData =>
          let s1 :=
            fetch api_figures figureName
              (act_update_line
                 (Fig.mk line (Fig.x figureData) (Fig.y figureData)
                    (Fig.size figureData) (Fig.startX figureData)
                    (Fig.startY figureData) (Fig.endX figureData)
                    (Fig.endY figureData))) s in
          match r with
          | resp_success =>
              showMessage "Line updated" success (saveToHistory now s1)
          | resp_failure => s1
          | resp_throw => showMessage "Failed to update line" error s1
          end
      end in
    set_linePoint (mkLinePoint false None None) s2
  else s.

Inductive ArrowKey : Type := ArrowUp | ArrowDown | ArrowLeft | ArrowRight.

(** The modifier flags of the current keyboard event. *)
Record KeyMods : Type := mkMods {
  shiftKey : bool;
  ctrlKey : bool;
  metaKey : bool
}.

Definition stepSize_of (event : KeyMods) : R :=
  if shiftKey event then 10
  else if ctrlKey event || metaKey event then 0.5
  else 1.

(** [saveFigureUpdate] is called without [await]: its request goes out,
    the ['Moved'] toast is shown, and the reply is handled afterwards. *)
Definition moveFigureWithArrow (direction : ArrowKey) (event : KeyMods)
    (r : Response) (now : string) (s : STATE) : STATE :=
  if negb (truthy (selectedFigure (drag s))) then s else
  let name := label_key (selectedFigure (drag s)) in
  match figure_at s name with
  | None => s
  | Some figureData =>
      let stepSize := stepSize_of event in
      let newX :=
        match direction with
        | ArrowLeft => Fig.x figureData - stepSize
        | ArrowRight => Fig.x figureData + stepSize
        | _ => Fig.x figureData
        end in
      let newY :=
        match direction with
        | ArrowUp => Fig.y figureData - stepSize
        | ArrowDown => Fig.y figureData + stepSize
        | _ => Fig.y figureData
        end in
      let imageWidth := naturalWidth (view s) in
      let imageHeight := naturalHeight (view s) in
      let newX := Math_max 0 (Math_min imageWidth newX) in
      let newY := Math_max 0 (Math_min imageHeight newY) in
      let s1 := updateFigurePosition name newX newY s in
      let s2 :=
        fetch api_figures name
          (act_update newX newY (Fig.shape figureData) (Fig.size figureData))
          s1 in
      saveFigureUpdate_settled r now (showMessage "Moved" info s2)
  end.

(** ** The interaction module (part_001) *)

(** [handleKeyDown] for an arrow key; its other branches test for other
    keys.  [onLabelInput]: the event target is the label input field. *)
Definition handleKeyDown_arrow (onLabelInput : bool) (key : ArrowKey)
    (event : KeyMods) (r : Response) (now : string) (s : STATE) : STATE :=
  if onLabelInput then s
  else if truthy (selectedFigure (drag s))
  then moveFigureWithArrow key event r now s
  else s.

(** A mouse-down that reaches the image container: the pointer position,
    whether the target is a figure, a resize handle or a line end marker,
    and whether it is (part of) a line figure. *)
Record ContainerMouseDown : Type := mkContainerMouseDown {
  md_mouse : MouseEvent;
  md_onFigurePart : bool;
  md_clickedOnLine : bool
}.

Definition handleMouseDown (e : ContainerMouseDown) (r : Response)
    (now : string) (s : STATE) : STATE :=
  let s1 :=
    set_pan (mkPan (isDragging (pan s)) (mouseX (md_mouse e))
               (mouseY (md_mouse e))) s in
  let s2 := if md_onFigurePart e then s1 else deselectAllFigures s1 in
  if isAnnotationMode s2 then
    if negb (truthy (selectedLabel s2))
    then showMessage "Please select a label first" warning s2
    else
      let coords := eventToImageCoords s2 (md_mouse e) in
      if negb (isWithinImageBounds s2 (Pt.x coords) (Pt.y coords))
      then showMessage "Click within image bounds" warning s2
      else
        match currentTool s2 with
        | tool_landmark => annotateLandmark coords r now s2
        | tool_polygon => handlePolygonClick coords s2
        | tool_figure =>
            if md_clickedOnLine e && Shape_eqb (figureShape (drawing s2)) line
            then s2
            else startFigureDrawing coords r now s2
        end
  else
    set_pan (mkPan true (startDragX (pan s2)) (startDragY (pan s2))) s2.

(** The parts of [handleMouseMove], in the order of the source. *)

Definition move_pan (e : MouseEvent) (s : STATE) : STATE :=
  if isDragging (pan s) && negb (isAnnotationMode s) then
    let deltaX := mouseX e - startDragX (pan s) in
    let deltaY := mouseY e - startDragY (pan s) in
    let s1 :=
      set_translate (translateX (view s) + deltaX)
        (translateY (view s) + deltaY) s in
    set_pan (mkPan (isDragging (pan s1)) (mouseX e) (mouseY e)) s1
  else s.

Definition move_polygon (coords : Pt.t) (s : STATE) : STATE :=
  match polygonDragging (poly s), currentTool s with
  | true, tool_polygon => handlePolygonDrag coords s
  | _, _ => s
  end.

(** [None]: the selected figure is missing and the handler stops with a
    TypeError. *)
Definition move_figureDrag (e : MouseEvent) (s : STATE) : option STATE :=
  if figureDragging (drag s) && truthy (selectedFigure (drag s)) then
    let newDisplayX := mouseX e + figureDragOffsetX (drag s) in
    let newDisplayY := mouseY e + figureDragOffsetY (drag s) in
    let newImageCoords := displayToImageCoords s newDisplayX newDisplayY in
    let name := label_key (selectedFigure (drag s)) in
    match figure_at s name with
    | None => None
    | Some figureData =>
        match Fig.shape figureData with
        | line =>
            let deltaX := Pt.x newImageCoords - figureOriginalX (drag s) in
            let deltaY := Pt.y newImageCoords - figureOriginalY (drag s) in
            Some
              (set_annotations
                 (Store.mutate_figure (annotations s) name
                    (fun f =>
                       Fig.mk (Fig.shape f) (Pt.x newImageCoords)
                         (Pt.y newImageCoords) (Fig.size f)
                         (figureOriginalStartX (drag s) + deltaX)
                         (figureOriginalStartY (drag s) + deltaY)
                         (figureOriginalEndX (drag s) + deltaX)
                         (figureOriginalEndY (drag s) + deltaY))) s)
        | _ =>
            Some
              (updateFigurePosition name (Pt.x newImageCoords)
                 (Pt.y newImageCoords) s)
        end
    end
  else Some s.

Definition move_figureResize (e : MouseEvent) (s : STATE) : STATE :=
  match figureResizing (drag s) && truthy (selectedFigure (drag s)),
        resizeHandle (drag s) with
  | true, Some handle =>
      let deltaX := mouseX e - figureDragStartX (drag s) in
      let deltaY := mouseY e - figureDragStartY (drag s) in
      let sizeChange := 0 in
      let sizeChange :=
        if includes handle c_e
        then sizeChange + deltaX / currentZoom (view s) else sizeChange in
      let sizeChange :=
        if includes handle c_w
        then sizeChange - deltaX / currentZoom (view s) else sizeChange in
      let sizeChange :=
        if includes handle c_s
        then sizeChange + deltaY / currentZoom (view s) else sizeChange in
      let sizeChange :=
        if includes handle c_n
        then sizeChange - deltaY / currentZoom (view s) else sizeChange in
      let newSize := figureOriginalSize (drag s) + sizeChange in
      updateFigureSize (label_key (selectedFigure (drag s))) newSize s
  | _, _ => s
  end.

(** The end-marker drag.  [None] again stands for the TypeError on a
    missing figure. *)
Definition move_linePoint (coords : Pt.t) (s : STATE) : option STATE :=
  if linePointDragging (linePoint s)
     && truthy (linePointDraggedFigure (linePoint s))
  then
    let name := label_key (linePointDraggedFigure (linePoint s)) in
    match figure_at s name with
    | None => None
    | Some _ =>
        Some
          (set_annotations
             (Store.mutate_figure (annotations s) name
                (fun figureData =>
                   let f1 :=
                     match linePointDraggedType (linePoint s) with
                     | Some pt_start =>
                         Fig.with_start (Pt.x coords) (Pt.y coords) figureData
                     | Some pt_end =>
                         Fig.with_end (Pt.x coords) (Pt.y coords) figureData
                     | None => figureData
                     end in
                   let f2 :=
                     Fig.with_xy ((Fig.startX f1 + Fig.endX f1) / 2)
                       ((Fig.startY f1 + Fig.endY f1) / 2) f1 in
                   let dx := Fig.endX f2 - Fig.startX f2 in
                   let dy := Fig.endY f2 - Fig.startY f2 in
                   Fig.with_size (Math_sqrt (dx * dx + dy * dy)) f2)) s)
    end
  else Some s.

Definition handleMouseMove (e : MouseEvent) (s : STATE) : STATE :=
  if negb (imageLoaded s) then s else
  let coords := eventToImageCoords s e in
  let s1 := move_pan e s in
  let s2 := move_polygon coords s1 in
  match move_figureDrag e s2 with
  | None => s2
  | Some s3 =>
      let s4 := move_figureResize e s3 in
      match move_linePoint coords s4 with
      | None => s4
      | Some s5 => s5
      end
  end.

(** The three completions that [handleMouseUp] may start each await a
    request of their own, hence the three replies. *)
Definition handleMouseUp (e : MouseEvent)
    (rDrawing rInteraction rLinePoint : Response) (now : string) (s : STATE)
  : STATE :=
  let s1 := set_pan (mkPan false (startDragX (pan s)) (startDragY (pan s))) s in
  let s2 := set_selectedPointIndex (-1) (set_polygonDragging false s1) in
  let s3 :=
    match figureDrawing (drawing s2), currentTool s2 with
    | true, tool_figure =>
        completeFigureDrawing (eventToImageCoords s2 e) rDrawing now s2
    | _, _ => s2
    end in
  let s4 :=
    if figureDragging (drag s3) || figureResizing (drag s3)
    then completeFigureInteraction rInteraction now s3
    else s3 in
  if linePointDragging (linePoint s4)
  then completeLinePointInteraction rLinePoint now s4
  else s4.

(** ** The functions that make a persistence call

    These are the [async] functions of the editing core that [fetch];
    [completeFigureInteraction] makes its call through
    [saveFigureUpdate]. *)
Inductive Completion : Type :=
| by_markOccluded (name : string)
| by_annotateLandmark (coords : Pt.t)
| by_deleteAnnotation (name : string) (confirmed : bool)
| by_completePolygon
| by_completeLineDrawing
| by_completeFigureDrawing (coords : Pt.t)
| by_saveFigureUpdate (figureName : string) (x y : R) (shape : Shape)
    (size : R)
| by_completeFigureInteraction
| by_completeLinePointInteraction
| by_deleteSelectedFigure.

Definition complete (c : Completion) (r : Response) (now : string)
    (s : STATE) : STATE :=
  match c with
  | by_markOccluded name => markOccluded name r now s
  | by_annotateLandmark coords => annotateLandmark coords r now s
  | by_deleteAnnotation name confirmed =>
      deleteAnnotation name confirmed r now s
  | by_completePolygon => completePolygon r now s
  | by_completeLineDrawing => completeLineDrawing r now s
  | by_completeFigureDrawing coords => completeFigureDrawing coords r now s
  | by_saveFigureUpdate figureName x y shape size =>
      saveFigureUpdate figureName x y shape size r now s
  | by_completeFigureInteraction => completeFigureInteraction r now s
  | by_completeLinePointInteraction => completeLinePointInteraction r now s
  | by_deleteSelectedFigure => deleteSelectedFigure r now s
  end.

(** ** rendering.js *)

Definition COLORS : list string :=
  ["#ff0000"; "#00ff00"; "#0000ff"; "#ffff00";
   "#ff00ff"; "#00ffff"; "#ff8000"; "#8000ff";
   "#ff0080"; "#80ff00"; "#0080ff"; "#8000ff"]%string.

(** The calls that the render pass makes. *)
Inductive RenderCall : Type :=
| renderPolygonShape (points : list Pt.t) (color : string) (name : string)
| renderFigure (data : Fig.t) (color : string) (name : string)
| renderLandmarkPoint (name : string) (coords : Pt.t) (color : string).

Definition call_name (c : RenderCall) : string :=
  match c with
  | renderPolygonShape _ _ n => n
  | renderFigure _ _ n => n
  | renderLandmarkPoint n _ _ => n
  end.

Definition call_color (c : RenderCall) : string :=
  match c with
  | renderPolygonShape _ col _ => col
  | renderFigure _ col _ => col
  | renderLandmarkPoint _ _ col => col
  end.

(** [STATE.visibilityToggles[name] === false] *)
Definition hidden (v : gmap string bool) (name : string) : bool :=
  match v !! name with
  | Some false => true
  | _ => false
  end.

(** The callback of the [forEach] over [Object.entries(STATE.annotations)],
    with its [index] argument. *)
Definition render_entry (v : gmap string bool) (index : nat)
    (entry : string * Annotation) : option RenderCall :=
  let '(name, data) := entry in
  if hidden v name then None else
  let color := nth (index mod length COLORS) COLORS ""%string in
  match data with
  | Polygon points _ => Some (renderPolygonShape points color name)
  | Figure f _ => Some (renderFigure f color name)
  | Landmark ok (Some coordinates) _ =>
      Some (renderLandmarkPoint name coordinates color)
  | Landmark _ _ _ => None
  end.

(** The render pass of [renderAnnotations], run when the dirty check does
    not skip it: the calls it makes, in order. *)
Definition renderAnnotations (s : STATE) : list RenderCall :=
  omap (fun call => call)
    (imap (render_entry (visibilityToggles s)) (Store.all (annotations s))).

(** The color under which a label is drawn in the pass, if it is drawn. *)
Definition color_of (s : STATE) (name : string) : option string :=
  call_color <$>
    head (filter (fun c => call_name c = name) (renderAnnotations s)).

(** ** Editing sessions as far as the history is concerned

    A successful mutation changes the store and then calls
    [saveToHistory].  Pointer moves of a figure manipulation change the
    store without a snapshot, and so does a manipulation whose update
    request fails. *)
Inductive HistOp : Type :=
| op_mutation (g : Store.t -> Store.t) (now : string)
| op_unsaved_change (g : Store.t -> Store.t)
| op_undo
| op_redo.

Definition hist_step (s : STATE) (o : HistOp) : STATE :=
  match o with
  | op_mutation g now =>
      saveToHistory now (set_annotations (g (annotations s)) s)
  | op_unsaved_change g => set_annotations (g (annotations s)) s
  | op_undo => undo s
  | op_redo => redo s
  end.

Definition hist_run (ops : list HistOp) (s : STATE) : STATE :=
  fold_left hist_step ops s.

(** The part of [initializeApp] that concerns the store and the history:
    the annotations delivered with the page are loaded and saved as the
    first snapshot, before any event is handled.  (The label catalogue and
    the visibility toggles, all [true] at first, are set up next to it.) *)
Definition initializeApp (currentAnnotations : Store.t) (now : string)
  : STATE :=
  saveToHistory now (initial_STATE currentAnnotations).

(** [k] calls of [undo] in a row. *)
Fixpoint undo_times (k : nat) (s : STATE) : STATE :=
  match k with
  | O => s
  | S k' => undo_times k' (undo s)
  end.

(** A successful mutation used in examples: the landmark "L1" is placed
    at (100, 50). *)
Definition create_L1 : HistOp :=
  op_mutation
    (fun a => Store.set a "L1" (Landmark ok (Some (Pt.mk 100 50)) "t1")) "t1".

(** A state in which a circle is being drawn for the label "F1", with
    its centre fixed at the origin of the image. *)
Definition drawing_circle_F1 : STATE :=
  set_drawing (mkDraw circle true 0 0 [])
    (set_selectedLabel (Some "F1"%string) (initializeApp [] "t0")).

(** A circle "F1" and a horizontal line "L1" on a loaded 200 x 200 image,
    at zoom 1 without pan offset, in panning mode. *)
Definition circle_F1 : Fig.t := Fig.mk circle 100 50 20 0 0 0 0.
Definition line_L1 : Fig.t := Fig.mk line 10 0 20 0 0 20 0.

Definition two_figures : Store.t :=
  [("F1"%string, Figure circle_F1 "t0"); ("L1"%string, Figure line_L1 "t0")].

Definition panning_STATE : STATE :=
  set_imageLoaded true
    (set_isAnnotationMode false
       (set_view (mkView 200 200 1 0 0) (initializeApp two_figures "t0"))).

(** A drag of the circle "F1": the pointer goes down on the figure's
    centre (100, 50), moves to (150, 80) and is released there; [r] is the
    reply to the update request. *)
Definition grab_F1 : FigureMouseDown :=
  mkFigureMouseDown (mkMouse 100 50) None "F1" 100 50 false.

Definition drag_F1 (r : Response) : STATE :=
  handleMouseUp (mkMouse 150 80) resp_success r resp_success "t1"
    (handleMouseMove (mkMouse 150 80)
       (handleFigureMouseDown grab_F1 panning_STATE)).

(** A resize of the circle "F1": the figure is selected by a click, the
    pointer goes down on its east handle at (110, 50), moves to (140, 50)
    and is released there. *)
Definition grab_east_handle_F1 : FigureMouseDown :=
  mkFigureMouseDown (mkMouse 110 50) (Some h_e) "F1" 100 50 false.

Definition resize_F1 (r : Response) : STATE :=
  handleMouseUp (mkMouse 140 50) resp_success r resp_success "t1"
    (handleMouseMove (mkMouse 140 50)
       (handleFigureMouseDown grab_east_handle_F1
          (handleFigureClick "F1" true panning_STATE))).

(** The invariant of a line figure: the centre is the midpoint of the two
    endpoints, the size is their distance. *)
Definition line_invariant (f : Fig.t) : Prop :=
  Fig.x f = (Fig.startX f + Fig.endX f) / 2
  /\ Fig.y f = (Fig.startY f + Fig.endY f) / 2
  /\ Fig.size f
     = distance (Fig.startX f) (Fig.startY f) (Fig.endX f) (Fig.endY f).

(** The line "L1" is selected and the right arrow key is pressed. *)
Definition nudge_L1 (r : Response) : STATE :=
  moveFigureWithArrow ArrowRight (mkMods false false false) r "t1"
    (set_selectedFigure (Some "L1"%string) panning_STATE).

(** A drag of the line "L1" whose element does not carry the class
    ['interactive']: both mouse-down handlers of the element run, the
    pointer goes down on the centre (10, 0) and moves to (30, 0). *)
Definition grab_L1 : FigureMouseDown :=
  mkFigureMouseDown (mkMouse 10 0) None "L1" 10 0 false.

Definition drag_L1 : STATE :=
  handleMouseMove (mkMouse 30 0)
    (handleLineMouseDown grab_L1 (handleFigureMouseDown grab_L1 panning_STATE)).

(** What the render pass draws of an annotation, if it is not hidden. *)
Definition drawable (data : Annotation) : bool :=
  match data with
  | Polygon _ _ => true
  | Figure _ _ => true
  | Landmark ok (Some _) _ => true
  | Landmark _ _ _ => false
  end.

(** Three landmarks "A", "B", "C", all visible. *)
Definition three_landmarks : STATE :=
  set_visibilityToggles
    (<["A"%string := true]> (<["B"%string := true]> (<["C"%string := true]> ∅)))
    (initializeApp
       [("A"%string, Landmark ok (Some (Pt.mk 1 1)) "t0");
        ("B"%string, Landmark ok (Some (Pt.mk 2 2)) "t0");
        ("C"%string, Landmark ok (Some (Pt.mk 3 3)) "t0")] "t0").

(** The invariants of the view and of the history. *)
Definition zoom_in_range (s : STATE) : Prop :=
  0.1 <= currentZoom (view s) <= maxZoom.

Definition hist_inv (s : STATE) : Prop :=
  (0 <= historyIndex s <= Z.of_nat (length (history s)) - 1)%Z
  /\ (Z.of_nat (length (history s)) <= maxHistorySize)%Z.

(** ** More of utilities.js: the undo and redo buttons *)

(** [updateUndoRedoButtons] sets the [disabled] property of the two
    buttons; it runs at the end of [saveToHistory], [undo] and [redo],
    the only functions that write the history or its cursor, so the
    buttons always show these values for the current state. *)
Definition undoBtn_disabled (s : STATE) : bool :=
  (historyIndex s <=? 0)%Z.

Definition redoBtn_disabled (s : STATE) : bool :=
  (historyIndex s >=? Z.of_nat (length (history s)) - 1)%Z.

(** The store is the snapshot under the cursor. *)
Definition synced (s : STATE) : Prop :=
  option_map h_annotations (index (history s) (historyIndex s))
  = Some (annotations s).

(** A history operation that takes its snapshot (or moves the cursor). *)
Definition saved_op (o : HistOp) : bool :=
  match o with
  | op_unsaved_change _ => false
  | _ => true
  end.

(** ** Pointer gestures *)

(** The [mousemove] events of a gesture, handled one after the other. *)
Definition mouse_moves (es : list MouseEvent) (s : STATE) : STATE :=
  fold_left (fun s' e => handleMouseMove e s') es s.

(** The pointer position of a wheel event, read the way
    [eventToImageCoords] reads a mouse event. *)
Definition wheel_mouse (e : WheelEvent) : MouseEvent :=
  mkMouse (wheelX e) (wheelY e).

(** ** More of rendering.js *)

(** [renderLandmarkPoint]: where the point element is put ([style.left],
    [style.top]); [None] when the function returns without creating
    it. *)
Definition renderLandmarkPoint_at (s : STATE) (coords : Pt.t)
  : option Pt.t :=
  if negb (isWithinImageBounds s (Pt.x coords) (Pt.y coords)) then None
  else Some (imageToDisplayCoords s (Pt.x coords) (Pt.y coords)).

(** ** Polygon gestures *)

(** The distance that [findNearestPointIndex] computes between a vertex
    and the pointer, named for use in statements. *)
Definition point_distance (point coords : Pt.t) : R :=
  Math_sqrt ((Pt.x point - Pt.x coords) * (Pt.x point - Pt.x coords)
             + (Pt.y point - Pt.y coords) * (Pt.y point - Pt.y coords)).

(** The calls of [handlePolygonDrag] during one drag, in order. *)
Definition polygon_drags (cs : list Pt.t) (s : STATE) : STATE :=
  fold_left (fun s' c => handlePolygonDrag c s') cs s.

(** A triangle loaded for editing under the label "P1", at zoom 1. *)
Definition triangle_edit : STATE :=
  set_poly (mkPoly [Pt.mk 0 0; Pt.mk 40 0; Pt.mk 40 30] edit false (-1) None)
    (set_selectedLabel (Some "P1"%string)
       (set_currentTool tool_polygon (initializeApp [] "t0"))).

(** The translation of a point by a displacement. *)
Definition shift (dx dy : R) (point : Pt.t) : Pt.t :=
  Pt.mk (Pt.x point + dx) (Pt.y point + dy).

(** ** Gestures on figures *)

(** No pointer gesture is in progress. *)
Definition idle (s : STATE) : Prop :=
  isDragging (pan s) = false
  /\ polygonDragging (poly s) = false
  /\ figureDrawing (drawing s) = false
  /\ figureDragging (drag s) = false
  /\ figureResizing (drag s) = false
  /\ linePointDragging (linePoint s) = false.

(** A mouse-down on the body of the figure [name] at the pointer position
    [e], when the figure's element is centred on the figure's centre. *)
Definition grab (s : STATE) (name : string) (f : Fig.t) (e : MouseEvent)
  : FigureMouseDown :=
  mkFigureMouseDown e None name
    (Pt.x (imageToDisplayCoords s (Fig.x f) (Fig.y f)))
    (Pt.y (imageToDisplayCoords s (Fig.x f) (Fig.y f)))
    false.

(** [renderActivePolygon]: the calls [drawPolygonLine(p1, p2)] that its
    [for] loop makes, in order. *)
Definition renderActivePolygon_lines (s : STATE) : list (Pt.t * Pt.t) :=
  let ps := activePolygonPoints (poly s) in
  let n := length ps in
  omap (fun i =>
          match ps !! i, ps !! ((i + 1) mod n)%nat with
          | Some p1, Some p2 =>
              if (i <? n - 1)%nat || (3 <=? n)%nat then Some (p1, p2)
              else None
          | _, _ => None
          end)
    (seq 0 n).

(** The [mousedown] events of a series of clicks on the image, handled
    one after the other. *)
Definition mouse_downs (es : list ContainerMouseDown) (r : Response)
    (now : string) (s : STATE) : STATE :=
  fold_left (fun s' e => handleMouseDown e r now s') es s.

(** The pointer of a mouse-down is over the image. *)
Definition over_image (s : STATE) (e : ContainerMouseDown) : Prop :=
  isWithinImageBounds s (Pt.x (eventToImageCoords s (md_mouse e)))
    (Pt.y (eventToImageCoords s (md_mouse e))) = true.

(** What a pointer move does to a line whose end marker is dragged: the
    update that [handleMouseMove] applies to the figure object, named for
    use in statements. *)
Definition drag_endpoint (ty : option PointType) (coords : Pt.t)
    (figureData : Fig.t) : Fig.t :=
  let f1 :=
    match ty with
    | Some pt_start => Fig.with_start (Pt.x coords) (Pt.y coords) figureData
    | Some pt_end => Fig.with_end (Pt.x coords) (Pt.y coords) figureData
    | None => figureData
    end in
  let f2 :=
    Fig.with_xy ((Fig.startX f1 + Fig.endX f1) / 2)
      ((Fig.startY f1 + Fig.endY f1) / 2) f1 in
  let dx := Fig.endX f2 - Fig.startX f2 in
  let dy := Fig.endY f2 - Fig.startY f2 in
  Fig.with_size (Math_sqrt (dx * dx + dy * dy)) f2.

(** * Properties *)

(* ------------------------------------------------------------------ *)

(** ** Auxiliary facts about numbers *)

Ltac rcases :=
  unfold Rltb, Rleb, Math_min, Math_max, Rmin, Rmax in *;
  repeat match goal with
         | |- context [Rlt_dec ?a ?b] => destruct (Rlt_dec a b)
         | |- context [Rle_dec ?a ?b] => destruct (Rle_dec a b)
         | H : context [Rlt_dec ?a ?b] |- _ => destruct (Rlt_dec a b)
         | H : context [Rle_dec ?a ?b] |- _ => destruct (Rle_dec a b)
         end.

Lemma Rltb_true (a b : R) : Rltb a b = true <-> a < b.
Proof. unfold Rltb. destruct (Rlt_dec a b); split; intros; try lra; congruence. Qed.

Lemma Rltb_false (a b : R) : Rltb a b = false <-> b <= a.
Proof. unfold Rltb. destruct (Rlt_dec a b); split; intros; try lra; congruence. Qed.

Lemma Math_round_bounds (v : R) : v - / 2 < Math_round v <= v + / 2.
Proof.
  unfold Math_round. pose proof (Zfloor_bound (v + / 2)) as B. lra.
Qed.

Lemma Math_round_IZR (z : Z) (v : R) :
  IZR z - / 2 <= v < IZR z + / 2 -> Math_round v = IZR z.
Proof.
  intros H. unfold Math_round. f_equal. apply Zfloor_eq. lra.
Qed.

(** ** Coordinate transform *)

(** C2.  For every image-space point and every view with a positive zoom,
    whatever the pan offsets, converting the point to display coordinates
    and back gives the point again, exactly. *)
Theorem displayToImage_imageToDisplay (s : STATE) (imageX imageY : R) :
  currentZoom (view s) > 0 ->
  displayToImageCoords s
    (Pt.x (imageToDisplayCoords s imageX imageY))
    (Pt.y (imageToDisplayCoords s imageX imageY))
  = Pt.mk imageX imageY.
Proof.
  intros Hz. unfold displayToImageCoords, imageToDisplayCoords. simpl.
  f_equal; field; lra.
Qed.

Lemma displayToImage_imageToDisplay_witness :
  displayToImageCoords
    (set_translate 7 (-3) (set_currentZoom 2.5 (initial_STATE [])))
    (Pt.x (imageToDisplayCoords
             (set_translate 7 (-3) (set_currentZoom 2.5 (initial_STATE [])))
             100 50))
    (Pt.y (imageToDisplayCoords
             (set_translate 7 (-3) (set_currentZoom 2.5 (initial_STATE [])))
             100 50))
  = Pt.mk 100 50.
Proof.
  apply displayToImage_imageToDisplay. simpl. lra.
Defined.

(** ** Zoom bounds *)

Lemma zoomIn_in_range (s : STATE) : zoom_in_range s -> zoom_in_range (zoomIn s).
Proof.
  unfold zoom_in_range, zoomIn, maxZoom. intros H.
  destruct (Rltb (currentZoom (view s)) 1000) eqn:E; simpl; [|exact H].
  apply Rltb_true in E. rcases; lra.
Qed.

Lemma zoomOut_in_range (s : STATE) :
  zoom_in_range s -> zoom_in_range (zoomOut s).
Proof.
  unfold zoom_in_range, zoomOut, maxZoom. intros H.
  destruct (Rltb 0.1 (currentZoom (view s))) eqn:E; simpl; [|exact H].
  apply Rltb_true in E. rcases; lra.
Qed.

Lemma handleWheel_in_range (e : WheelEvent) (s : STATE) :
  zoom_in_range (handleWheel e s).
Proof.
  unfold zoom_in_range, handleWheel, maxZoom. simpl.
  generalize (currentZoom (view s) * (if Rltb 0 (deltaY e) then 0.8 else 1.25)).
  intros v. rcases; lra.
Qed.

Lemma resetView_in_range (w h : R) (s : STATE) :
  zoom_in_range (resetView w h s).
Proof.
  unfold zoom_in_range, resetView, maxZoom.
  repeat match goal with |- context [if ?c then _ else _] => destruct c end;
    simpl; lra.
Qed.

Lemma view_step_in_range (s : STATE) (o : ViewOp) :
  zoom_in_range s -> zoom_in_range (view_step s o).
Proof.
  intros H. destruct o; simpl.
  - now apply zoomIn_in_range.
  - now apply zoomOut_in_range.
  - apply handleWheel_in_range.
  - apply resetView_in_range.
Qed.

Lemma view_run_in_range (ops : list ViewOp) (s : STATE) :
  zoom_in_range s -> zoom_in_range (view_run ops s).
Proof.
  revert s. induction ops as [|o ops IH]; intros s H; simpl; [exact H|].
  apply IH. now apply view_step_in_range.
Qed.

(** C9.  After any sequence of zoomIn, zoomOut, handleWheel and resetView
    calls from the initial state, the zoom level lies in [0.1, 1000]; it is
    therefore not zero, and the coordinate conversions divide by a
    non-zero number. *)
Theorem currentZoom_in_range (currentAnnotations : Store.t)
    (ops : list ViewOp) :
  let s := view_run ops (initial_STATE currentAnnotations) in
  0.1 <= currentZoom (view s) <= 1000 /\ currentZoom (view s) <> 0.
Proof.
  intros s.
  assert (H : zoom_in_range s).
  { apply view_run_in_range. unfold zoom_in_range, maxZoom. simpl. lra. }
  unfold zoom_in_range, maxZoom in H. split; lra.
Qed.

(** ** History Manager *)

Lemma slice0_length {A : Type} (l : list A) (e : Z) :
  (0 <= e <= Z.of_nat (length l))%Z -> Z.of_nat (length (slice0 l e)) = e.
Proof.
  intros H. unfold slice0.
  destruct (e <? 0)%Z eqn:E; [apply Z.ltb_lt in E; lia|].
  rewrite length_firstn. lia.
Qed.

(** What one [saveToHistory] does to a history whose cursor is in range
    (or still at its initial -1 over the empty list). *)
Lemma saveToHistory_spec (now : string) (s : STATE) :
  (-1 <= historyIndex s <= Z.of_nat (length (history s)) - 1)%Z ->
  (Z.of_nat (length (history s)) <= maxHistorySize)%Z ->
  let s' := saveToHistory now s in
  historyIndex s' = (Z.of_nat (length (history s')) - 1)%Z
  /\ (1 <= Z.of_nat (length (history s')) <= maxHistorySize)%Z
  /\ last (history s') = Some (mkEntry (annotations s) now)
  /\ annotations s' = annotations s.
Proof.
  intros Hi Hl. unfold saveToHistory, deepClone, maxHistorySize in *.
  set (h1 := if (historyIndex s <? Z.of_nat (length (history s)) - 1)%Z
             then slice0 (history s) (historyIndex s + 1) else history s).
  assert (L1 : Z.of_nat (length h1) = (historyIndex s + 1)%Z).
  { subst h1. destruct (_ <? _)%Z eqn:E.
    - apply Z.ltb_lt in E. apply slice0_length. lia.
    - apply Z.ltb_ge in E. lia. }
  assert (L2 : Z.of_nat (length (h1 ++ [mkEntry (annotations s) now]))
               = (historyIndex s + 2)%Z).
  { rewrite length_app. simpl. lia. }
  destruct (_ >? 50)%Z eqn:E; simpl.
  - apply Z.gtb_lt in E.
    destruct h1 as [|e0 h1']; simpl in *; [lia|].
    rewrite length_app in *. simpl in *.
    repeat split; try lia. apply last_snoc.
  - rewrite Z.gtb_ltb in E. apply Z.ltb_ge in E.
    repeat split; try lia. apply last_snoc.
Qed.

Lemma saveToHistory_inv (now : string) (s : STATE) :
  hist_inv s -> hist_inv (saveToHistory now s).
Proof.
  intros [Hi Hl].
  destruct (saveToHistory_spec now s) as (A & B & _); [lia|exact Hl|].
  unfold hist_inv. lia.
Qed.

Lemma index_in_range {A : Type} (l : list A) (i : Z) :
  (0 <= i < Z.of_nat (length l))%Z -> exists a, index l i = Some a.
Proof.
  intros H. unfold index.
  destruct (i <? 0)%Z eqn:E; [apply Z.ltb_lt in E; lia|].
  destruct (nth_error l (Z.to_nat i)) eqn:N; [eauto|].
  apply nth_error_None in N. lia.
Qed.

Lemma undo_at_zero (s : STATE) : historyIndex s = 0%Z -> undo s = s.
Proof. intros H. unfold undo. rewrite H. reflexivity. Qed.

Lemma undo_step (s : STATE) :
  hist_inv s -> (0 < historyIndex s)%Z ->
  historyIndex (undo s) = (historyIndex s - 1)%Z
  /\ history (undo s) = history s
  /\ option_map h_annotations (index (history s) (historyIndex s - 1))
     = Some (annotations (undo s)).
Proof.
  intros [Hi Hl] Hp. unfold undo.
  destruct (historyIndex s >? 0)%Z eqn:E;
    [|rewrite Z.gtb_ltb in E; apply Z.ltb_ge in E; lia].
  simpl.
  destruct (index_in_range (history s) (historyIndex s - 1)) as [e He];
    [lia|].
  rewrite He. simpl. auto.
Qed.

Lemma undo_inv (s : STATE) : hist_inv s -> hist_inv (undo s).
Proof.
  intros H. destruct (Z.eq_dec (historyIndex s) 0%Z) as [E|E].
  - now rewrite undo_at_zero.
  - pose proof H as [Hi Hl].
    destruct (undo_step s H) as (A & B & _); [lia|].
    unfold hist_inv. rewrite A, B. lia.
Qed.

Lemma redo_inv (s : STATE) : hist_inv s -> hist_inv (redo s).
Proof.
  intros [Hi Hl]. unfold redo.
  destruct (_ <? _)%Z eqn:E; [|split; assumption].
  apply Z.ltb_lt in E. simpl.
  destruct (index_in_range (history s) (historyIndex s + 1)) as [e He];
    [lia|].
  rewrite He. unfold hist_inv. simpl. lia.
Qed.

Lemma initializeApp_inv (currentAnnotations : Store.t) (now : string) :
  hist_inv (initializeApp currentAnnotations now).
Proof.
  unfold initializeApp.
  destruct (saveToHistory_spec now (initial_STATE currentAnnotations))
    as (A & B & _); simpl; unfold maxHistorySize; try lia.
  unfold hist_inv. lia.
Qed.

Lemma hist_step_inv (s : STATE) (o : HistOp) :
  hist_inv s -> hist_inv (hist_step s o).
Proof.
  intros H. destruct o; simpl.
  - apply saveToHistory_inv. exact H.
  - exact H.
  - now apply undo_inv.
  - now apply redo_inv.
Qed.

Lemma hist_run_inv (ops : list HistOp) (s : STATE) :
  hist_inv s -> hist_inv (hist_run ops s).
Proof.
  revert s. induction ops as [|o ops IH]; intros s H; simpl; [exact H|].
  apply IH. now apply hist_step_inv.
Qed.

(** Undoing at least as often as the cursor is high ends at cursor 0, on
    the snapshot stored first, with the list of snapshots untouched. *)
Lemma undo_times_bottom (k : nat) (s : STATE) :
  hist_inv s -> (historyIndex s <= Z.of_nat k)%Z ->
  historyIndex (undo_times k s) = 0%Z
  /\ history (undo_times k s) = history s
  /\ ((0 < historyIndex s)%Z ->
      option_map h_annotations (head (history s))
      = Some (annotations (undo_times k s))).
Proof.
  revert s. induction k as [|k IH]; intros s H Hk; simpl.
  - destruct H as [Hi Hl]. repeat split; lia.
  - destruct (Z.eq_dec (historyIndex s) 0%Z) as [E|E].
    + rewrite (undo_at_zero s E).
      destruct (IH s H) as (A & B & C); [lia|]. repeat split; auto; lia.
    + pose proof H as [Hi Hl].
      destruct (undo_step s H) as (A & B & C); [lia|].
      destruct (IH (undo s) (undo_inv s H)) as (A' & B' & C'); [lia|].
      rewrite A', B', B. repeat split; auto. intros _.
      destruct (Z.eq_dec (historyIndex s) 1%Z) as [E1|E1].
      * rewrite E1 in C. simpl in C. unfold index in C. simpl in C.
        destruct (history s) as [|e h]; simpl in *; [discriminate|].
        rewrite C. f_equal.
        assert (Z0 : historyIndex (undo s) = 0%Z) by lia.
        clear -Z0. generalize (undo s) Z0. clear.
        induction k as [|k IHk]; intros u Hu; simpl; [reflexivity|].
        rewrite (undo_at_zero u Hu). now apply IHk.
      * rewrite <- B. apply C'. lia.
Qed.

(** A save on a full history whose cursor is on the newest entry drops
    the oldest entry and leaves the cursor where it is. *)
Lemma saveToHistory_evicts (now : string) (s : STATE) :
  length (history s) = 50%nat -> historyIndex s = 49%Z ->
  history (saveToHistory now s)
  = tl (history s) ++ [mkEntry (annotations s) now]
  /\ historyIndex (saveToHistory now s) = 49%Z.
Proof.
  intros Hl Hi. unfold saveToHistory, deepClone, maxHistorySize.
  rewrite Hl, Hi. change (49 <? Z.of_nat 50 - 1)%Z with false. cbv iota.
  rewrite length_app, Hl.
  change (Z.of_nat (50 + length [mkEntry (annotations s) now]) >? 50)%Z
    with true.
  cbv iota. destruct (history s) as [|e h]; [discriminate|]. simpl. auto.
Qed.

(** Sixty successful mutations in a row. *)
Example sixty_mutations :
  let s := hist_run (repeat (op_mutation (fun a => a) "t") 60)
             (initializeApp [] "t0") in
  length (history s) = 50%nat
  /\ historyIndex s = 49%Z
  /\ historyIndex (undo_times 60 s) = 0%Z
  /\ history (undo_times 60 s) = history s.
Proof.
  intros s.
  assert (L : length (history s) = 50%nat) by reflexivity.
  assert (I : historyIndex s = 49%Z) by reflexivity.
  split; [exact L|]. split; [exact I|].
  destruct (undo_times_bottom 60 s) as (A & B & _).
  - apply hist_run_inv, initializeApp_inv.
  - rewrite I. lia.
  - auto.
Qed.

(** C3.  In every state reached from the start of a session by successful
    mutations, undos and redos (and store changes that take no snapshot):
    the history holds at most 50 snapshots; the
    cursor lies in [0, length - 1]; [undo] at cursor 0 changes nothing;
    undoing repeatedly ends at cursor 0 on the oldest retained snapshot and
    goes no further; and a further successful mutation leaves the cursor on
    the newest entry, which is the snapshot just taken, dropping the oldest
    entry from the front when the history was full. *)
Theorem history_bounds (currentAnnotations : Store.t) (t0 : string)
    (ops : list HistOp) :
  let s := hist_run ops (initializeApp currentAnnotations t0) in
  (length (history s) <= 50)%nat
  /\ (0 <= historyIndex s <= Z.of_nat (length (history s)) - 1)%Z
  /\ (historyIndex s = 0%Z -> undo s = s)
  /\ (forall k : nat,
        (historyIndex s <= Z.of_nat k)%Z ->
        historyIndex (undo_times k s) = 0%Z
        /\ history (undo_times k s) = history s
        /\ ((0 < historyIndex s)%Z ->
            option_map h_annotations (head (history s))
            = Some (annotations (undo_times k s))))
  /\ (forall (g : Store.t -> Store.t) (now : string),
        let s' := hist_step s (op_mutation g now) in
        (length (history s') <= 50)%nat
        /\ historyIndex s' = (Z.of_nat (length (history s')) - 1)%Z
        /\ last (history s') = Some (mkEntry (g (annotations s)) now)
        /\ (length (history s) = 50%nat -> historyIndex s = 49%Z ->
            history s' = tl (history s) ++ [mkEntry (g (annotations s)) now])).
Proof.
  intros s.
  assert (H : hist_inv s) by (apply hist_run_inv, initializeApp_inv).
  pose proof H as [Hi Hl]. unfold maxHistorySize in Hl.
  split; [lia|]. split; [lia|]. split; [apply undo_at_zero|].
  split; [intros k Hk; now apply undo_times_bottom|].
  intros g now s'. subst s'. simpl.
  set (s1 := set_annotations (g (annotations s)) s).
  destruct (saveToHistory_spec now s1) as (A & B & C & _);
    [simpl; lia|simpl; unfold maxHistorySize; lia|].
  unfold maxHistorySize in B.
  split; [lia|]. split; [exact A|]. split; [exact C|].
  intros L I. apply (saveToHistory_evicts now s1); assumption.
Qed.

Lemma history_bounds_witness :
  (let s := hist_run [create_L1; op_undo] (initializeApp [] "t0") in
   undo s = s)
  /\ (let s := hist_run [create_L1; op_undo; op_redo]
                 (initializeApp [] "t0") in
      historyIndex (undo_times 2 s) = 0%Z
      /\ option_map h_annotations (head (history s))
         = Some (annotations (undo_times 2 s))).
Proof.
  split.
  - intros s.
    pose proof (history_bounds [] "t0" [create_L1; op_undo])
      as (_ & _ & U & _).
    apply U. reflexivity.
  - intros s.
    pose proof (history_bounds [] "t0" [create_L1; op_undo; op_redo])
      as (_ & _ & _ & K & _).
    destruct (K 2%nat) as (A & _ & C); [discriminate|].
    split; [exact A|]. apply C. reflexivity.
Defined.

(** ** The store *)

Lemma Store_get_set_eq (s : Store.t) (k : string) (a : Annotation) :
  Store.get (Store.set s k a) k = Some a.
Proof.
  induction s as [|[k' a'] r IH]; simpl.
  - now rewrite String.eqb_refl.
  - destruct (String.eqb k k') eqn:E; simpl; rewrite E; auto.
Qed.

Lemma Store_get_set_ne (s : Store.t) (k k' : string) (a : Annotation) :
  k <> k' -> Store.get (Store.set s k a) k' = Store.get s k'.
Proof.
  intros N. induction s as [|[k0 a0] r IH]; simpl.
  - destruct (String.eqb k' k) eqn:E; [|reflexivity].
    apply String.eqb_eq in E. congruence.
  - destruct (String.eqb k k0) eqn:E; simpl.
    + apply String.eqb_eq in E. subst k0.
      destruct (String.eqb k' k) eqn:E'; [|reflexivity].
      apply String.eqb_eq in E'. congruence.
    + destruct (String.eqb k' k0); auto.
Qed.

Lemma Store_get_mutate_eq (s : Store.t) (k : string) (g : Fig.t -> Fig.t)
    (f : Fig.t) (ts : string) :
  Store.get s k = Some (Figure f ts) ->
  Store.get (Store.mutate_figure s k g) k = Some (Figure (g f) ts).
Proof.
  intros H. unfold Store.mutate_figure. rewrite H. apply Store_get_set_eq.
Qed.

Lemma Store_get_mutate_ne (s : Store.t) (k k' : string) (g : Fig.t -> Fig.t) :
  k <> k' -> Store.get (Store.mutate_figure s k g) k' = Store.get s k'.
Proof.
  intros N. unfold Store.mutate_figure.
  destruct (Store.get s k) as [[| |f ts]|]; auto.
  now apply Store_get_set_ne.
Qed.

Lemma figure_at_get (s : STATE) (name : string) (f : Fig.t) :
  figure_at s name = Some f ->
  exists ts, Store.get (annotations s) name = Some (Figure f ts).
Proof.
  unfold figure_at. destruct (Store.get _ _) as [[| |f' ts]|]; try discriminate.
  intros [= ->]. eauto.
Qed.

(** [saveToHistory] touches the history and nothing else. *)
Lemma saveToHistory_annotations (now : string) (s : STATE) :
  annotations (saveToHistory now s) = annotations s.
Proof. unfold saveToHistory. destruct (_ >? _)%Z; reflexivity. Qed.

Lemma saveToHistory_log (now : string) (s : STATE) :
  log (saveToHistory now s) = log s.
Proof. unfold saveToHistory. destruct (_ >? _)%Z; reflexivity. Qed.

(** ** Landmarks *)

(** C6.  A successful [occluded] action leaves under the label a landmark
    record whose status is the occluded one and which has no coordinates;
    a successful [coordinates] action leaves one with status ok and with
    coordinates.  In the records these two actions write, coordinates are
    present exactly when the status is ok. *)
Theorem markOccluded_success (name : string) (coords : Pt.t)
    (now : string) (s : STATE) :
  let occ := Store.get (annotations (markOccluded name resp_success now s))
               name in
  let lm := Store.get
              (annotations (annotateLandmark coords resp_success now s))
              (label_key (selectedLabel s)) in
  occ = Some (Landmark occluded_missing None now)
  /\ status_of <$> occ = Some occluded_missing
  /\ occ ≫= coordinates_of = None
  /\ lm = Some (Landmark ok (Some coords) now)
  /\ status_of <$> lm = Some ok
  /\ lm ≫= coordinates_of = Some coords
  /\ (forall a : Annotation,
        occ = Some a \/ lm = Some a ->
        (is_Some (coordinates_of a) <-> status_of a = ok)).
Proof.
  intros occ lm.
  assert (Ho : occ = Some (Landmark occluded_missing None now)).
  { subst occ. unfold markOccluded. simpl.
    rewrite saveToHistory_annotations. simpl. apply Store_get_set_eq. }
  assert (Hl : lm = Some (Landmark ok (Some coords) now)).
  { subst lm. unfold annotateLandmark. simpl.
    rewrite saveToHistory_annotations. simpl. destruct coords as [cx cy].
    apply Store_get_set_eq. }
  rewrite Ho, Hl. repeat split; try reflexivity.
  - intros [c Hc]. destruct H as [[= <-]|[= <-]]; simpl in *;
      [discriminate|reflexivity].
  - intros Hs. destruct H as [[= <-]|[= <-]]; simpl in *;
      [discriminate|eauto].
Qed.

Lemma markOccluded_success_witness :
  let s := set_selectedLabel (Some "L1"%string) (initializeApp [] "t0") in
  is_Some (coordinates_of (Landmark occluded_missing None "t1"))
  <-> status_of (Landmark occluded_missing None "t1") = ok.
Proof.
  intros s.
  pose proof (markOccluded_success "L1" (Pt.mk 100 50) "t1" s)
    as (Ho & _ & _ & _ & _ & _ & W).
  apply W. left. exact Ho.
Defined.

(** ** Counting requests in the log *)

Lemma fetch_count_fetch (ep : Endpoint) (l : string) (b : Body)
    (evs : list Event) :
  fetch_count (ev_fetch ep l b :: evs) = S (fetch_count evs).
Proof. unfold fetch_count. rewrite filter_cons. simpl. reflexivity. Qed.

Lemma fetch_count_message (text : string) (ty : MsgType) (evs : list Event) :
  fetch_count (ev_message text ty :: evs) = fetch_count evs.
Proof. unfold fetch_count. rewrite filter_cons. simpl. reflexivity. Qed.

(** ** Polygons *)

Lemma handlePolygonClick_draw (coords : Pt.t) (s : STATE) :
  polygonTool (poly s) = draw ->
  handlePolygonClick coords s
  = set_activePolygonPoints (activePolygonPoints (poly s) ++ [coords]) s.
Proof.
  intros H. unfold handlePolygonClick. rewrite H. now destruct coords.
Qed.

Lemma completePolygon_success (now : string) (s : STATE) :
  (3 <= length (activePolygonPoints (poly s)))%nat ->
  let s' := completePolygon resp_success now s in
  Store.get (annotations s') (label_key (selectedLabel s))
  = Some (Polygon (activePolygonPoints (poly s)) now)
  /\ fetch_count (log s') = S (fetch_count (log s)).
Proof.
  intros H. unfold completePolygon.
  destruct (_ <? 3)%nat eqn:E; [apply Nat.ltb_lt in E; lia|].
  simpl. rewrite saveToHistory_annotations, saveToHistory_log. simpl.
  split; [apply Store_get_set_eq|].
  now rewrite fetch_count_message, fetch_count_fetch.
Qed.

(** C5.  Completing a polygon with fewer than three transient points only
    shows a warning: the store, the history and the number of requests are
    unchanged.  Three clicks in draw mode followed by a completion that the
    server accepts store under the selected label a polygon whose points
    are the three clicked points in click order, after exactly one
    request. *)
Theorem polygon_minimum (r : Response) (now : string) (s : STATE) :
  ((length (activePolygonPoints (poly s)) < 3)%nat ->
   let s' := completePolygon r now s in
   annotations s' = annotations s
   /\ history s' = history s
   /\ log s' = ev_message "Need at least 3 points" warning :: log s
   /\ fetch_count (log s') = fetch_count (log s))
  /\ (forall p1 p2 p3 : Pt.t,
        polygonTool (poly s) = draw ->
        activePolygonPoints (poly s) = [] ->
        let s3 :=
          handlePolygonClick p3
            (handlePolygonClick p2 (handlePolygonClick p1 s)) in
        let s' := completePolygon resp_success now s3 in
        activePolygonPoints (poly s3) = [p1; p2; p3]
        /\ Store.get (annotations s') (label_key (selectedLabel s))
           = Some (Polygon [p1; p2; p3] now)
        /\ (length <$>
              (Store.get (annotations s') (label_key (selectedLabel s))
                 ≫= points_of)) = Some 3%nat
        /\ fetch_count (log s') = S (fetch_count (log s))).
Proof.
  split.
  - intros H. unfold completePolygon.
    destruct (_ <? 3)%nat eqn:E; [|apply Nat.ltb_ge in E; lia].
    simpl. repeat split.
  - intros p1 p2 p3 Hd He s3 s'.
    assert (H3 : s3 = set_activePolygonPoints [p1; p2; p3] s).
    { subst s3. rewrite (handlePolygonClick_draw p1 s Hd), He. simpl.
      rewrite (handlePolygonClick_draw p2 (set_activePolygonPoints [p1] s))
        by exact Hd.
      rewrite handlePolygonClick_draw by exact Hd. reflexivity. }
    destruct (completePolygon_success now s3) as [A B].
    { rewrite H3. simpl. lia. }
    fold s' in A, B. rewrite H3 in A, B. simpl in A, B.
    split; [rewrite H3; reflexivity|].
    split; [exact A|]. split; [rewrite A; reflexivity|exact B].
Qed.

Lemma polygon_minimum_witness :
  let s := set_selectedLabel (Some "P1"%string) (initializeApp [] "t0") in
  (let s2 := handlePolygonClick (Pt.mk 50 10)
               (handlePolygonClick (Pt.mk 10 10) s) in
   annotations (completePolygon resp_success "t1" s2) = []
   /\ fetch_count (log (completePolygon resp_success "t1" s2)) = 0%nat)
  /\ (let s3 := handlePolygonClick (Pt.mk 50 50)
                  (handlePolygonClick (Pt.mk 50 10)
                     (handlePolygonClick (Pt.mk 10 10) s)) in
      Store.get (annotations (completePolygon resp_success "t1" s3)) "P1"
      = Some (Polygon [Pt.mk 10 10; Pt.mk 50 10; Pt.mk 50 50] "t1")).
Proof.
  intros s. split.
  - intros s2.
    destruct (polygon_minimum resp_success "t1" s2) as [A _].
    destruct A as (A1 & _ & _ & A4); [simpl; lia|].
    split; [exact A1|exact A4].
  - intros s3.
    destruct (polygon_minimum resp_success "t1" s) as [_ B].
    destruct (B (Pt.mk 10 10) (Pt.mk 50 10) (Pt.mk 50 50)) as (_ & B2 & _);
      [reflexivity|reflexivity|].
    exact B2.
Defined.

(** ** Drawing circles and rectangles *)

Lemma Math_round_lt_10 (v : R) : Math_round v < 10 <-> v < 9.5.
Proof.
  unfold Math_round. pose proof (Zfloor_bound (v + / 2)) as [L U].
  split; intros H.
  - apply lt_IZR in H.
    assert (Zfloor (v + / 2) <= 9)%Z as H' by lia.
    apply IZR_le in H'. lra.
  - assert (IZR (Zfloor (v + / 2)) < IZR 10) as H' by lra.
    exact H'.
Qed.

Lemma sqrt_sum_squares_axis (a : R) : 0 <= a -> sqrt (a * a + 0 * 0) = a.
Proof.
  intros H. replace (a * a + 0 * 0) with (a * a) by lra.
  now apply sqrt_square.
Qed.

Lemma completeFigureDrawing_small (coords : Pt.t) (r : Response)
    (now : string) (s : STATE) :
  figureDrawing (drawing s) = true ->
  drawn_size coords s < 10 ->
  completeFigureDrawing coords r now s
  = set_figureDrawing false
      (showMessage "Figure too small, draw larger" warning s).
Proof.
  intros Hd Hs. unfold completeFigureDrawing. rewrite Hd. simpl negb. cbv iota.
  fold (drawn_size coords s).
  apply Rltb_true in Hs. rewrite Hs. reflexivity.
Qed.

Lemma completeFigureDrawing_large (coords : Pt.t) (r : Response)
    (now : string) (s : STATE) :
  figureDrawing (drawing s) = true ->
  10 <= drawn_size coords s ->
  completeFigureDrawing coords r now s
  = let shape := figureShape (drawing s) in
    let centerX := figureStartX (drawing s) in
    let centerY := figureStartY (drawing s) in
    let s1 :=
      fetch api_figures (label_key (selectedLabel s))
        (act_figure centerX centerY shape (drawn_size coords s)) s in
    set_figureDrawing false
      match r with
      | resp_success =>
          showMessage "Created figure" success
            (saveToHistory now
               (set_annotations
                  (Store.set (annotations s1) (label_key (selectedLabel s1))
                     (Figure
                        (Fig.mk shape centerX centerY (drawn_size coords s)
                           0 0 0 0) now)) s1))
      | resp_failure => s1
      | resp_throw => showMessage "Failed to save figure" error s1
      end.
Proof.
  intros Hd Hs. unfold completeFigureDrawing. rewrite Hd. simpl negb. cbv iota.
  fold (drawn_size coords s).
  apply Rltb_false in Hs. rewrite Hs. reflexivity.
Qed.

Lemma completeFigureDrawing_accepted (coords : Pt.t) (now : string)
    (s : STATE) :
  figureDrawing (drawing s) = true ->
  10 <= drawn_size coords s ->
  let s' := completeFigureDrawing coords resp_success now s in
  fetch_count (log s') = S (fetch_count (log s))
  /\ Store.get (annotations s') (label_key (selectedLabel s))
     = Some (Figure
               (Fig.mk (figureShape (drawing s)) (figureStartX (drawing s))
                  (figureStartY (drawing s)) (drawn_size coords s) 0 0 0 0)
               now).
Proof.
  intros Hd Hs s'. subst s'.
  rewrite (completeFigureDrawing_large coords resp_success now s Hd Hs).
  simpl. rewrite saveToHistory_annotations, saveToHistory_log. simpl.
  rewrite fetch_count_message, fetch_count_fetch.
  split; [reflexivity|apply Store_get_set_eq].
Qed.

(** C7, as the code has it.  On pointer-up of a circle or rectangle
    gesture the size is twice the distance between centre and pointer,
    rounded to the nearest integer.  If the rounded size is at least 10,
    that is, if twice the distance is at least 9.5, exactly one request is
    sent and a successful reply writes the figure with the rounded size
    under the selected label, while any other reply leaves the store
    unchanged.  If the rounded size is below 10 the gesture ends with the
    "too small" warning: no request, store and history unchanged. *)
Theorem figure_minimum_size (coords : Pt.t) (r : Response) (now : string)
    (s : STATE) :
  figureDrawing (drawing s) = true ->
  let size := drawn_size coords s in
  let s' := completeFigureDrawing coords r now s in
  (10 <= size <-> 9.5 <= twice_distance coords s)
  /\ (size < 10 ->
      annotations s' = annotations s
      /\ history s' = history s
      /\ log s' = ev_message "Figure too small, draw larger" warning :: log s
      /\ fetch_count (log s') = fetch_count (log s)
      /\ figureDrawing (drawing s') = false)
  /\ (10 <= size ->
      fetch_count (log s') = S (fetch_count (log s))
      /\ In (ev_fetch api_figures (label_key (selectedLabel s))
               (act_figure (figureStartX (drawing s))
                  (figureStartY (drawing s)) (figureShape (drawing s)) size))
            (log s')
      /\ (r = resp_success ->
          Store.get (annotations s') (label_key (selectedLabel s))
          = Some (Figure
                    (Fig.mk (figureShape (drawing s))
                       (figureStartX (drawing s)) (figureStartY (drawing s))
                       size 0 0 0 0) now))
      /\ (r <> resp_success -> annotations s' = annotations s)
      /\ figureDrawing (drawing s') = false).
Proof.
  intros Hd size s'. split; [|split].
  - subst size. unfold drawn_size, twice_distance, distance, Math_sqrt.
    set (d := sqrt _).
    pose proof (Math_round_lt_10 (d * 2)) as [A B].
    split; intros H.
    + destruct (Rlt_dec (2 * d) 9.5) as [L|L]; [|lra].
      assert (Math_round (d * 2) < 10) by (apply B; lra). lra.
    + destruct (Rlt_dec (Math_round (d * 2)) 10) as [L|L]; [|lra].
      apply A in L. lra.
  - intros Hs. subst s'.
    rewrite (completeFigureDrawing_small coords r now s Hd Hs). simpl.
    repeat split.
  - intros Hs. subst s'.
    rewrite (completeFigureDrawing_large coords r now s Hd Hs). fold size.
    destruct r; simpl;
      rewrite ?saveToHistory_annotations, ?saveToHistory_log; simpl;
      rewrite ?fetch_count_message, ?fetch_count_fetch.
    + repeat split; auto.
      * intros _. apply Store_get_set_eq.
      * intros N. congruence.
    + repeat split; auto. intros [=].
    + repeat split; auto. intros [=].
Qed.

Lemma drawing_circle_F1_size :
  twice_distance (Pt.mk 4.8 0) drawing_circle_F1 = 9.6
  /\ drawn_size (Pt.mk 4.8 0) drawing_circle_F1 = 10.
Proof.
  unfold twice_distance, drawn_size, distance, Math_sqrt. simpl.
  replace (4.8 - 0) with 4.8 by lra. replace (0 - 0) with 0 by lra.
  rewrite sqrt_sum_squares_axis by lra.
  split; [lra|]. apply (Math_round_IZR 10). lra.
Qed.

Lemma figure_minimum_size_witness :
  let s' := completeFigureDrawing (Pt.mk 4.8 0) resp_success "t1"
              drawing_circle_F1 in
  fetch_count (log s') = 1%nat
  /\ Store.get (annotations s') "F1"
     = Some (Figure (Fig.mk circle 0 0 10 0 0 0 0) "t1").
Proof.
  intros s'.
  destruct drawing_circle_F1_size as [_ Hs].
  destruct (figure_minimum_size (Pt.mk 4.8 0) resp_success "t1"
              drawing_circle_F1 eq_refl) as (_ & _ & L).
  destruct L as (A & _ & B & _); [rewrite Hs; lra|].
  split; [exact A|]. rewrite Hs in B. apply B. reflexivity.
Defined.

(** C7 as stated fails: with the centre at (0, 0) and the pointer released
    at (4.8, 0), twice the distance is 9.6, below 10, and yet the figure is
    submitted and, on success, stored with size 10. *)
Lemma figure_minimum_size_counterexample :
  let s := drawing_circle_F1 in
  let s' := completeFigureDrawing (Pt.mk 4.8 0) resp_success "t1" s in
  twice_distance (Pt.mk 4.8 0) s < 10
  /\ fetch_count (log s') = S (fetch_count (log s))
  /\ Store.get (annotations s') "F1"
     = Some (Figure (Fig.mk circle 0 0 10 0 0 0 0) "t1")
  /\ ~ (fetch_count (log s') = S (fetch_count (log s))
        <-> 10 <= twice_distance (Pt.mk 4.8 0) s).
Proof.
  intros s s'. destruct drawing_circle_F1_size as [Hd Hs].
  destruct (completeFigureDrawing_accepted (Pt.mk 4.8 0) "t1" s) as [F G];
    [reflexivity|subst s; rewrite Hs; lra|].
  fold s' in F, G.
  split; [subst s; rewrite Hd; lra|]. split; [exact F|]. split.
  - subst s. rewrite Hs in G. exact G.
  - intros [H _]. specialize (H F). subst s. rewrite Hd in H. lra.
Qed.

(** ** Updating figures *)

(** Whatever the reply, handling it leaves the store alone and sends
    nothing. *)
Lemma saveFigureUpdate_settled_annotations (r : Response) (now : string)
    (s : STATE) :
  annotations (saveFigureUpdate_settled r now s) = annotations s.
Proof.
  destruct r; simpl; rewrite ?saveToHistory_annotations; reflexivity.
Qed.

Lemma saveFigureUpdate_settled_fetch_count (r : Response) (now : string)
    (s : STATE) :
  fetch_count (log (saveFigureUpdate_settled r now s)) = fetch_count (log s).
Proof.
  destruct r; simpl; rewrite ?fetch_count_message, ?saveToHistory_log;
    reflexivity.
Qed.

Lemma truthy_Some (name : string) :
  name <> ""%string -> truthy (Some name) = true.
Proof.
  intros H. unfold truthy. destruct (String.eqb name "") eqn:E; [|reflexivity].
  apply String.eqb_eq in E. contradiction.
Qed.

Lemma Rmax_Rmin_clamp (w v : R) :
  0 <= w -> 0 <= Rmax 0 (Rmin w v) <= w /\ (0 <= v <= w -> Rmax 0 (Rmin w v) = v).
Proof. intros H. unfold Rmax, Rmin. rcases; lra. Qed.

(** C8.  An arrow key pressed while a figure is selected moves the
    figure's centre along the key's axis by 10 with Shift, else by 0.5 with
    Ctrl or Cmd, else by 1; both coordinates of the result are clamped into
    [0, naturalWidth] x [0, naturalHeight]; the other fields of the figure
    and the other entries of the store stay as they are; and exactly one
    request is sent for the key press. *)
Theorem arrow_nudge (direction : ArrowKey) (event : KeyMods) (r : Response)
    (now : string) (s : STATE) (name : string) (f : Fig.t) :
  selectedFigure (drag s) = Some name ->
  name <> ""%string ->
  figure_at s name = Some f ->
  0 <= naturalWidth (view s) ->
  0 <= naturalHeight (view s) ->
  let step :=
    if shiftKey event then 10
    else if ctrlKey event || metaKey event then 0.5
    else 1 in
  let targetX :=
    match direction with
    | ArrowLeft => Fig.x f - step
    | ArrowRight => Fig.x f + step
    | ArrowUp | ArrowDown => Fig.x f
    end in
  let targetY :=
    match direction with
    | ArrowUp => Fig.y f - step
    | ArrowDown => Fig.y f + step
    | ArrowLeft | ArrowRight => Fig.y f
    end in
  let s' := moveFigureWithArrow direction event r now s in
  let newX := Rmax 0 (Rmin (naturalWidth (view s)) targetX) in
  let newY := Rmax 0 (Rmin (naturalHeight (view s)) targetY) in
  figure_at s' name = Some (Fig.with_xy newX newY f)
  /\ 0 <= newX <= naturalWidth (view s)
  /\ 0 <= newY <= naturalHeight (view s)
  /\ (0 <= targetX <= naturalWidth (view s) -> newX = targetX)
  /\ (0 <= targetY <= naturalHeight (view s) -> newY = targetY)
  /\ (forall other : string,
        name <> other ->
        Store.get (annotations s') other = Store.get (annotations s) other)
  /\ fetch_count (log s') = S (fetch_count (log s))
  /\ handleKeyDown_arrow false direction event r now s = s'.
Proof.
  intros Hsel Hne Hf Hw Hh step targetX targetY s' newX newY.
  assert (K : handleKeyDown_arrow false direction event r now s = s').
  { unfold handleKeyDown_arrow. now rewrite Hsel, (truthy_Some name Hne). }
  rewrite K.
  destruct (Rmax_Rmin_clamp (naturalWidth (view s)) targetX Hw) as [X1 X2].
  destruct (Rmax_Rmin_clamp (naturalHeight (view s)) targetY Hh) as [Y1 Y2].
  destruct (figure_at_get s name f Hf) as [ts Hg].
  assert (E : s' = saveFigureUpdate_settled r now
                     (showMessage "Moved" info
                        (fetch api_figures name
                           (act_update newX newY (Fig.shape f) (Fig.size f))
                           (updateFigurePosition name newX newY s)))).
  { subst s'. unfold moveFigureWithArrow.
    rewrite Hsel, (truthy_Some name Hne). simpl negb. cbv iota.
    simpl label_key. rewrite Hf. unfold stepSize_of, Math_max, Math_min.
    subst newX newY targetX targetY step.
    destruct direction; reflexivity. }
  split; [|repeat split; try tauto].
  - rewrite E. unfold figure_at.
    rewrite saveFigureUpdate_settled_annotations. simpl.
    rewrite (Store_get_mutate_eq _ _ _ f ts Hg). reflexivity.
  - intros other Ho. rewrite E, saveFigureUpdate_settled_annotations. simpl.
    now apply Store_get_mutate_ne.
  - rewrite E, saveFigureUpdate_settled_fetch_count. simpl.
    now rewrite fetch_count_message, fetch_count_fetch.
Qed.

Lemma arrow_nudge_witness :
  let s := set_selectedFigure (Some "F1"%string) panning_STATE in
  let s' := moveFigureWithArrow ArrowRight (mkMods true false false)
              resp_success "t1" s in
  figure_at s' "F1"
  = Some (Fig.with_xy (Rmax 0 (Rmin 200 (100 + 10))) (Rmax 0 (Rmin 200 50))
            circle_F1)
  /\ Rmax 0 (Rmin 200 (100 + 10)) = 100 + 10
  /\ fetch_count (log s') = S (fetch_count (log s)).
Proof.
  intros s s'.
  destruct (arrow_nudge ArrowRight (mkMods true false false) resp_success
              "t1" s "F1" circle_F1) as (A & _ & _ & B & _ & _ & C & _).
  - reflexivity.
  - discriminate.
  - reflexivity.
  - simpl. lra.
  - simpl. lra.
  - split; [exact A|]. split; [|exact C]. apply B. simpl. lra.
Defined.

(** ** Colors in the render pass *)

Lemma render_entry_Some (v : gmap string bool) (i : nat) (name : string)
    (data : Annotation) (c : RenderCall) :
  render_entry v i (name, data) = Some c ->
  call_name c = name
  /\ call_color c = nth (i mod 12) COLORS ""%string
  /\ hidden v name = false
  /\ drawable data = true.
Proof.
  unfold render_entry. destruct (hidden v name); [discriminate|].
  destruct data as [[|] [co|] ts|ps ts|f ts]; intros [= <-]; auto.
Qed.

Lemma render_entry_drawable (v : gmap string bool) (i : nat) (name : string)
    (data : Annotation) :
  hidden v name = false -> drawable data = true ->
  exists c, render_entry v i (name, data) = Some c.
Proof.
  intros Hh Hd. unfold render_entry. rewrite Hh.
  destruct data as [[|] [co|] ts|ps ts|f ts]; try discriminate; eauto.
Qed.

Lemma renderAnnotations_elem (s : STATE) (c : RenderCall) :
  c ∈ renderAnnotations s <->
  exists i entry,
    Store.all (annotations s) !! i = Some entry
    /\ render_entry (visibilityToggles s) i entry = Some c.
Proof.
  unfold renderAnnotations. rewrite list_elem_of_omap. split.
  - intros (o & Ho & ->). apply elem_of_lookup_imap in Ho.
    destruct Ho as (i & e & -> & He). eauto.
  - intros (i & e & He & Hr). exists (Some c). split; [|reflexivity].
    apply elem_of_lookup_imap. exists i, e. split; [now rewrite Hr|exact He].
Qed.

Lemma omap_cons_match {A B : Type} (f : A -> option B) (x : A) (l : list A) :
  omap f (x :: l)
  = match f x with
    | Some y => y :: omap f l
    | None => omap f l
    end.
Proof. reflexivity. Qed.

Lemma hidden_insert_ne (v : gmap string bool) (n m : string) (b : bool) :
  m <> n -> hidden (<[n := b]> v) m = hidden v m.
Proof. intros H. unfold hidden. now rewrite lookup_insert_ne. Qed.

(** The calls for label [m], with the positions counted from [k], do not
    depend on the visibility of another label [n]. *)
Lemma calls_for_other_label (v : gmap string bool) (n m : string) (b : bool)
    (l : list (string * Annotation)) (k : nat) :
  m <> n ->
  filter (fun c => call_name c = m)
    (omap (fun call => call)
       (imap (fun i => render_entry (<[n := b]> v) (k + i)) l))
  = filter (fun c => call_name c = m)
      (omap (fun call => call) (imap (fun i => render_entry v (k + i)) l)).
Proof.
  intros Hne. revert k. induction l as [|[name data] l IH]; intros k;
    [reflexivity|].
  rewrite !imap_cons, !omap_cons_match. cbv beta.
  assert (T : forall w : gmap string bool,
             imap ((fun i => render_entry w (k + i)) ∘ S) l
             = imap (fun i => render_entry w (S k + i)) l).
  { intros w. apply imap_ext. intros i x _. simpl. f_equal. lia. }
  rewrite !T. clear T.
  destruct (decide (name = m)) as [->|Hnm].
  - assert (E : render_entry (<[n := b]> v) (k + 0) (m, data)
                = render_entry v (k + 0) (m, data)).
    { unfold render_entry. now rewrite hidden_insert_ne. }
    rewrite E. destruct (render_entry v (k + 0) (m, data)); cbv beta iota.
    + rewrite !filter_cons. destruct (decide _); now rewrite IH.
    + apply IH.
  - destruct (render_entry (<[n := b]> v) (k + 0) (name, data)) as [c1|] eqn:E1;
      destruct (render_entry v (k + 0) (name, data)) as [c2|] eqn:E2;
      cbv beta iota; rewrite ?filter_cons;
      repeat match goal with
             | H : render_entry _ _ _ = Some _ |- _ =>
                 apply render_entry_Some in H; destruct H as (? & _)
             end;
      repeat (destruct (decide _); [congruence|]); apply IH.
Qed.

Lemma toggleVisibility_twice (n : string) (s : STATE) :
  visibilityToggles s !! n = Some true ->
  visibilityToggles (toggleVisibility n s) !! n = Some false
  /\ visibilityToggles (toggleVisibility n (toggleVisibility n s))
     = visibilityToggles s.
Proof.
  intros H. unfold toggleVisibility. simpl. rewrite H. simpl.
  rewrite !lookup_insert_eq. simpl. split; [reflexivity|].
  rewrite insert_insert_eq. now apply insert_id.
Qed.

Lemma color_of_hidden (s : STATE) (n : string) :
  visibilityToggles s !! n = Some false -> color_of s n = None.
Proof.
  intros H. unfold color_of.
  destruct (filter _ _) as [|c l] eqn:E; [reflexivity|].
  assert (Hc : c ∈ filter (fun c => call_name c = n) (renderAnnotations s))
    by (rewrite E; left).
  apply list_elem_of_filter in Hc. destruct Hc as [Hn Hc].
  apply renderAnnotations_elem in Hc. destruct Hc as (i & [name data] & _ & Hr).
  apply render_entry_Some in Hr. destruct Hr as (A & _ & B & _).
  unfold hidden in B. rewrite <- A, Hn, H in B. discriminate.
Qed.

(** C10.  In the render pass every call is made for an entry of the
    store that is not hidden, with the color COLORS[i mod 12] where i is the
    entry's position among all entries, hidden ones included; every entry
    that is visible and has something to draw gets such a call.  Toggling
    the visibility of one label does not change the color under which any
    other label is drawn, and hiding a visible label and showing it again
    gives the same render calls, so the same color, as before. *)
Theorem palette_by_position (s : STATE) :
  (forall c : RenderCall,
      c ∈ renderAnnotations s ->
      exists (i : nat) (data : Annotation),
        Store.all (annotations s) !! i = Some (call_name c, data)
        /\ hidden (visibilityToggles s) (call_name c) = false
        /\ call_color c = nth (i mod 12) COLORS ""%string)
  /\ (forall (i : nat) (name : string) (data : Annotation),
        Store.all (annotations s) !! i = Some (name, data) ->
        hidden (visibilityToggles s) name = false ->
        drawable data = true ->
        exists c : RenderCall,
          c ∈ renderAnnotations s
          /\ call_name c = name
          /\ call_color c = nth (i mod 12) COLORS ""%string)
  /\ (forall n m : string,
        m <> n -> color_of (toggleVisibility n s) m = color_of s m)
  /\ (forall n : string,
        visibilityToggles s !! n = Some true ->
        color_of (toggleVisibility n s) n = None
        /\ renderAnnotations (toggleVisibility n (toggleVisibility n s))
           = renderAnnotations s
        /\ color_of (toggleVisibility n (toggleVisibility n s)) n
           = color_of s n).
Proof.
  split; [|split; [|split]].
  - intros c Hc. apply renderAnnotations_elem in Hc.
    destruct Hc as (i & [name data] & He & Hr).
    apply render_entry_Some in Hr. destruct Hr as (A & B & C & _).
    exists i, data. rewrite A. auto.
  - intros i name data He Hh Hd.
    destruct (render_entry_drawable (visibilityToggles s) i name data Hh Hd)
      as [c Hc].
    exists c. split; [apply renderAnnotations_elem; eauto|].
    apply render_entry_Some in Hc. tauto.
  - intros n m Hne. unfold color_of, renderAnnotations, toggleVisibility.
    simpl. f_equal. f_equal.
    exact (calls_for_other_label (visibilityToggles s) n m _
             (Store.all (annotations s)) 0 Hne).
  - intros n Hn. destruct (toggleVisibility_twice n s Hn) as [A B].
    assert (R : renderAnnotations (toggleVisibility n (toggleVisibility n s))
                = renderAnnotations s).
    { unfold renderAnnotations. rewrite B. reflexivity. }
    split; [now apply color_of_hidden|]. split; [exact R|].
    unfold color_of. now rewrite R.
Qed.

Lemma palette_by_position_witness :
  color_of (toggleVisibility "A" three_landmarks) "B" = Some "#00ff00"%string
  /\ color_of (toggleVisibility "A" three_landmarks) "A" = None
  /\ color_of (toggleVisibility "A" (toggleVisibility "A" three_landmarks)) "A"
     = Some "#ff0000"%string.
Proof.
  destruct (palette_by_position three_landmarks) as (_ & _ & O & T).
  destruct (T "A"%string) as (T1 & _ & T3); [reflexivity|].
  split; [|split].
  - rewrite (O "A"%string "B"%string) by discriminate. reflexivity.
  - exact T1.
  - rewrite T3. reflexivity.
Defined.

(** ** Commit atomicity *)

Lemma fetch_count_not_succ_message (text : string) (ty : MsgType)
    (evs : list Event) :
  fetch_count (ev_message text ty :: evs) <> S (fetch_count evs).
Proof. rewrite fetch_count_message. lia. Qed.

Ltac failed_call :=
  repeat split;
  try reflexivity;
  try congruence;
  try (intros _ C; simpl in C;
       first [ exfalso; lia
             | exfalso; revert C; apply fetch_count_not_succ_message
             | do 4 eexists; reflexivity
             | do 3 eexists; reflexivity ]).

(** What the functions that make the persistence call do on a failure.
    If the call fails (it is rejected, or the reply has a non-success
    status) the function leaves the store and the history as they were
    when it was entered: the creation, deletion and occlusion paths write
    the store only after a successful reply.  If the call was made and
    rejected, an error toast is shown right after the request; if it was
    made and answered with a non-success status, the request is all that
    happened. *)
Lemma failed_call_leaves_store (c : Completion) (r : Response)
    (now : string) (s : STATE) :
  r <> resp_success ->
  let s' := complete c r now s in
  annotations s' = annotations s
  /\ history s' = history s
  /\ historyIndex s' = historyIndex s
  /\ (r = resp_failure ->
      fetch_count (log s') = S (fetch_count (log s)) ->
      exists ep l b, log s' = ev_fetch ep l b :: log s)
  /\ (r = resp_throw ->
      fetch_count (log s') = S (fetch_count (log s)) ->
      exists text ep l b,
        log s' = ev_message text error :: ev_fetch ep l b :: log s).
Proof.
  intros Hr s'. subst s'. destruct c; simpl.
  - destruct r; [congruence| |]; failed_call.
  - destruct r; [congruence| |]; failed_call.
  - unfold deleteAnnotation. destruct (negb confirmed); [failed_call|].
    destruct r; [congruence| |]; failed_call.
  - unfold completePolygon. destruct (_ <? _)%nat; [failed_call|].
    destruct r; [congruence| |]; failed_call.
  - unfold completeLineDrawing.
    destruct (linePoints (drawing s)) as [|p [|q [|]]];
      try solve [failed_call].
    destruct (Rltb _ _); [failed_call|].
    destruct r; [congruence| |]; failed_call.
  - unfold completeFigureDrawing. destruct (negb _); [failed_call|].
    destruct (Rltb _ _); [failed_call|].
    destruct r; [congruence| |]; failed_call.
  - destruct r; [congruence| |]; failed_call.
  - unfold completeFigureInteraction, save_selectedFigure.
    destruct (_ && _).
    + destruct (figure_at s _); [|failed_call].
      destruct r; [congruence| |]; failed_call.
    + destruct (_ && _); [|failed_call].
      destruct (figure_at s _); [|failed_call].
      destruct r; [congruence| |]; failed_call.
  - unfold completeLinePointInteraction.
    destruct (_ && _); [|failed_call].
    destruct (figure_at s _); [|failed_call].
    destruct r; [congruence| |]; failed_call.
  - unfold deleteSelectedFigure. destruct (negb _); [failed_call|].
    destruct r; [congruence| |]; failed_call.
Qed.

Lemma failed_call_leaves_store_witness :
  let s := handleMouseMove (mkMouse 150 80)
             (handleFigureMouseDown grab_F1 panning_STATE) in
  let s' := complete by_completeFigureInteraction resp_throw "t1" s in
  annotations s' = annotations s
  /\ exists text ep l b,
       log s' = ev_message text error :: ev_fetch ep l b :: log s.
Proof.
  intros s s'.
  destruct (failed_call_leaves_store by_completeFigureInteraction resp_throw
              "t1" s) as (A & _ & _ & _ & E); [discriminate|].
  split; [exact A|]. apply E; reflexivity.
Defined.

Lemma Rmax_10 (v : R) : 10 <= v -> Rmax 10 v = v.
Proof. intros H. unfold Rmax. rcases; lra. Qed.

(** C1, on the code.  The circle "F1" at (100, 50) is dragged to
    (150, 80) and the update request fails.  When the request is rejected,
    an error toast is shown, but the store keeps the dragged position: it
    is not the store from before the gesture, although no snapshot was
    taken.  When the reply has a non-success status, the store keeps the
    dragged position as well and nothing at all is shown: the log holds
    the request and no error message.  A resize whose update fails keeps
    the new size in the same way.  The pointer moves have written the
    store before the call is made, unlike the paths that create, delete
    or occlude, which write it only after a successful reply. *)
Theorem failed_drag_keeps_moved_figure :
  figure_at panning_STATE "F1" = Some circle_F1
  /\ figure_at (drag_F1 resp_throw) "F1" = Some (Fig.with_xy 150 80 circle_F1)
  /\ Store.get (annotations (drag_F1 resp_throw)) "F1"
     <> Store.get (annotations panning_STATE) "F1"
  /\ log (drag_F1 resp_throw)
     = [ev_message "Failed to update figure" error;
        ev_fetch api_figures "F1"
          (act_update ((150 + (100 - 100) - 0) / 1)
             ((80 + (50 - 50) - 0) / 1) circle 20)]
  /\ history (drag_F1 resp_throw) = history panning_STATE
  /\ figure_at (drag_F1 resp_failure) "F1"
     = Some (Fig.with_xy 150 80 circle_F1)
  /\ filter (fun e => is_error_message e = true) (log (drag_F1 resp_failure))
     = []
  /\ fetch_count (log (drag_F1 resp_failure)) = 1%nat
  /\ figure_at (resize_F1 resp_throw) "F1" = Some (Fig.with_size 50 circle_F1)
  /\ figure_at (resize_F1 resp_failure) "F1"
     = Some (Fig.with_size 50 circle_F1).
Proof.
  assert (X : (150 + (100 - 100) - 0) / 1 = 150) by lra.
  assert (Y : (80 + (50 - 50) - 0) / 1 = 80) by lra.
  assert (D : forall r, r <> resp_success ->
                figure_at (drag_F1 r) "F1"
                = Some (Fig.with_xy 150 80 circle_F1)).
  { intros r Hr.
    assert (E : figure_at (drag_F1 r) "F1"
                = Some (Fig.with_xy ((150 + (100 - 100) - 0) / 1)
                          ((80 + (50 - 50) - 0) / 1) circle_F1))
      by (destruct r; [congruence| |]; reflexivity).
    now rewrite E, X, Y. }
  assert (Z : forall r, r <> resp_success ->
                figure_at (resize_F1 r) "F1"
                = Some (Fig.with_size 50 circle_F1)).
  { intros r Hr.
    assert (E : figure_at (resize_F1 r) "F1"
                = Some (Fig.with_size
                          (Math_max 10 (20 + (0 + (140 - 110) / 1)))
                          circle_F1))
      by (destruct r; [congruence| |]; reflexivity).
    rewrite E. unfold Math_max. rewrite Rmax_10 by lra.
    do 2 f_equal. lra. }
  split; [reflexivity|]. split; [apply D; discriminate|]. split.
  - intros H. pose proof (D resp_throw) as E. unfold figure_at in E.
    rewrite H in E. specialize (E ltac:(discriminate)).
    simpl in E. injection E as E1 _. lra.
  - split; [reflexivity|]. split; [reflexivity|].
    split; [apply D; discriminate|]. split; [reflexivity|].
    split; [reflexivity|]. split; apply Z; discriminate.
Qed.

(** ** The line invariant *)

(** A line created by two clicks: the centre is the midpoint of the
    clicked points and the size is their distance rounded to the nearest
    integer, hence within one half of it. *)
Lemma completeLineDrawing_created (a b : Pt.t) (now : string) (s : STATE) :
  linePoints (drawing s) = [a; b] ->
  10 <= distance (Pt.x a) (Pt.y a) (Pt.x b) (Pt.y b) ->
  exists f : Fig.t,
    Store.get (annotations (completeLineDrawing resp_success now s))
      (label_key (selectedLabel s)) = Some (Figure f now)
    /\ Fig.shape f = line
    /\ (Fig.startX f, Fig.startY f) = (Pt.x a, Pt.y a)
    /\ (Fig.endX f, Fig.endY f) = (Pt.x b, Pt.y b)
    /\ Fig.x f = (Fig.startX f + Fig.endX f) / 2
    /\ Fig.y f = (Fig.startY f + Fig.endY f) / 2
    /\ Fig.size f
       = Math_round
           (distance (Fig.startX f) (Fig.startY f) (Fig.endX f) (Fig.endY f))
    /\ Rabs (Fig.size f
             - distance (Fig.startX f) (Fig.startY f) (Fig.endX f) (Fig.endY f))
       <= / 2.
Proof.
  intros Hp Hd. unfold completeLineDrawing. rewrite Hp.
  fold (distance (Pt.x a) (Pt.y a) (Pt.x b) (Pt.y b)).
  unfold Math_sqrt. fold (distance (Pt.x a) (Pt.y a) (Pt.x b) (Pt.y b)).
  apply Rltb_false in Hd. rewrite Hd.
  eexists. split.
  - simpl. rewrite saveToHistory_annotations. simpl. apply Store_get_set_eq.
  - simpl. repeat split.
    pose proof (Math_round_bounds
                  (distance (Pt.x a) (Pt.y a) (Pt.x b) (Pt.y b))) as B.
    apply Rabs_le. lra.
Qed.

(** Dragging an end marker: the dragged endpoint follows the pointer, the
    other endpoint stays, and centre and size are derived again, so that
    the invariant holds exactly. *)
Lemma move_linePoint_invariant (coords : Pt.t) (s : STATE) (name : string)
    (pt : PointType) (f : Fig.t) :
  linePoint s = mkLinePoint true (Some name) (Some pt) ->
  name <> ""%string ->
  figure_at s name = Some f ->
  exists (s' : STATE) (f' : Fig.t),
    move_linePoint coords s = Some s'
    /\ figure_at s' name = Some f'
    /\ line_invariant f'
    /\ match pt with
       | pt_start =>
           (Fig.startX f', Fig.startY f') = (Pt.x coords, Pt.y coords)
           /\ (Fig.endX f', Fig.endY f') = (Fig.endX f, Fig.endY f)
       | pt_end =>
           (Fig.endX f', Fig.endY f') = (Pt.x coords, Pt.y coords)
           /\ (Fig.startX f', Fig.startY f') = (Fig.startX f, Fig.startY f)
       end.
Proof.
  intros Hl Hn Hf. destruct (figure_at_get s name f Hf) as [ts Hg].
  unfold move_linePoint. rewrite Hl. simpl linePointDragging.
  simpl linePointDraggedFigure. simpl linePointDraggedType.
  rewrite (truthy_Some name Hn). simpl andb. cbv iota. simpl label_key.
  rewrite Hf. eexists. eexists. split; [reflexivity|]. split.
  - unfold figure_at. simpl annotations.
    rewrite (Store_get_mutate_eq _ _ _ f ts Hg). reflexivity.
  - unfold line_invariant, distance, Math_sqrt. destruct pt; simpl; auto.
Qed.

(** A whole-line drag started through [handleLineMouseDown] on an
    interactive line keeps the invariant: both endpoints and the centre
    move by the same amount. *)
Lemma move_figureDrag_line_invariant (e : MouseEvent) (s : STATE)
    (name : string) (f : Fig.t) :
  selectedFigure (drag s) = Some name ->
  name <> ""%string ->
  figureDragging (drag s) = true ->
  figure_at s name = Some f ->
  Fig.shape f = line ->
  line_invariant f ->
  (figureOriginalX (drag s), figureOriginalY (drag s)) = (Fig.x f, Fig.y f) ->
  (figureOriginalStartX (drag s), figureOriginalStartY (drag s))
  = (Fig.startX f, Fig.startY f) ->
  (figureOriginalEndX (drag s), figureOriginalEndY (drag s))
  = (Fig.endX f, Fig.endY f) ->
  exists (s' : STATE) (f' : Fig.t),
    move_figureDrag e s = Some s'
    /\ figure_at s' name = Some f'
    /\ line_invariant f'.
Proof.
  intros Hs Hn Hd Hf Hl (I1 & I2 & I3) [= O1 O2] [= S1 S2] [= E1 E2].
  destruct (figure_at_get s name f Hf) as [ts Hg].
  unfold move_figureDrag. rewrite Hs, Hd, (truthy_Some name Hn).
  simpl andb. cbv iota. simpl label_key. rewrite Hf, Hl.
  eexists. eexists. split; [reflexivity|]. split.
  - unfold figure_at. simpl annotations.
    rewrite (Store_get_mutate_eq _ _ _ f ts Hg). reflexivity.
  - unfold line_invariant, distance in *. simpl.
    rewrite O1, O2, S1, S2, E1, E2, I1, I2, I3.
    repeat split; try lra. f_equal. lra.
Qed.

Lemma line_L1_invariant : line_invariant line_L1.
Proof.
  unfold line_invariant, line_L1, distance. simpl.
  repeat split; try lra.
  replace (20 - 0) with 20 by lra. replace (0 - 0) with 0 by lra.
  now rewrite sqrt_sum_squares_axis by lra.
Qed.

(** C4, on the code.  The line "L1" from (0, 0) to (20, 0) satisfies the
    invariant.  After it is selected and nudged with the right arrow key
    its centre is (11, 0) while its endpoints are where they were, so the
    centre is no longer their midpoint.  After a drag of the line that
    started on an element without the class ['interactive'], both
    endpoints sit on one point, away from the centre, and the size is still
    20. *)
Theorem line_invariant_broken_by_arrow_key :
  line_invariant line_L1
  /\ (exists f' : Fig.t,
        figure_at (nudge_L1 resp_success) "L1" = Some f'
        /\ Fig.x f' = 11
        /\ (Fig.startX f' + Fig.endX f') / 2 = 10
        /\ ~ line_invariant f')
  /\ (exists f' : Fig.t,
        figure_at drag_L1 "L1" = Some f'
        /\ Fig.x f' = 30
        /\ (Fig.startX f', Fig.startY f') = (Fig.endX f', Fig.endY f')
        /\ Fig.size f' = 20
        /\ ~ line_invariant f').
Proof.
  split; [exact line_L1_invariant|]. split.
  - exists (Fig.with_xy 11 0 line_L1).
    assert (E : figure_at (nudge_L1 resp_success) "L1"
                = Some (Fig.with_xy (Math_max 0 (Math_min 200 (10 + 1)))
                          (Math_max 0 (Math_min 200 0)) line_L1))
      by reflexivity.
    destruct (Rmax_Rmin_clamp 200 (10 + 1)) as [_ A]; [lra|].
    destruct (Rmax_Rmin_clamp 200 0) as [_ B]; [lra|].
    unfold Math_max, Math_min in E. rewrite A, B in E by lra.
    replace (10 + 1) with 11 in E by lra.
    split; [exact E|]. simpl. split; [reflexivity|]. split; [lra|].
    intros (I & _). simpl in I. lra.
  - exists (Fig.mk line 30 0 20 20 0 20 0).
    assert (E : figure_at drag_L1 "L1"
                = Some (Fig.mk line ((30 + (10 - 10) - 0) / 1)
                          ((0 + (0 - 0) - 0) / 1) 20
                          (0 + ((30 + (10 - 10) - 0) / 1 - 10))
                          (0 + ((0 + (0 - 0) - 0) / 1 - 0))
                          (0 + ((30 + (10 - 10) - 0) / 1 - 10))
                          (0 + ((0 + (0 - 0) - 0) / 1 - 0))))
      by reflexivity.
    split.
    + rewrite E. do 2 f_equal; lra.
    + simpl. repeat split. intros (I & _). simpl in I. lra.
Qed.

(** * Further properties of the code *)

(** ** Undo and redo *)

Lemma index_app_last {A : Type} (l : list A) (a : A) :
  index (l ++ [a]) (Z.of_nat (length l)) = Some a.
Proof.
  unfold index. destruct (_ <? 0)%Z eqn:E; [apply Z.ltb_lt in E; lia|].
  rewrite Nat2Z.id, nth_error_app2 by lia. now rewrite Nat.sub_diag.
Qed.

Lemma index_app_front {A : Type} (l : list A) (a : A) (i : Z) :
  (i < Z.of_nat (length l))%Z -> index (l ++ [a]) i = index l i.
Proof.
  intros H. unfold index. destruct (i <? 0)%Z eqn:E; [reflexivity|].
  apply Z.ltb_ge in E. apply nth_error_app1. lia.
Qed.

Lemma index_tl {A : Type} (l : list A) (i : Z) :
  (0 <= i)%Z -> index (tl l) i = index l (i + 1).
Proof.
  intros H. unfold index.
  destruct (i <? 0)%Z eqn:E; [apply Z.ltb_lt in E; lia|].
  destruct (i + 1 <? 0)%Z eqn:E'; [apply Z.ltb_lt in E'; lia|].
  replace (Z.to_nat (i + 1)) with (S (Z.to_nat i)) by lia.
  destruct l; [now destruct (Z.to_nat i)|reflexivity].
Qed.

Lemma index_firstn {A : Type} (l : list A) (n : nat) (i : Z) :
  (i < Z.of_nat n)%Z -> index (firstn n l) i = index l i.
Proof.
  intros H. unfold index. destruct (i <? 0)%Z eqn:E; [reflexivity|].
  apply Z.ltb_ge in E. rewrite nth_error_firstn.
  destruct (Nat.ltb_spec (Z.to_nat i) n); [reflexivity|lia].
Qed.

(** The list of snapshots after [saveToHistory]: the entries up to the
    cursor, then the new snapshot, less the oldest entry if that makes
    more than 50. *)
Lemma saveToHistory_shape (now : string) (s : STATE) :
  hist_inv s ->
  let kept := firstn (Z.to_nat (historyIndex s + 1)) (history s) in
  let new := mkEntry (annotations s) now in
  (historyIndex s < 49 /\
   history (saveToHistory now s) = kept ++ [new] /\
   historyIndex (saveToHistory now s) = historyIndex s + 1)%Z
  \/ (historyIndex s = 49 /\
      history (saveToHistory now s) = tl (kept ++ [new]) /\
      historyIndex (saveToHistory now s) = 49)%Z.
Proof.
  intros [Hi Hl] kept new. unfold maxHistorySize in Hl.
  assert (K : (if (historyIndex s <? Z.of_nat (length (history s)) - 1)%Z
               then slice0 (history s) (historyIndex s + 1)
               else history s) = kept).
  { subst kept. destruct (_ <? _)%Z eqn:E.
    - unfold slice0.
      destruct (_ <? 0)%Z eqn:E'; [apply Z.ltb_lt in E'; lia|reflexivity].
    - apply Z.ltb_ge in E. symmetry. apply firstn_all2. lia. }
  assert (L : Z.of_nat (length kept) = (historyIndex s + 1)%Z).
  { subst kept. rewrite length_firstn. lia. }
  unfold saveToHistory, deepClone, maxHistorySize. rewrite K. fold new.
  rewrite length_app. simpl length.
  destruct (_ >? 50)%Z eqn:E.
  - apply Z.gtb_lt in E. right. simpl. repeat split; lia.
  - rewrite Z.gtb_ltb in E. apply Z.ltb_ge in E. left. simpl.
    repeat split; lia.
Qed.

Lemma saveToHistory_below_cursor (now : string) (s : STATE) :
  hist_inv s ->
  index (history (saveToHistory now s)) (historyIndex (saveToHistory now s) - 1)
  = index (history s) (historyIndex s)
  /\ index (history (saveToHistory now s)) (historyIndex (saveToHistory now s))
     = Some (mkEntry (annotations s) now).
Proof.
  intros H. pose proof H as [Hi Hl].
  assert (L : Z.of_nat
                (length (firstn (Z.to_nat (historyIndex s + 1)) (history s)))
              = (historyIndex s + 1)%Z)
    by (rewrite length_firstn; lia).
  destruct (saveToHistory_shape now s H) as [(A & B & C)|(A & B & C)];
    rewrite B, C; clear B C;
    set (kept := firstn (Z.to_nat (historyIndex s + 1)) (history s)) in *.
  - split.
    + replace (historyIndex s + 1 - 1)%Z with (historyIndex s) by lia.
      rewrite index_app_front by lia. subst kept. apply index_firstn. lia.
    + rewrite <- L. apply index_app_last.
  - split.
    + rewrite index_tl by lia.
      replace (49 - 1 + 1)%Z with (historyIndex s) by lia.
      rewrite index_app_front by lia. subst kept. apply index_firstn. lia.
    + rewrite index_tl by lia.
      replace (49 + 1)%Z with (Z.of_nat (length kept)) by lia.
      apply index_app_last.
Qed.

Lemma redo_step (s : STATE) :
  hist_inv s -> (historyIndex s < Z.of_nat (length (history s)) - 1)%Z ->
  historyIndex (redo s) = (historyIndex s + 1)%Z
  /\ history (redo s) = history s
  /\ option_map h_annotations (index (history s) (historyIndex s + 1))
     = Some (annotations (redo s)).
Proof.
  intros [Hi Hl] Hp. unfold redo.
  destruct (_ <? _)%Z eqn:E; [|apply Z.ltb_ge in E; lia].
  simpl.
  destruct (index_in_range (history s) (historyIndex s + 1)) as [e He];
    [lia|].
  rewrite He. simpl. auto.
Qed.

Lemma saveToHistory_synced (now : string) (s : STATE) :
  hist_inv s -> synced (saveToHistory now s).
Proof.
  intros H. unfold synced.
  destruct (saveToHistory_below_cursor now s H) as [_ B].
  rewrite B. simpl. now rewrite saveToHistory_annotations.
Qed.

Lemma undo_synced (s : STATE) : hist_inv s -> synced s -> synced (undo s).
Proof.
  intros H Hs. destruct (Z.eq_dec (historyIndex s) 0%Z) as [E|E].
  - now rewrite undo_at_zero.
  - pose proof H as [Hi Hl].
    destruct (undo_step s H) as (A & B & C); [lia|].
    unfold synced. now rewrite A, B.
Qed.

Lemma redo_synced (s : STATE) : hist_inv s -> synced s -> synced (redo s).
Proof.
  intros H Hs.
  destruct (Z_lt_dec (historyIndex s) (Z.of_nat (length (history s)) - 1))
    as [E|E].
  - destruct (redo_step s H E) as (A & B & C).
    unfold synced. now rewrite A, B.
  - unfold redo. destruct (_ <? _)%Z eqn:E'; [apply Z.ltb_lt in E'; lia|].
    exact Hs.
Qed.

Lemma initializeApp_synced (currentAnnotations : Store.t) (now : string) :
  synced (initializeApp currentAnnotations now).
Proof. reflexivity. Qed.

(** X1.  As long as every change of the store takes its snapshot, the
    store is the snapshot under the history cursor: after any run of
    successful mutations, undos and redos from the start of a session. *)
Theorem store_is_snapshot_under_cursor (currentAnnotations : Store.t)
    (t0 : string) (ops : list HistOp) :
  forallb saved_op ops = true ->
  let s := hist_run ops (initializeApp currentAnnotations t0) in
  option_map h_annotations (index (history s) (historyIndex s))
  = Some (annotations s).
Proof.
  intros Hops s. subst s.
  assert (G : forall ops s0, forallb saved_op ops = true ->
                hist_inv s0 -> synced s0 ->
                hist_inv (hist_run ops s0) /\ synced (hist_run ops s0)).
  { clear. induction ops as [|o ops IH]; intros s0 Ho Hi Hs; simpl; [auto|].
    simpl in Ho. apply andb_true_iff in Ho. destruct Ho as [Ho Hos].
    apply IH; [exact Hos|now apply hist_step_inv|].
    destruct o; simpl in *; try discriminate.
    - apply saveToHistory_synced. exact Hi.
    - now apply undo_synced.
    - now apply redo_synced. }
  apply (G ops _ Hops (initializeApp_inv _ _) (initializeApp_synced _ _)).
Qed.

Lemma store_is_snapshot_under_cursor_witness :
  let s := hist_run [create_L1; op_undo; op_redo] (initializeApp [] "t0") in
  option_map h_annotations (index (history s) (historyIndex s))
  = Some (annotations s).
Proof.
  apply (store_is_snapshot_under_cursor [] "t0" [create_L1; op_undo; op_redo]).
  reflexivity.
Defined.

(** X2.  Undo reverts the last successful mutation and redo applies it
    again: if the store is the snapshot under the cursor, then after a
    successful mutation one undo gives back the store from before it, and
    a redo after that gives the mutated store, with history and cursor as
    right after the mutation. *)
Theorem undo_reverts_mutation (g : Store.t -> Store.t) (now : string)
    (s : STATE) :
  hist_inv s -> synced s ->
  let s1 := hist_step s (op_mutation g now) in
  annotations (undo s1) = annotations s
  /\ annotations (redo (undo s1)) = g (annotations s)
  /\ history (redo (undo s1)) = history s1
  /\ historyIndex (redo (undo s1)) = historyIndex s1.
Proof.
  intros H Hs s1. subst s1.
  set (s0 := set_annotations (g (annotations s)) s).
  change (hist_step s (op_mutation g now)) with (saveToHistory now s0).
  assert (H0 : hist_inv s0) by exact H.
  pose proof H0 as [Hi0 Hl0].
  destruct (saveToHistory_below_cursor now s0 H0) as [B1 B2].
  assert (P : (0 < historyIndex (saveToHistory now s0))%Z).
  { destruct (saveToHistory_shape now s0 H0) as [(X & _ & C)|(X & _ & C)];
      lia. }
  set (s1 := saveToHistory now s0) in *.
  assert (H1 : hist_inv s1) by (apply saveToHistory_inv; exact H0).
  destruct (undo_step s1 H1 P) as (U1 & U2 & U3).
  rewrite B1 in U3. simpl in U3. unfold synced in Hs. rewrite Hs in U3.
  injection U3 as U3.
  assert (HU : hist_inv (undo s1)) by now apply undo_inv.
  pose proof H1 as [Hi1 Hl1].
  destruct (redo_step (undo s1) HU) as (R1 & R2 & R3); [rewrite U1, U2; lia|].
  rewrite U1, U2 in R3. replace (historyIndex s1 - 1 + 1)%Z
    with (historyIndex s1) in R3 by lia.
  rewrite B2 in R3. simpl in R3. injection R3 as R3.
  repeat split; [congruence|congruence|congruence|lia].
Qed.

Lemma undo_reverts_mutation_witness :
  let s1 := hist_step (initializeApp [] "t0") create_L1 in
  annotations (undo s1) = []
  /\ Store.get (annotations (redo (undo s1))) "L1"
     = Some (Landmark ok (Some (Pt.mk 100 50)) "t1").
Proof.
  intros s1.
  destruct (undo_reverts_mutation
              (fun a => Store.set a "L1" (Landmark ok (Some (Pt.mk 100 50)) "t1"))
              "t1" (initializeApp [] "t0")) as (A & B & _).
  - apply initializeApp_inv.
  - apply initializeApp_synced.
  - split; [exact A|].
    exact (eq_trans (f_equal (fun a => Store.get a "L1"%string) B) eq_refl).
Defined.

(** X3.  A snapshot taken after some undos discards the redo branch: the
    history then consists of the entries up to the cursor followed by the
    new snapshot (less the oldest entry when that would make 51), the
    cursor is on the new snapshot, the redo button is disabled and [redo]
    changes nothing. *)
Theorem snapshot_discards_redo_branch (now : string) (s : STATE) :
  hist_inv s ->
  let s' := saveToHistory now s in
  let kept := firstn (Z.to_nat (historyIndex s + 1)) (history s) in
  (history s' = kept ++ [mkEntry (annotations s) now]
   \/ (historyIndex s = 49%Z
       /\ history s' = tl (kept ++ [mkEntry (annotations s) now])))
  /\ historyIndex s' = (Z.of_nat (length (history s')) - 1)%Z
  /\ redoBtn_disabled s' = true
  /\ redo s' = s'.
Proof.
  intros H s' kept. pose proof H as [Hi Hl].
  destruct (saveToHistory_spec now s) as (A & _); [lia|exact Hl|].
  fold s' in A.
  assert (D : redoBtn_disabled s' = true).
  { unfold redoBtn_disabled. rewrite A. apply Z.geb_le. lia. }
  split.
  - destruct (saveToHistory_shape now s H) as [(_ & B & _)|(X & B & _)];
      [left|right]; auto.
  - split; [exact A|]. split; [exact D|].
    unfold redo. rewrite A.
    destruct (_ <? _)%Z eqn:E; [apply Z.ltb_lt in E; lia|reflexivity].
Qed.

Lemma snapshot_discards_redo_branch_witness :
  let s := hist_run [create_L1; op_undo] (initializeApp [] "t0") in
  length (history s) = 2%nat
  /\ history (saveToHistory "t2" s) = [mkEntry [] "t0"; mkEntry [] "t2"]
  /\ redo (saveToHistory "t2" s) = saveToHistory "t2" s.
Proof.
  intros s.
  destruct (snapshot_discards_redo_branch "t2" s) as (A & _ & _ & B).
  - apply hist_run_inv, initializeApp_inv.
  - split; [reflexivity|]. split; [reflexivity|exact B].
Defined.

(** X4.  The buttons tell whether the operation does anything: [undo]
    leaves the state as it is exactly when the undo button is disabled,
    and [redo] exactly when the redo button is disabled. *)
Theorem disabled_button_means_no_change (s : STATE) :
  (undoBtn_disabled s = true <-> undo s = s)
  /\ (redoBtn_disabled s = true <-> redo s = s).
Proof.
  unfold undoBtn_disabled, redoBtn_disabled. split; split.
  - intros H. apply Z.leb_le in H. unfold undo.
    destruct (_ >? 0)%Z eqn:E; [apply Z.gtb_lt in E; lia|reflexivity].
  - intros H. apply Z.leb_le.
    destruct (Z_le_dec (historyIndex s) 0) as [L|L]; [exact L|exfalso].
    unfold undo in H.
    destruct (_ >? 0)%Z eqn:E; [|rewrite Z.gtb_ltb in E; apply Z.ltb_ge in E; lia].
    apply (f_equal historyIndex) in H. revert H. simpl.
    destruct (index _ _); simpl; lia.
  - intros H. apply Z.geb_le in H. unfold redo.
    destruct (_ <? _)%Z eqn:E; [apply Z.ltb_lt in E; lia|reflexivity].
  - intros H. apply Z.geb_le.
    destruct (Z_le_dec (Z.of_nat (length (history s)) - 1) (historyIndex s))
      as [L|L]; [exact L|exfalso].
    unfold redo in H.
    destruct (_ <? _)%Z eqn:E; [|apply Z.ltb_ge in E; lia].
    apply (f_equal historyIndex) in H. revert H. simpl.
    destruct (index _ _); simpl; lia.
Qed.

(** ** The view: wheel zoom, zoom buttons, reset and panning *)

(** X5.  Wheel zoom is centred on the pointer: the image point under the
    pointer before the wheel event is under the pointer after it. *)
Theorem wheel_zoom_keeps_point_under_pointer (e : WheelEvent) (s : STATE) :
  currentZoom (view s) <> 0 ->
  eventToImageCoords (handleWheel e s) (wheel_mouse e)
  = eventToImageCoords s (wheel_mouse e).
Proof.
  intros Hz.
  pose proof (handleWheel_in_range e s) as [Hlo _].
  unfold eventToImageCoords, handleWheel, wheel_mouse in *. simpl in *.
  set (z' := Math_min maxZoom _) in *.
  f_equal; field; split; lra.
Qed.

Lemma wheel_zoom_keeps_point_under_pointer_witness :
  eventToImageCoords
    (handleWheel (mkWheel (-1) 30 40) (set_translate 7 (-3) (initial_STATE [])))
    (wheel_mouse (mkWheel (-1) 30 40))
  = eventToImageCoords (set_translate 7 (-3) (initial_STATE []))
      (wheel_mouse (mkWheel (-1) 30 40)).
Proof.
  apply wheel_zoom_keeps_point_under_pointer. simpl. lra.
Defined.

(** X6.  Away from the two ends of the zoom range the zoom buttons undo
    each other: one press of each, in either order, gives the state back. *)
Theorem zoom_buttons_are_inverse (s : STATE) :
  0.1 * 1.5 <= currentZoom (view s) ->
  currentZoom (view s) * 1.5 <= maxZoom ->
  zoomOut (zoomIn s) = s /\ zoomIn (zoomOut s) = s.
Proof.
  unfold maxZoom. intros Hlo Hhi. split.
  - unfold zoomIn, maxZoom.
    destruct (Rltb (currentZoom (view s)) 1000) eqn:E;
      [|apply Rltb_false in E; lra].
    unfold zoomOut. simpl.
    replace (Math_min 1000 (currentZoom (view s) * 1.5))
      with (currentZoom (view s) * 1.5) by (rcases; lra).
    destruct (Rltb 0.1 _) eqn:E'; [|apply Rltb_false in E'; lra].
    replace (Math_max 0.1 (currentZoom (view s) * 1.5 / 1.5))
      with (currentZoom (view s)) by (rcases; lra).
    unfold set_currentZoom. simpl.
    destruct s as [? ? ? ? ? ? [? ? ? ? ?] ? ? ? ? ? ? ? ?]. reflexivity.
  - unfold zoomOut.
    destruct (Rltb 0.1 (currentZoom (view s))) eqn:E;
      [|apply Rltb_false in E; lra].
    unfold zoomIn, maxZoom. simpl.
    replace (Math_max 0.1 (currentZoom (view s) / 1.5))
      with (currentZoom (view s) / 1.5) by (rcases; lra).
    destruct (Rltb _ 1000) eqn:E'; [|apply Rltb_false in E'; lra].
    replace (Math_min 1000 (currentZoom (view s) / 1.5 * 1.5))
      with (currentZoom (view s)) by (rcases; lra).
    unfold set_currentZoom. simpl.
    destruct s as [? ? ? ? ? ? [? ? ? ? ?] ? ? ? ? ? ? ? ?]. reflexivity.
Qed.

Lemma zoom_buttons_are_inverse_witness :
  zoomOut (zoomIn (initial_STATE [])) = initial_STATE []
  /\ zoomIn (zoomOut (initial_STATE [])) = initial_STATE [].
Proof.
  apply zoom_buttons_are_inverse; unfold maxZoom; simpl; lra.
Defined.

(** X7.  [resetView] shows the image at 100% and, along each axis, centres
    it when it is smaller than the container (equal margins on both
    sides) and puts its origin on the container's origin when it is not;
    the result does not depend on the zoom and pan before. *)
Theorem resetView_centres (w h : R) (s : STATE) :
  let s' := resetView w h s in
  let W := naturalWidth (view s) in
  let H := naturalHeight (view s) in
  currentZoom (view s') = 1
  /\ naturalWidth (view s') = W /\ naturalHeight (view s') = H
  /\ (W < w ->
      Pt.x (imageToDisplayCoords s' 0 0)
      = w - Pt.x (imageToDisplayCoords s' W H))
  /\ (w <= W -> Pt.x (imageToDisplayCoords s' 0 0) = 0)
  /\ (H < h ->
      Pt.y (imageToDisplayCoords s' 0 0)
      = h - Pt.y (imageToDisplayCoords s' W H))
  /\ (h <= H -> Pt.y (imageToDisplayCoords s' 0 0) = 0)
  /\ resetView w h s' = s'.
Proof.
  intros s' W H. subst s' W H.
  destruct s as [? ? ? ? ? ? [W H z tx ty] ? ? ? ? ? ? ? ?].
  unfold resetView, imageToDisplayCoords.
  cbn [set_translate set_currentZoom set_view view naturalWidth naturalHeight
       currentZoom translateX translateY].
  rewrite !Rmult_1_r.
  destruct (Rltb W w) eqn:EW; destruct (Rltb H h) eqn:EH;
    repeat (cbn [set_translate set_currentZoom set_view view naturalWidth
                 naturalHeight currentZoom translateX translateY Pt.x Pt.y];
            rewrite ?Rmult_1_r, ?EW, ?EH);
    try apply Rltb_true in EW; try apply Rltb_false in EW;
    try apply Rltb_true in EH; try apply Rltb_false in EH;
    repeat split; intros; try lra; try reflexivity.
Qed.

(** What the later parts of [handleMouseMove] leave alone. *)
Lemma move_polygon_frame (coords : Pt.t) (s : STATE) :
  let s' := move_polygon coords s in
  view s' = view s /\ pan s' = pan s
  /\ isAnnotationMode s' = isAnnotationMode s
  /\ imageLoaded s' = imageLoaded s /\ annotations s' = annotations s
  /\ drag s' = drag s /\ linePoint s' = linePoint s.
Proof.
  unfold move_polygon, handlePolygonDrag.
  destruct (polygonDragging (poly s)), (currentTool s),
    (polygonTool (poly s)), (selectedPointIndex (poly s) =? -1)%Z,
    (polygonMoveStart (poly s)); simpl; auto 10.
Qed.

Lemma move_figureDrag_frame (e : MouseEvent) (s s' : STATE) :
  move_figureDrag e s = Some s' ->
  view s' = view s /\ pan s' = pan s
  /\ isAnnotationMode s' = isAnnotationMode s
  /\ imageLoaded s' = imageLoaded s
  /\ drag s' = drag s /\ linePoint s' = linePoint s /\ poly s' = poly s.
Proof.
  unfold move_figureDrag, updateFigurePosition.
  destruct (_ && _); [|intros [= <-]; auto 10].
  destruct (figure_at _ _) as [f|]; [|discriminate].
  destruct (Fig.shape f); intros [= <-]; simpl; auto 10.
Qed.

Lemma move_figureResize_frame (e : MouseEvent) (s : STATE) :
  let s' := move_figureResize e s in
  view s' = view s /\ pan s' = pan s
  /\ isAnnotationMode s' = isAnnotationMode s
  /\ imageLoaded s' = imageLoaded s
  /\ drag s' = drag s /\ linePoint s' = linePoint s /\ poly s' = poly s.
Proof.
  unfold move_figureResize, updateFigureSize.
  destruct (_ && _), (resizeHandle (drag s)); simpl; auto 10.
Qed.

Lemma move_linePoint_frame (coords : Pt.t) (s s' : STATE) :
  move_linePoint coords s = Some s' ->
  view s' = view s /\ pan s' = pan s
  /\ isAnnotationMode s' = isAnnotationMode s
  /\ imageLoaded s' = imageLoaded s
  /\ drag s' = drag s /\ linePoint s' = linePoint s /\ poly s' = poly s.
Proof.
  unfold move_linePoint.
  destruct (_ && _); [|intros [= <-]; auto 10].
  destruct (figure_at _ _) as [f|]; [|discriminate].
  intros [= <-]; simpl; auto 10.
Qed.

Lemma handleMouseMove_frame (e : MouseEvent) (s : STATE) :
  imageLoaded s = true ->
  let s' := handleMouseMove e s in
  view s' = view (move_pan e s) /\ pan s' = pan (move_pan e s)
  /\ isAnnotationMode s' = isAnnotationMode s /\ imageLoaded s' = true.
Proof.
  intros L. unfold handleMouseMove. rewrite L. cbn [negb]. cbn zeta.
  assert (P : isAnnotationMode (move_pan e s) = isAnnotationMode s
              /\ imageLoaded (move_pan e s) = true).
  { unfold move_pan. destruct (_ && _); simpl; auto. }
  destruct P as (P1 & P2).
  set (s1 := move_pan e s) in *.
  destruct (move_polygon_frame (eventToImageCoords s e) s1)
    as (A1 & A2 & A3 & A4 & _).
  set (s2 := move_polygon (eventToImageCoords s e) s1) in *.
  destruct (move_figureDrag e s2) as [s3|] eqn:E3.
  2:{ repeat split; congruence. }
  destruct (move_figureDrag_frame _ _ _ E3) as (B1 & B2 & B3 & B4 & _).
  destruct (move_figureResize_frame e s3) as (C1 & C2 & C3 & C4 & _).
  set (s4 := move_figureResize e s3) in *.
  destruct (move_linePoint (eventToImageCoords s e) s4) as [s5|] eqn:E5.
  2:{ repeat split; congruence. }
  destruct (move_linePoint_frame _ _ _ E5) as (D1 & D2 & D3 & D4 & _).
  repeat split; congruence.
Qed.

(** One pointer move of a pan drag. *)
Lemma pan_step (e : MouseEvent) (s : STATE) :
  isAnnotationMode s = false -> imageLoaded s = true ->
  isDragging (pan s) = true ->
  let s' := handleMouseMove e s in
  isAnnotationMode s' = false /\ imageLoaded s' = true
  /\ isDragging (pan s') = true
  /\ currentZoom (view s') = currentZoom (view s)
  /\ startDragX (pan s') = mouseX e /\ startDragY (pan s') = mouseY e
  /\ mouseX e - translateX (view s')
     = startDragX (pan s) - translateX (view s)
  /\ mouseY e - translateY (view s')
     = startDragY (pan s) - translateY (view s).
Proof.
  intros M L D.
  destruct (handleMouseMove_frame e s L) as (V & P & M' & L').
  cbn zeta. rewrite V, P, M', L', M.
  unfold move_pan. rewrite D, M. simpl.
  repeat split; first [assumption | lra].
Qed.

Lemma pan_moves (es : list MouseEvent) (e : MouseEvent) (s : STATE) :
  isAnnotationMode s = false -> imageLoaded s = true ->
  isDragging (pan s) = true ->
  let s' := mouse_moves (es ++ [e]) s in
  isAnnotationMode s' = false /\ imageLoaded s' = true
  /\ isDragging (pan s') = true
  /\ currentZoom (view s') = currentZoom (view s)
  /\ startDragX (pan s') = mouseX e /\ startDragY (pan s') = mouseY e
  /\ mouseX e - translateX (view s')
     = startDragX (pan s) - translateX (view s)
  /\ mouseY e - translateY (view s')
     = startDragY (pan s) - translateY (view s).
Proof.
  revert s. induction es as [|e' es IH]; intros s M L D.
  - apply (pan_step e s M L D).
  - destruct (pan_step e' s M L D) as (M1 & L1 & D1 & Z1 & X1 & Y1 & TX & TY).
    specialize (IH (handleMouseMove e' s) M1 L1 D1).
    cbn zeta in IH. destruct IH as (M2 & L2 & D2 & Z2 & X2 & Y2 & TX2 & TY2).
    change (mouse_moves ((e' :: es) ++ [e]) s)
      with (mouse_moves (es ++ [e]) (handleMouseMove e' s)).
    cbn zeta. repeat split; try assumption; try congruence; lra.
Qed.

(** X8.  Panning: while the pointer is dragged in panning mode, the image
    point that was under the pointer at the mouse-down stays under the
    pointer, whatever path the pointer takes, and the zoom level is not
    changed. *)
Theorem pan_drag_follows_pointer (e0 : ContainerMouseDown)
    (es : list MouseEvent) (e : MouseEvent) (r : Response) (now : string)
    (s : STATE) :
  isAnnotationMode s = false -> imageLoaded s = true ->
  currentZoom (view s) <> 0 ->
  let s' := mouse_moves (es ++ [e]) (handleMouseDown e0 r now s) in
  eventToImageCoords s' e = eventToImageCoords s (md_mouse e0)
  /\ currentZoom (view s') = currentZoom (view s).
Proof.
  intros M L Hz.
  set (s0 := handleMouseDown e0 r now s).
  assert (A : isAnnotationMode s0 = false /\ imageLoaded s0 = true
              /\ isDragging (pan s0) = true /\ view s0 = view s
              /\ startDragX (pan s0) = mouseX (md_mouse e0)
              /\ startDragY (pan s0) = mouseY (md_mouse e0)).
  { subst s0. unfold handleMouseDown.
    destruct (md_onFigurePart e0); simpl; rewrite M; simpl; auto 10. }
  destruct A as (M0 & L0 & D0 & V0 & X0 & Y0).
  destruct (pan_moves es e s0 M0 L0 D0) as (_ & _ & _ & Z & _ & _ & TX & TY).
  cbn zeta. rewrite V0, X0 in TX. rewrite V0, Y0 in TY. rewrite V0 in Z.
  split; [|exact Z].
  unfold eventToImageCoords. rewrite Z, TX, TY. reflexivity.
Qed.

Lemma pan_drag_follows_pointer_witness :
  let s := set_imageLoaded true
             (set_isAnnotationMode false (initial_STATE [])) in
  let s' := mouse_moves ([mkMouse 12 30] ++ [mkMouse 60 45])
              (handleMouseDown (mkContainerMouseDown (mkMouse 10 20) false false)
                 resp_success "t1" s) in
  eventToImageCoords s' (mkMouse 60 45) = eventToImageCoords s (mkMouse 10 20).
Proof.
  intros s s'.
  refine (proj1 (pan_drag_follows_pointer
                   (mkContainerMouseDown (mkMouse 10 20) false false)
                   [mkMouse 12 30] (mkMouse 60 45) resp_success "t1" s
                   eq_refl eq_refl _)).
  simpl. lra.
Defined.

(** ** Clicks on the image *)

(** X9.  A mouse-down on the image annotates nothing unless the editor is
    in annotation mode, a label is selected and the pointer is over the
    image: otherwise the store, the history, the transient polygon and
    the drawing state stay as they are and no request is made; in
    annotation mode the user is warned. *)
Theorem mouse_down_guard (e : ContainerMouseDown) (r : Response)
    (now : string) (s : STATE) :
  let c := eventToImageCoords s (md_mouse e) in
  isAnnotationMode s = false
  \/ truthy (selectedLabel s) = false
  \/ isWithinImageBounds s (Pt.x c) (Pt.y c) = false ->
  let s' := handleMouseDown e r now s in
  annotations s' = annotations s
  /\ history s' = history s /\ historyIndex s' = historyIndex s
  /\ poly s' = poly s /\ drawing s' = drawing s
  /\ fetch_count (log s') = fetch_count (log s)
  /\ (isAnnotationMode s = true ->
      exists text, log s' = ev_message text warning :: log s).
Proof.
  intros c H s'. subst s' c. unfold handleMouseDown.
  destruct (md_onFigurePart e); cbn zeta;
    cbn [isAnnotationMode selectedLabel set_pan deselectAllFigures
         set_selectedFigure set_drag];
    (destruct (isAnnotationMode s) eqn:M;
     [|simpl; repeat split; auto; discriminate]);
    (destruct (truthy (selectedLabel s)) eqn:T; cbn [negb];
     [|simpl; rewrite fetch_count_message; repeat split; eauto]);
    (destruct H as [H|[H|H]]; try discriminate);
    match goal with
    | |- context [isWithinImageBounds ?a ?b ?c] =>
        change (isWithinImageBounds a b c)
          with (isWithinImageBounds s
                  (Pt.x (eventToImageCoords s (md_mouse e)))
                  (Pt.y (eventToImageCoords s (md_mouse e))))
    end;
    rewrite H; simpl; rewrite fetch_count_message; repeat split; eauto.
Qed.

Lemma mouse_down_guard_witness :
  annotations
    (handleMouseDown (mkContainerMouseDown (mkMouse 10 20) false false)
       resp_success "t1" (initializeApp [] "t0"))
  = [].
Proof.
  exact (proj1 (mouse_down_guard
                  (mkContainerMouseDown (mkMouse 10 20) false false)
                  resp_success "t1" (initializeApp [] "t0")
                  (or_intror (or_introl eq_refl)))).
Defined.

(** X10.  A landmark lands under the pointer: a click with the landmark
    tool, over the image and with a label selected, whose request
    succeeds stores an [ok] landmark for that label at the image point
    under the pointer; [renderLandmarkPoint] then puts its marker exactly
    at the pointer position.  One request is made, for this label and
    these coordinates, and no other label's entry is touched. *)
Theorem landmark_lands_under_pointer (e : ContainerMouseDown)
    (name now : string) (s : STATE) :
  isAnnotationMode s = true -> currentTool s = tool_landmark ->
  selectedLabel s = Some name -> name <> ""%string ->
  currentZoom (view s) <> 0 ->
  let c := eventToImageCoords s (md_mouse e) in
  isWithinImageBounds s (Pt.x c) (Pt.y c) = true ->
  let s' := handleMouseDown e resp_success now s in
  Store.get (annotations s') name = Some (Landmark ok (Some c) now)
  /\ renderLandmarkPoint_at s' c
     = Some (Pt.mk (mouseX (md_mouse e)) (mouseY (md_mouse e)))
  /\ (forall k, k <> name ->
        Store.get (annotations s') k = Store.get (annotations s) k)
  /\ (exists text,
        log s'
        = ev_message text success
            :: ev_fetch api_landmarks name (act_coordinates (Pt.x c) (Pt.y c))
            :: log s).
Proof.
  intros M T L N Hz c B s'.
  assert (E : s' = annotateLandmark c resp_success now
                     (if md_onFigurePart e
                      then set_pan (mkPan (isDragging (pan s))
                                      (mouseX (md_mouse e))
                                      (mouseY (md_mouse e))) s
                      else deselectAllFigures
                             (set_pan (mkPan (isDragging (pan s))
                                         (mouseX (md_mouse e))
                                         (mouseY (md_mouse e))) s))).
  { subst s'. unfold handleMouseDown.
    destruct (md_onFigurePart e); cbn zeta;
      cbn [isAnnotationMode selectedLabel set_pan deselectAllFigures
           set_selectedFigure set_drag currentTool];
      rewrite M, L, (truthy_Some name N), T; cbn [negb];
      match goal with
      | |- context [isWithinImageBounds ?s0 ?a ?b] =>
          change (isWithinImageBounds s0 a b)
            with (isWithinImageBounds s (Pt.x c) (Pt.y c))
      end;
      rewrite B; reflexivity. }
  set (s2 := if md_onFigurePart e then _ else _) in E.
  assert (F : selectedLabel s2 = Some name /\ annotations s2 = annotations s
              /\ log s2 = log s /\ view s2 = view s).
  { subst s2. destruct (md_onFigurePart e); simpl; auto. }
  destruct F as (F1 & F2 & F3 & F4).
  assert (V : view s' = view s).
  { rewrite E. unfold annotateLandmark, saveToHistory.
    destruct (_ >? _)%Z; simpl; exact F4. }
  assert (A : annotations s'
              = Store.set (annotations s) name (Landmark ok (Some c) now)).
  { rewrite E. unfold annotateLandmark.
    cbn [annotations showMessage set_log]. rewrite saveToHistory_annotations.
    cbn [annotations set_annotations fetch set_log selectedLabel].
    rewrite F1, F2. reflexivity. }
  split; [rewrite A; apply Store_get_set_eq|].
  split.
  { unfold renderLandmarkPoint_at, isWithinImageBounds, imageToDisplayCoords.
    rewrite V. fold (isWithinImageBounds s (Pt.x c) (Pt.y c)). rewrite B.
    cbn [negb]. subst c. unfold eventToImageCoords. cbn [Pt.x Pt.y].
    f_equal. f_equal; field; exact Hz. }
  split.
  { intros k Hk. rewrite A. apply Store_get_set_ne. congruence. }
  exists "Annotated"%string. rewrite E. unfold annotateLandmark.
  cbn [log showMessage set_log]. rewrite saveToHistory_log.
  cbn [log set_annotations fetch set_log selectedLabel label_key].
  rewrite F1, F3. reflexivity.
Qed.

Lemma landmark_lands_under_pointer_witness :
  let s := set_view (mkView 200 200 2 10 20)
             (set_selectedLabel (Some "L1"%string) (initializeApp [] "t0")) in
  let s' := handleMouseDown (mkContainerMouseDown (mkMouse 110 70) false false)
              resp_success "t1" s in
  renderLandmarkPoint_at s'
    (eventToImageCoords s (mkMouse 110 70))
  = Some (Pt.mk 110 70).
Proof.
  intros s s'.
  refine (proj1 (proj2 (landmark_lands_under_pointer
                   (mkContainerMouseDown (mkMouse 110 70) false false)
                   "L1" "t1" s eq_refl eq_refl eq_refl _ _ _))).
  - discriminate.
  - simpl. lra.
  - unfold isWithinImageBounds, eventToImageCoords. simpl.
    unfold Rleb, Rltb.
    repeat match goal with
           | |- context [Rle_dec ?a ?b] => destruct (Rle_dec a b); [|exfalso; lra]
           | |- context [Rlt_dec ?a ?b] => destruct (Rlt_dec a b); [|exfalso; lra]
           end.
    reflexivity.
Defined.

(** ** Editing and moving the transient polygon *)

Lemma combine_seq_snoc {A : Type} (l : list A) (a : A) (k : nat) :
  combine (seq k (length (l ++ [a]))) (l ++ [a])
  = combine (seq k (length l)) l ++ [((k + length l)%nat, a)].
Proof.
  revert k. induction l as [|b l IH]; intros k; simpl.
  - now rewrite Nat.add_0_r.
  - rewrite IH. simpl. repeat f_equal. lia.
Qed.

Lemma nth_error_lookup_eq {A : Type} (l : list A) (i : nat) :
  nth_error l i = l !! i.
Proof. revert i. induction l as [|a l IH]; intros [|i]; simpl; auto. Qed.

(** The state of the search after the vertices [ps]. *)
Lemma nearest_fold (coords : Pt.t) (threshold : R) (ps : list Pt.t) :
  let acc :=
    fold_left (nearest_step coords threshold)
      (combine (seq 0 (length ps)) ps) ((-1)%Z, None) in
  (fst acc = (-1)%Z /\ snd acc = None
   /\ forall p, In p ps -> threshold <= point_distance p coords)
  \/ (exists p,
        (0 <= fst acc)%Z
        /\ ps !! Z.to_nat (fst acc) = Some p
        /\ snd acc = Some (point_distance p coords)
        /\ point_distance p coords < threshold
        /\ (forall j q, ps !! j = Some q ->
              point_distance p coords <= point_distance q coords)
        /\ (forall j q, (j < Z.to_nat (fst acc))%nat -> ps !! j = Some q ->
              point_distance p coords < point_distance q coords)).
Proof.
  induction ps as [|a ps IH] using rev_ind.
  - left. simpl. repeat split; auto. intros p [].
  - rewrite combine_seq_snoc, fold_left_app. cbn zeta in IH.
    set (acc := fold_left _ (combine _ ps) _) in *.
    destruct acc as [i d]. cbn [fst snd] in IH.
    cbn [fold_left nearest_step]. fold (point_distance a coords).
    cbn zeta. rewrite Nat.add_0_l.
    destruct IH as [(-> & -> & Hfar)|(p & Hi & Hp & -> & Hlt & Hmin & Hfirst)].
    + destruct (Rltb (point_distance a coords) threshold) eqn:E;
        cbn [andb fst snd].
      * apply Rltb_true in E. right. exists a.
        rewrite Nat2Z.id.
        split; [lia|]. split; [apply list_lookup_middle; reflexivity|].
        split; [reflexivity|]. split; [exact E|]. split.
        -- intros j q Hq. apply lookup_app_Some in Hq.
           destruct Hq as [Hq|[_ Hq]].
           ++ apply list_elem_of_lookup_2, list_elem_of_In in Hq.
              specialize (Hfar q Hq). lra.
           ++ apply list_lookup_singleton_Some in Hq. destruct Hq as [_ <-].
              lra.
        -- intros j q Hj Hq. rewrite lookup_app_l in Hq by exact Hj.
           apply list_elem_of_lookup_2, list_elem_of_In in Hq.
           specialize (Hfar q Hq). lra.
      * apply Rltb_false in E. left. repeat split; auto.
        intros p Hp. apply in_app_or in Hp. destruct Hp as [Hp|[<-|[]]]; auto.
    + assert (Hlen : (Z.to_nat i < length ps)%nat)
        by (apply lookup_lt_is_Some; eauto).
      destruct (Rltb (point_distance a coords) threshold
                && Rltb (point_distance a coords) (point_distance p coords))
        eqn:E; cbn [fst snd].
      * apply andb_true_iff in E. destruct E as [E1 E2].
        apply Rltb_true in E1. apply Rltb_true in E2.
        right. exists a. rewrite Nat2Z.id.
        split; [lia|]. split; [apply list_lookup_middle; reflexivity|].
        split; [reflexivity|]. split; [exact E1|]. split.
        -- intros j q Hq. apply lookup_app_Some in Hq.
           destruct Hq as [Hq|[_ Hq]].
           ++ specialize (Hmin j q Hq). lra.
           ++ apply list_lookup_singleton_Some in Hq. destruct Hq as [_ <-].
              lra.
        -- intros j q Hj Hq. rewrite lookup_app_l in Hq by exact Hj.
           specialize (Hmin j q Hq). lra.
      * right. exists p.
        split; [exact Hi|]. split; [now rewrite lookup_app_l|].
        split; [reflexivity|]. split; [exact Hlt|]. split.
        -- intros j q Hq. apply lookup_app_Some in Hq.
           destruct Hq as [Hq|[_ Hq]]; [eauto|].
           apply list_lookup_singleton_Some in Hq. destruct Hq as [_ <-].
           apply andb_false_iff in E. destruct E as [E|E];
             apply Rltb_false in E; lra.
        -- intros j q Hj Hq. rewrite lookup_app_l in Hq by lia. eauto.
Qed.

Lemma findNearestPointIndex_range (coords : Pt.t) (s : STATE) :
  findNearestPointIndex coords s = (-1)%Z
  \/ ((0 <= findNearestPointIndex coords s)%Z
      /\ (Z.to_nat (findNearestPointIndex coords s)
          < length (activePolygonPoints (poly s)))%nat).
Proof.
  unfold findNearestPointIndex.
  destruct (nearest_fold coords (10 / currentZoom (view s))
              (activePolygonPoints (poly s)))
    as [(A & _)|(p & Hi & Hp & _)]; [left; exact A|right].
  split; [exact Hi|]. apply lookup_lt_is_Some. eauto.
Qed.

(** X11.  [findNearestPointIndex] answers -1 exactly when no vertex of
    the transient polygon is closer to the pointer than 10 screen pixels
    (10 / zoom in image units); otherwise it answers the position of a
    vertex within that distance that is nearest to the pointer, the first
    such vertex when several are equally near. *)
Theorem findNearestPointIndex_spec (coords : Pt.t) (s : STATE) :
  currentZoom (view s) <> 0 ->
  let ps := activePolygonPoints (poly s) in
  let threshold := 10 / currentZoom (view s) in
  let i := findNearestPointIndex coords s in
  (i = (-1)%Z
   /\ forall p, In p ps -> threshold <= point_distance p coords)
  \/ (exists p,
        (0 <= i < Z.of_nat (length ps))%Z
        /\ index ps i = Some p
        /\ point_distance p coords < threshold
        /\ (forall q, In q ps ->
              point_distance p coords <= point_distance q coords)
        /\ (forall j q, (Z.of_nat j < i)%Z -> ps !! j = Some q ->
              point_distance p coords < point_distance q coords)).
Proof.
  intros _ ps threshold i. subst i. unfold findNearestPointIndex.
  fold ps threshold.
  destruct (nearest_fold coords threshold ps)
    as [(A & _ & B)|(p & Hi & Hp & _ & Hlt & Hmin & Hfirst)];
    [left; auto|right].
  set (i := fst _) in *. exists p.
  assert (Hlen : (Z.to_nat i < length ps)%nat)
    by (apply lookup_lt_is_Some; eauto).
  split; [lia|]. split.
  { unfold index. destruct (i <? 0)%Z eqn:E; [apply Z.ltb_lt in E; lia|].
    rewrite nth_error_lookup_eq. exact Hp. }
  split; [exact Hlt|]. split.
  - intros q Hq. apply list_elem_of_In, list_elem_of_lookup_1 in Hq.
    destruct Hq as [j Hq]. eauto.
  - intros j q Hj Hq. apply (Hfirst j q); [lia|exact Hq].
Qed.

Lemma findNearestPointIndex_spec_witness :
  findNearestPointIndex (Pt.mk 38 2) triangle_edit = (-1)%Z
  \/ exists p,
       index (activePolygonPoints (poly triangle_edit))
         (findNearestPointIndex (Pt.mk 38 2) triangle_edit) = Some p
       /\ point_distance p (Pt.mk 38 2) < 10 / 1.
Proof.
  destruct (findNearestPointIndex_spec (Pt.mk 38 2) triangle_edit)
    as [(A & _)|(p & _ & A & B & _)].
  - simpl. lra.
  - left. exact A.
  - right. exists p. split; [exact A|exact B].
Defined.

(** X12.  An edit drag moves exactly the grabbed vertex.  A click in edit
    mode grabs the vertex that [findNearestPointIndex] answers; the
    following drag puts that vertex on the pointer and leaves every other
    vertex and the number of vertices as they are.  A click that is not
    within reach of any vertex grabs nothing, and the drag changes
    nothing. *)
Theorem polygon_edit_moves_grabbed_vertex (c c' : Pt.t) (s : STATE) :
  polygonTool (poly s) = edit -> currentZoom (view s) <> 0 ->
  let ps := activePolygonPoints (poly s) in
  let i := findNearestPointIndex c s in
  let s1 := handlePolygonClick c s in
  let s2 := handlePolygonDrag c' s1 in
  (i = (-1)%Z ->
     s2 = s1 /\ activePolygonPoints (poly s2) = ps
     /\ polygonDragging (poly s2) = polygonDragging (poly s))
  /\ (i <> (-1)%Z ->
        polygonDragging (poly s2) = true
        /\ length (activePolygonPoints (poly s2)) = length ps
        /\ index (activePolygonPoints (poly s2)) i = Some c'
        /\ forall j, j <> Z.to_nat i ->
             activePolygonPoints (poly s2) !! j = ps !! j).
Proof.
  intros T Hz ps i s1 s2.
  assert (R : (i = (-1)%Z)
              \/ (0 <= i)%Z /\ (Z.to_nat i < length ps)%nat).
  { destruct (findNearestPointIndex_range c s) as [A|(A & B)]; auto. }
  subst s2 s1. unfold handlePolygonClick. rewrite T.
  cbn [selectedPointIndex poly set_selectedPointIndex set_poly].
  fold i. unfold handlePolygonDrag.
  destruct (i =? -1)%Z eqn:E.
  - apply Z.eqb_eq in E.
    cbn [polygonTool poly set_selectedPointIndex set_poly selectedPointIndex].
    rewrite T. rewrite (proj2 (Z.eqb_eq i (-1)) E).
    split; [intros _; auto|intros N; contradiction].
  - apply Z.eqb_neq in E. destruct R as [R|[R1 R2]]; [contradiction|].
    cbn [polygonTool poly set_selectedPointIndex set_poly selectedPointIndex
         set_polygonDragging activePolygonPoints polygonDragging
         set_activePolygonPoints].
    rewrite T. rewrite (proj2 (Z.eqb_neq i (-1)) E).
    cbn [polygonTool poly set_selectedPointIndex set_poly selectedPointIndex
         set_polygonDragging activePolygonPoints polygonDragging
         set_activePolygonPoints].
    fold ps. split; [intros N; contradiction|intros _].
    split; [reflexivity|]. split; [apply length_insert|]. split.
    + unfold index. destruct (i <? 0)%Z eqn:E0; [apply Z.ltb_lt in E0; lia|].
      rewrite nth_error_lookup_eq. destruct c' as [cx cy]. cbn [Pt.x Pt.y].
      apply list_lookup_insert_eq. exact R2.
    + intros j Hj. apply list_lookup_insert_ne. congruence.
Qed.

Lemma polygon_edit_moves_grabbed_vertex_witness :
  length
    (activePolygonPoints
       (poly (handlePolygonDrag (Pt.mk 45 5)
                (handlePolygonClick (Pt.mk 38 2) triangle_edit))))
  = 3%nat.
Proof.
  destruct (polygon_edit_moves_grabbed_vertex (Pt.mk 38 2) (Pt.mk 45 5)
              triangle_edit eq_refl) as (A & B).
  - simpl. lra.
  - destruct (Z.eq_dec (findNearestPointIndex (Pt.mk 38 2) triangle_edit)
                (-1)%Z) as [E|E].
    + destruct (A E) as (_ & P & _). rewrite P. reflexivity.
    + destruct (B E) as (_ & L & _). exact L.
Defined.

Lemma polygon_drags_move (cs : list Pt.t) (c m : Pt.t) (s : STATE) :
  polygonTool (poly s) = move -> polygonDragging (poly s) = true ->
  polygonMoveStart (poly s) = Some m ->
  let s' := polygon_drags (cs ++ [c]) s in
  polygonTool (poly s') = move /\ polygonDragging (poly s') = true
  /\ polygonMoveStart (poly s') = Some (Pt.mk (Pt.x c) (Pt.y c))
  /\ activePolygonPoints (poly s')
     = map (shift (Pt.x c - Pt.x m) (Pt.y c - Pt.y m))
         (activePolygonPoints (poly s))
  /\ annotations s' = annotations s /\ log s' = log s.
Proof.
  assert (One : forall (c m : Pt.t) (s : STATE),
             polygonTool (poly s) = move -> polygonDragging (poly s) = true ->
             polygonMoveStart (poly s) = Some m ->
             let s' := handlePolygonDrag c s in
             polygonTool (poly s') = move /\ polygonDragging (poly s') = true
             /\ polygonMoveStart (poly s') = Some (Pt.mk (Pt.x c) (Pt.y c))
             /\ activePolygonPoints (poly s')
                = map (shift (Pt.x c - Pt.x m) (Pt.y c - Pt.y m))
                    (activePolygonPoints (poly s))
             /\ annotations s' = annotations s /\ log s' = log s).
  { intros c1 m1 s1 T D M. unfold handlePolygonDrag. rewrite T, D, M.
    cbn. rewrite T, D. repeat split; reflexivity. }
  revert m s. induction cs as [|c1 cs IH]; intros m s T D M.
  - apply (One c m s T D M).
  - destruct (One c1 m s T D M) as (T1 & D1 & M1 & P1 & A1 & L1).
    specialize (IH _ _ T1 D1 M1). cbn zeta in IH.
    destruct IH as (T2 & D2 & M2 & P2 & A2 & L2).
    change (polygon_drags ((c1 :: cs) ++ [c]) s)
      with (polygon_drags (cs ++ [c]) (handlePolygonDrag c1 s)).
    cbn zeta. repeat split; try assumption; try congruence.
    rewrite P2, P1, map_map. apply map_ext. intros [px py].
    unfold shift. cbn [Pt.x Pt.y]. f_equal; lra.
Qed.

(** X13.  A move drag translates the transient polygon by the
    displacement of the pointer: whatever path the pointer takes from the
    mouse-down, every vertex ends displaced by the vector from the
    mouse-down point to the current point, so the shape and the number of
    vertices are kept; the store is not written. *)
Theorem polygon_move_translates (c0 c : Pt.t) (cs : list Pt.t) (s : STATE) :
  polygonTool (poly s) = move ->
  let s' := polygon_drags (cs ++ [c]) (handlePolygonClick c0 s) in
  activePolygonPoints (poly s')
  = map (shift (Pt.x c - Pt.x c0) (Pt.y c - Pt.y c0))
      (activePolygonPoints (poly s))
  /\ length (activePolygonPoints (poly s'))
     = length (activePolygonPoints (poly s))
  /\ annotations s' = annotations s.
Proof.
  intros T s'.
  assert (H0 : handlePolygonClick c0 s
               = set_polygonMoveStart (Some (Pt.mk (Pt.x c0) (Pt.y c0)))
                   (set_polygonDragging true s)).
  { unfold handlePolygonClick. now rewrite T. }
  destruct (polygon_drags_move cs c (Pt.mk (Pt.x c0) (Pt.y c0))
              (handlePolygonClick c0 s))
    as (_ & _ & _ & P & A & _).
  - rewrite H0. exact T.
  - rewrite H0. reflexivity.
  - rewrite H0. reflexivity.
  - fold s' in P, A. rewrite H0 in P, A. cbn in P, A.
    split; [exact P|]. split; [|exact A].
    rewrite P. apply length_map.
Qed.

Lemma polygon_move_translates_witness :
  activePolygonPoints
    (poly (polygon_drags ([Pt.mk 7 7] ++ [Pt.mk 15 25])
             (handlePolygonClick (Pt.mk 5 5) (setPolygonTool move triangle_edit))))
  = map (shift (15 - 5) (25 - 5)) [Pt.mk 0 0; Pt.mk 40 0; Pt.mk 40 30].
Proof.
  exact (proj1 (polygon_move_translates (Pt.mk 5 5) (Pt.mk 15 25) [Pt.mk 7 7]
                  (setPolygonTool move triangle_edit) eq_refl)).
Defined.

(** ** Drawing a line with two clicks *)

(** X14.  A line is drawn with two clicks.  The first click only records
    its point: nothing is stored, requested or announced.  The second
    click always ends the gesture with the recorded points cleared,
    whatever the reply.  When the two points are less than 10 apart (the
    length is compared as it is, before rounding) the line is rejected
    with a warning, without a request and without a change of the store
    or the history; otherwise exactly one request is made. *)
Theorem line_takes_two_clicks (a b : Pt.t) (r1 r : Response)
    (now1 now : string) (s : STATE) :
  figureShape (drawing s) = line -> linePoints (drawing s) = [] ->
  let s1 := startFigureDrawing a r1 now1 s in
  let s2 := startFigureDrawing b r now s1 in
  let len := distance (Pt.x a) (Pt.y a) (Pt.x b) (Pt.y b) in
  (linePoints (drawing s1) = [Pt.mk (Pt.x a) (Pt.y a)]
   /\ annotations s1 = annotations s /\ history s1 = history s
   /\ log s1 = log s)
  /\ linePoints (drawing s2) = []
  /\ (len < 10 ->
      annotations s2 = annotations s /\ history s2 = history s
      /\ exists text, log s2 = ev_message text warning :: log s)
  /\ (10 <= len -> fetch_count (log s2) = S (fetch_count (log s))).
Proof.
  intros Hs Hp s1 s2 len.
  assert (E1 : s1 = set_linePoints [Pt.mk (Pt.x a) (Pt.y a)] s).
  { subst s1. unfold startFigureDrawing. rewrite Hs, Hp. reflexivity. }
  assert (E2 : s2 = completeLineDrawing r now
                      (set_linePoints
                         [Pt.mk (Pt.x a) (Pt.y a); Pt.mk (Pt.x b) (Pt.y b)]
                         s1)).
  { subst s2. unfold startFigureDrawing. rewrite E1. simpl.
    rewrite Hs. reflexivity. }
  split; [rewrite E1; simpl; auto|].
  rewrite E2, E1. unfold completeLineDrawing.
  cbn [linePoints drawing set_linePoints set_drawing Pt.x Pt.y].
  unfold Math_sqrt.
  fold (distance (Pt.x a) (Pt.y a) (Pt.x b) (Pt.y b)). fold len.
  destruct (Rltb len 10) eqn:E.
  - apply Rltb_true in E. split; [reflexivity|]. split.
    + intros _. simpl. eauto.
    + intros C. lra.
  - apply Rltb_false in E. split; [destruct r; reflexivity|]. split.
    + intros C. lra.
    + intros _. destruct r; simpl;
        rewrite ?fetch_count_message, ?saveToHistory_log; simpl;
        rewrite ?fetch_count_fetch; reflexivity.
Qed.

Lemma line_takes_two_clicks_witness :
  let s := selectFigureShape line
             (set_selectedLabel (Some "L2"%string) (initializeApp [] "t0")) in
  linePoints
    (drawing (startFigureDrawing (Pt.mk 30 40) resp_success "t2"
                (startFigureDrawing (Pt.mk 0 0) resp_success "t1" s)))
  = [].
Proof.
  intros s.
  exact (proj1 (proj2 (line_takes_two_clicks (Pt.mk 0 0) (Pt.mk 30 40)
                         resp_success resp_success "t1" "t2" s
                         eq_refl eq_refl))).
Defined.

(** ** Resizing and dragging a figure *)

Lemma Store_set_set (s : Store.t) (k : string) (a b : Annotation) :
  Store.set (Store.set s k a) k b = Store.set s k b.
Proof.
  induction s as [|[k' a'] r IH]; simpl.
  - now rewrite String.eqb_refl.
  - destruct (String.eqb k k') eqn:E; simpl; rewrite E; [reflexivity|].
    now rewrite IH.
Qed.

Lemma Store_mutate_mutate (s : Store.t) (k : string) (g1 g2 : Fig.t -> Fig.t) :
  Store.mutate_figure (Store.mutate_figure s k g1) k g2
  = Store.mutate_figure s k (fun f => g2 (g1 f)).
Proof.
  unfold Store.mutate_figure at 2 3.
  destruct (Store.get s k) as [[st co ts|ps ts|f ts]|] eqn:E;
    unfold Store.mutate_figure; rewrite ?E; try reflexivity.
  rewrite Store_get_set_eq. apply Store_set_set.
Qed.

Lemma figure_at_mutate (s : STATE) (name : string) (g : Fig.t -> Fig.t)
    (f : Fig.t) :
  figure_at s name = Some f ->
  figure_at (set_annotations (Store.mutate_figure (annotations s) name g) s)
    name = Some (g f).
Proof.
  intros H. destruct (figure_at_get s name f H) as [ts Hg].
  unfold figure_at. cbn [annotations set_annotations].
  now rewrite (Store_get_mutate_eq _ _ _ f ts Hg).
Qed.

(** X15.  While a resize handle is dragged, the figure's size is never
    below 10 and only the size changes: centre, shape and every other
    annotation stay.  The size is computed from the size and the pointer
    position at the mouse-down, so only the current pointer position
    counts, not the path that led to it. *)
Theorem resize_is_clamped_and_anchored (e e' : MouseEvent) (name : string)
    (h : Handle) (f : Fig.t) (s : STATE) :
  selectedFigure (drag s) = Some name -> name <> ""%string ->
  figureResizing (drag s) = true -> resizeHandle (drag s) = Some h ->
  figure_at s name = Some f ->
  let s1 := move_figureResize e s in
  (exists size',
      figure_at s1 name = Some (Fig.with_size size' f) /\ 10 <= size')
  /\ (forall k, k <> name ->
        Store.get (annotations s1) k = Store.get (annotations s) k)
  /\ move_figureResize e' s1 = move_figureResize e' s.
Proof.
  intros Hs Hn Hr Hh Hf s1. subst s1.
  unfold move_figureResize, updateFigureSize.
  do 3 (cbn [drag set_annotations view annotations andb label_key];
        rewrite ?Hs, ?Hr, ?Hh, ?(truthy_Some name Hn)).
  split; [|split].
  - eexists. split; [apply (figure_at_mutate s name _ f Hf)|].
    unfold Math_max. apply Rmax_l.
  - intros k Hk. apply Store_get_mutate_ne. congruence.
  - rewrite Store_mutate_mutate. reflexivity.
Qed.

Lemma resize_is_clamped_and_anchored_witness :
  let s := handleFigureMouseDown grab_east_handle_F1
             (handleFigureClick "F1" true panning_STATE) in
  move_figureResize (mkMouse 0 50) (move_figureResize (mkMouse 140 50) s)
  = move_figureResize (mkMouse 0 50) s.
Proof.
  intros s.
  refine (proj2 (proj2 (resize_is_clamped_and_anchored (mkMouse 140 50)
                          (mkMouse 0 50) "F1" h_e circle_F1 s
                          eq_refl _ eq_refl eq_refl eq_refl))).
  discriminate.
Defined.

Lemma Store_mutate_ext (s : Store.t) (k : string) (g g' : Fig.t -> Fig.t) :
  (forall f, g f = g' f) ->
  Store.mutate_figure s k g = Store.mutate_figure s k g'.
Proof.
  intros H. unfold Store.mutate_figure.
  destruct (Store.get s k) as [[st co ts|ps ts|f ts]|]; try reflexivity.
  now rewrite H.
Qed.

(** One pointer move while the body of a circle or rectangle is dragged
    and nothing else is going on. *)
Lemma drag_step (e : MouseEvent) (name : string) (f : Fig.t) (s : STATE) :
  imageLoaded s = true -> isDragging (pan s) = false ->
  polygonDragging (poly s) = false -> figureResizing (drag s) = false ->
  linePointDragging (linePoint s) = false ->
  figureDragging (drag s) = true -> selectedFigure (drag s) = Some name ->
  name <> ""%string -> figure_at s name = Some f -> Fig.shape f <> line ->
  handleMouseMove e s
  = updateFigurePosition name
      ((mouseX e + figureDragOffsetX (drag s) - translateX (view s))
       / currentZoom (view s))
      ((mouseY e + figureDragOffsetY (drag s) - translateY (view s))
       / currentZoom (view s)) s.
Proof.
  intros L D PD FR LP FD Sel Hn Hf Hsh.
  unfold handleMouseMove. rewrite L. cbn [negb]. cbn zeta.
  unfold move_pan. rewrite D. cbn [andb].
  unfold move_polygon. rewrite PD.
  unfold move_figureDrag. rewrite FD, Sel, (truthy_Some name Hn).
  cbn [andb label_key]. rewrite Hf.
  unfold displayToImageCoords. cbn [Pt.x Pt.y].
  assert (T : forall nx ny,
             match move_linePoint (eventToImageCoords s e)
                     (move_figureResize e (updateFigurePosition name nx ny s))
             with
             | Some s5 => s5
             | None => move_figureResize e (updateFigurePosition name nx ny s)
             end = updateFigurePosition name nx ny s).
  { intros nx ny. unfold move_figureResize.
    cbn [drag updateFigurePosition set_annotations]. rewrite FR. cbn [andb].
    unfold move_linePoint.
    cbn [linePoint updateFigurePosition set_annotations]. rewrite LP.
    reflexivity. }
  destruct (Fig.shape f); [apply T|apply T|contradiction].
Qed.

Lemma updateFigurePosition_twice (name : string) (x1 y1 x2 y2 : R)
    (s : STATE) :
  updateFigurePosition name x2 y2 (updateFigurePosition name x1 y1 s)
  = updateFigurePosition name x2 y2 s.
Proof.
  unfold updateFigurePosition. cbn [annotations set_annotations].
  rewrite Store_mutate_mutate.
  rewrite (Store_mutate_ext _ _ _ (Fig.with_xy x2 y2)); reflexivity.
Qed.

Lemma drag_moves (es : list MouseEvent) (e : MouseEvent) (name : string)
    (f : Fig.t) (s : STATE) :
  imageLoaded s = true -> isDragging (pan s) = false ->
  polygonDragging (poly s) = false -> figureResizing (drag s) = false ->
  linePointDragging (linePoint s) = false ->
  figureDragging (drag s) = true -> selectedFigure (drag s) = Some name ->
  name <> ""%string -> figure_at s name = Some f -> Fig.shape f <> line ->
  mouse_moves (es ++ [e]) s
  = updateFigurePosition name
      ((mouseX e + figureDragOffsetX (drag s) - translateX (view s))
       / currentZoom (view s))
      ((mouseY e + figureDragOffsetY (drag s) - translateY (view s))
       / currentZoom (view s)) s.
Proof.
  revert f s. induction es as [|e1 es IH];
    intros f s L D PD FR LP FD Sel Hn Hf Hsh.
  - apply (drag_step e name f s); assumption.
  - change (mouse_moves ((e1 :: es) ++ [e]) s)
      with (mouse_moves (es ++ [e]) (handleMouseMove e1 s)).
    rewrite (drag_step e1 name f s) by assumption.
    set (x1 := (mouseX e1 + _ - _) / _). set (y1 := (mouseY e1 + _ - _) / _).
    rewrite (IH (Fig.with_xy x1 y1 f) (updateFigurePosition name x1 y1 s));
      try assumption.
    + apply updateFigurePosition_twice.
    + apply (figure_at_mutate s name _ f Hf).
Qed.

Lemma saveFigureUpdate_frame (name : string) (x y : R) (shape : Shape)
    (size : R) (r : Response) (now : string) (s : STATE) :
  let s' := saveFigureUpdate name x y shape size r now s in
  annotations s' = annotations s /\ pan s' = pan s /\ poly s' = poly s
  /\ drawing s' = drawing s /\ drag s' = drag s
  /\ linePoint s' = linePoint s
  /\ fetch_count (log s') = S (fetch_count (log s))
  /\ In (ev_fetch api_figures name (act_update x y shape size)) (log s').
Proof.
  unfold saveFigureUpdate, saveFigureUpdate_settled, saveToHistory.
  destruct r; [destruct (_ >? _)%Z|..]; cbn;
    rewrite ?fetch_count_message, ?fetch_count_fetch; auto 12.
Qed.

(** What [handleMouseUp] does at the end of a drag of a figure's body. *)
Lemma handleMouseUp_after_drag (e : MouseEvent) (rD rI rL : Response)
    (now name : string) (g : Fig.t) (t : STATE) :
  figureDrawing (drawing t) = false -> figureDragging (drag t) = true ->
  linePointDragging (linePoint t) = false ->
  selectedFigure (drag t) = Some name -> name <> ""%string ->
  figure_at t name = Some g ->
  let s' := handleMouseUp e rD rI rL now t in
  annotations s' = annotations t
  /\ isDragging (pan s') = false /\ polygonDragging (poly s') = false
  /\ figureDrawing (drawing s') = false /\ figureDragging (drag s') = false
  /\ figureResizing (drag s') = false
  /\ linePointDragging (linePoint s') = false
  /\ selectedFigure (drag s') = Some name
  /\ fetch_count (log s') = S (fetch_count (log t))
  /\ In (ev_fetch api_figures name
           (act_update (Fig.x g) (Fig.y g) (Fig.shape g) (Fig.size g)))
        (log s').
Proof.
  intros FDr FD LP Sel Hn Hg. unfold handleMouseUp. cbn zeta.
  cbn [drawing set_selectedPointIndex set_polygonDragging set_pan set_poly
       currentTool].
  rewrite FDr.
  cbn [drag set_selectedPointIndex set_polygonDragging set_pan set_poly].
  rewrite FD. cbn [orb].
  unfold completeFigureInteraction.
  cbn [drag set_selectedPointIndex set_polygonDragging set_pan set_poly].
  rewrite FD, Sel, (truthy_Some name Hn). cbn [andb].
  unfold save_selectedFigure.
  cbn [drag set_selectedPointIndex set_polygonDragging set_pan set_poly
       label_key].
  rewrite Sel. cbn [label_key].
  set (t2 := set_selectedPointIndex (-1) _).
  change (figure_at t2 name) with (figure_at t name).
  rewrite Hg.
  destruct (saveFigureUpdate_frame name (Fig.x g) (Fig.y g) (Fig.shape g)
              (Fig.size g) rI now t2)
    as (A & P & Q & Dw & Dg & Lp & F1 & F2).
  set (s3 := saveFigureUpdate _ _ _ _ _ _ _ _) in *.
  cbn [linePoint set_drag]. rewrite Lp.
  change (linePoint t2) with (linePoint t). rewrite LP.
  cbn [annotations pan poly drawing drag linePoint log set_drag
       figureDragging figureResizing selectedFigure].
  rewrite A, P, Q, Dw, Dg, F1.
  change (linePoint t2) with (linePoint t).
  subst t2. cbn. repeat split; auto.
  rewrite Lp. exact LP.
Qed.

(** X16.  Dragging a circle or rectangle by its body in panning mode: the
    figure follows the pointer.  From a state without a gesture in
    progress, a mouse-down on the figure, any pointer path and the
    mouse-up leave the figure displaced by the displacement of the
    pointer, divided by the zoom, with its size and shape as before and
    every other annotation untouched; one update request with the new
    centre is made; the figure stays selected and no gesture is left in
    progress.  The stored position does not depend on the reply to the
    request. *)
Theorem figure_drag_follows_pointer (e0 e : MouseEvent)
    (es : list MouseEvent) (rD rI rL : Response) (now name : string)
    (f : Fig.t) (s : STATE) :
  isAnnotationMode s = false -> imageLoaded s = true -> idle s ->
  currentZoom (view s) <> 0 -> name <> ""%string ->
  figure_at s name = Some f -> Fig.shape f <> line ->
  let s' :=
    handleMouseUp e rD rI rL now
      (mouse_moves (es ++ [e])
         (handleFigureMouseDown (grab s name f e0) s)) in
  let x' := Fig.x f + (mouseX e - mouseX e0) / currentZoom (view s) in
  let y' := Fig.y f + (mouseY e - mouseY e0) / currentZoom (view s) in
  figure_at s' name = Some (Fig.with_xy x' y' f)
  /\ (forall k, k <> name ->
        Store.get (annotations s') k = Store.get (annotations s) k)
  /\ idle s' /\ selectedFigure (drag s') = Some name
  /\ fetch_count (log s') = S (fetch_count (log s))
  /\ In (ev_fetch api_figures name
           (act_update x' y' (Fig.shape f) (Fig.size f))) (log s').
Proof.
  intros M L (I1 & I2 & I3 & I4 & I5 & I6) Hz Hn Hf Hsh s' x' y'.
  set (s0 := handleFigureMouseDown (grab s name f e0) s) in *.
  assert (E0 : s0
               = set_drag
                   (mkDrag (Some name) true (figureResizing (drag s))
                      (mouseX e0) (mouseY e0) (Fig.x f) (Fig.y f)
                      (figureOriginalSize (drag s)) (resizeHandle (drag s))
                      (Pt.x (imageToDisplayCoords s (Fig.x f) (Fig.y f))
                       - mouseX e0)
                      (Pt.y (imageToDisplayCoords s (Fig.x f) (Fig.y f))
                       - mouseY e0)
                      (figureOriginalStartX (drag s))
                      (figureOriginalStartY (drag s))
                      (figureOriginalEndX (drag s))
                      (figureOriginalEndY (drag s))) s).
  { subst s0. unfold handleFigureMouseDown, grab. rewrite M.
    cbn [fm_handle fm_figureName fm_mouse fm_centerX fm_centerY].
    rewrite Hf. reflexivity. }
  assert (Em : mouse_moves (es ++ [e]) s0
               = updateFigurePosition name x' y' s0).
  { rewrite (drag_moves es e name f s0); try assumption;
      try (rewrite E0; first [assumption | reflexivity]).
    rewrite E0. unfold imageToDisplayCoords.
    cbn [drag set_drag view figureDragOffsetX figureDragOffsetY Pt.x Pt.y].
    subst x' y'. f_equal; field; exact Hz. }
  subst s'. rewrite Em.
  set (t := updateFigurePosition name x' y' s0).
  assert (Ht : figure_at t name = Some (Fig.with_xy x' y' f)).
  { subst t. apply (figure_at_mutate s0 name _ f). rewrite E0. exact Hf. }
  destruct (handleMouseUp_after_drag e rD rI rL now name
              (Fig.with_xy x' y' f) t)
    as (A & B1 & B2 & B3 & B4 & B5 & B6 & C & F1 & F2);
    try assumption; try (subst t; rewrite E0; first [assumption | reflexivity]).
  cbn zeta in *. split; [|split; [|split; [|split; [|split]]]].
  - unfold figure_at in *. rewrite A. exact Ht.
  - intros k Hk. rewrite A. subst t. unfold updateFigurePosition.
    cbn [annotations set_annotations]. rewrite E0.
    cbn [annotations set_drag]. apply Store_get_mutate_ne. congruence.
  - repeat split; assumption.
  - exact C.
  - rewrite F1. subst t. rewrite E0. reflexivity.
  - exact F2.
Qed.

Lemma figure_drag_follows_pointer_witness :
  figure_at
    (handleMouseUp (mkMouse 150 80) resp_success resp_failure resp_success
       "t1"
       (mouse_moves ([] ++ [mkMouse 150 80])
          (handleFigureMouseDown
             (grab panning_STATE "F1" circle_F1 (mkMouse 100 50))
             panning_STATE)))
    "F1"
  = Some (Fig.with_xy
            (Fig.x circle_F1 + (150 - 100) / currentZoom (view panning_STATE))
            (Fig.y circle_F1 + (80 - 50) / currentZoom (view panning_STATE))
            circle_F1).
Proof.
  refine (proj1 (figure_drag_follows_pointer (mkMouse 100 50) (mkMouse 150 80)
                   [] resp_success resp_failure resp_success "t1" "F1"
                   circle_F1 panning_STATE eq_refl eq_refl _ _ _ eq_refl _)).
  - repeat split; reflexivity.
  - simpl. lra.
  - discriminate.
  - discriminate.
Defined.

(** ** Deleting annotations *)

Lemma Store_get_delete_eq (s : Store.t) (k : string) :
  Store.get (Store.delete s k) k = None.
Proof.
  induction s as [|[k' a'] r IH]; simpl; [reflexivity|].
  destruct (String.eqb k k') eqn:E; simpl; [exact IH|]. now rewrite E.
Qed.

Lemma Store_get_delete_ne (s : Store.t) (k k' : string) :
  k <> k' -> Store.get (Store.delete s k) k' = Store.get s k'.
Proof.
  intros N. induction s as [|[k0 a0] r IH]; simpl; [reflexivity|].
  destruct (String.eqb k k0) eqn:E; simpl.
  - apply String.eqb_eq in E. subst k0.
    destruct (String.eqb k' k) eqn:E'; [|exact IH].
    apply String.eqb_eq in E'. congruence.
  - destruct (String.eqb k' k0); auto.
Qed.

Lemma Store_delete_elem (s : Store.t) (k k' : string) (a : Annotation) :
  (k', a) ∈ Store.delete s k -> k' <> k.
Proof.
  induction s as [|[k0 a0] r IH]; simpl; [intros H; inversion H|].
  destruct (String.eqb k k0) eqn:E; [exact IH|].
  intros H. apply elem_of_cons in H. destruct H as [[= -> ->]|H]; [|auto].
  apply String.eqb_neq in E. congruence.
Qed.

Lemma not_rendered_after_delete (s : STATE) (name : string) (c : RenderCall) :
  c ∈ renderAnnotations
        (set_annotations (Store.delete (annotations s) name) s) ->
  call_name c <> name.
Proof.
  intros H. apply renderAnnotations_elem in H.
  destruct H as (i & [k a] & He & Hr).
  apply render_entry_Some in Hr. destruct Hr as (A & _). rewrite A.
  apply list_elem_of_lookup_2 in He. cbn [annotations set_annotations] in He.
  exact (Store_delete_elem _ _ _ _ He).
Qed.

(** The store after an undo depends on the history and its cursor only. *)
Lemma undo_after_save (now : string) (a : Store.t) (s0 s1 : STATE) :
  hist_inv s0 ->
  option_map h_annotations (index (history s0) (historyIndex s0)) = Some a ->
  history s1 = history (saveToHistory now s0) ->
  historyIndex s1 = historyIndex (saveToHistory now s0) ->
  annotations (undo s1) = a /\ fetch_count (log (undo s1)) = fetch_count (log s1).
Proof.
  intros H0 Hs Eh Ei.
  destruct (saveToHistory_below_cursor now s0 H0) as [B1 _].
  assert (P : (0 < historyIndex (saveToHistory now s0))%Z).
  { pose proof H0 as [Hi0 Hl0].
    destruct (saveToHistory_shape now s0 H0) as [(X & _ & C)|(X & _ & C)];
      lia. }
  unfold undo. rewrite Ei, Eh.
  destruct (_ >? 0)%Z eqn:E;
    [|rewrite Z.gtb_ltb in E; apply Z.ltb_ge in E; lia].
  cbn [history historyIndex set_history]. rewrite B1.
  destruct (index (history s0) (historyIndex s0)) as [en|]; [|discriminate].
  cbn in Hs. injection Hs as Hs.
  cbn [annotations log showMessage set_log set_annotations set_history
       deepClone].
  rewrite fetch_count_message. auto.
Qed.

(** X17.  Deleting an annotation from the label list.  Nothing happens
    unless the user confirms.  A confirmed deletion makes one [remove]
    request, to the endpoint of the annotation's kind.  When it succeeds
    the label has no entry any more and is no longer drawn, every other
    entry stays, and the label is deselected if it was the selected one.
    An undo then brings the store back as it was, without any request. *)
Theorem deleteAnnotation_removes (name : string) (confirmed : bool)
    (r : Response) (now : string) (s : STATE) :
  hist_inv s -> synced s ->
  let s' := deleteAnnotation name confirmed r now s in
  (confirmed = false -> s' = s)
  /\ (confirmed = true ->
      In (ev_fetch
            match Store.get (annotations s) name with
            | Some (Polygon _ _) => api_segments
            | Some (Figure _ _) => api_figures
            | _ => api_landmarks
            end name act_remove) (log s')
      /\ fetch_count (log s') = S (fetch_count (log s)))
  /\ (confirmed = true -> r = resp_success ->
      Store.get (annotations s') name = None
      /\ (forall k, k <> name ->
            Store.get (annotations s') k = Store.get (annotations s) k)
      /\ (forall c, c ∈ renderAnnotations s' -> call_name c <> name)
      /\ selectedLabel s'
         = (if decide (selectedLabel s = Some name) then None
            else selectedLabel s)
      /\ annotations (undo s') = annotations s
      /\ fetch_count (log (undo s')) = fetch_count (log s')).
Proof.
  intros H Hs s'. subst s'. unfold deleteAnnotation.
  split; [intros ->; reflexivity|]. split.
  - intros ->. cbn [negb]. cbn zeta.
    set (ep := match Store.get (annotations s) name with
               | Some (Polygon _ _) => api_segments
               | Some (Figure _ _) => api_figures
               | _ => api_landmarks
               end).
    destruct r.
    + cbn [log showMessage set_log]. rewrite saveToHistory_log.
      match goal with
      | |- context [log ?t] =>
          assert (L3 : log t = ev_fetch ep name act_remove :: log s)
      end.
      { cbn [selectedLabel set_annotations fetch set_log].
        destruct (selectedLabel s) as [l|];
          [destruct (String.eqb l name)|]; reflexivity. }
      rewrite L3, fetch_count_message, fetch_count_fetch.
      split; [right; left; reflexivity|reflexivity].
    + cbn [log fetch set_log]. rewrite fetch_count_fetch.
      split; [left; reflexivity|reflexivity].
    + cbn [log showMessage fetch set_log].
      rewrite fetch_count_message, fetch_count_fetch.
      split; [right; left; reflexivity|reflexivity].
  - intros -> ->. cbn [negb]. cbn zeta.
    set (ep := match Store.get (annotations s) name with
               | Some (Polygon _ _) => api_segments
               | Some (Figure _ _) => api_figures
               | _ => api_landmarks
               end).
    set (s1 := fetch ep name act_remove s).
    set (s2 := set_annotations (Store.delete (annotations s1) name) s1).
    set (s3 := match selectedLabel s2 with
               | Some l => if String.eqb l name then set_selectedLabel None s2
                           else s2
               | None => s2
               end).
    assert (F3 : annotations s3 = Store.delete (annotations s) name
                 /\ visibilityToggles s3 = visibilityToggles s
                 /\ history s3 = history s /\ historyIndex s3 = historyIndex s
                 /\ selectedLabel s3
                    = (if decide (selectedLabel s = Some name) then None
                       else selectedLabel s)).
    { subst s3 s2 s1. cbn [selectedLabel set_annotations fetch set_log].
      destruct (selectedLabel s) as [l|] eqn:El.
      - destruct (String.eqb l name) eqn:E.
        + apply String.eqb_eq in E. subst l.
          rewrite decide_True by reflexivity. cbn. auto.
        + apply String.eqb_neq in E.
          rewrite decide_False by congruence. cbn. auto.
      - rewrite decide_False by congruence. cbn. auto. }
    destruct F3 as (A & V & Hh & Hi & Sl).
    cbn [annotations selectedLabel showMessage set_log].
    rewrite saveToHistory_annotations, A.
    split; [apply Store_get_delete_eq|].
    split; [intros k Hk; apply Store_get_delete_ne; congruence|].
    split.
    { intros c Hc. apply (not_rendered_after_delete s name c).
      unfold renderAnnotations in *.
      cbn [annotations visibilityToggles set_annotations showMessage set_log]
        in *.
      rewrite saveToHistory_annotations, A in Hc.
      replace (visibilityToggles (saveToHistory now s3))
        with (visibilityToggles s) in Hc; [exact Hc|].
      unfold saveToHistory. destruct (_ >? _)%Z; cbn; congruence. }
    split.
    { unfold saveToHistory. destruct (_ >? _)%Z; cbn; exact Sl. }
    assert (H3 : hist_inv s3) by (unfold hist_inv; rewrite Hh, Hi; exact H).
    apply (undo_after_save now (annotations s) s3); auto.
    unfold synced in Hs. now rewrite Hh, Hi.
Qed.

Lemma deleteAnnotation_removes_witness :
  let s := hist_run [create_L1] (initializeApp [] "t0") in
  Store.get (annotations s) "L1" <> None
  /\ Store.get
       (annotations (deleteAnnotation "L1" true resp_success "t2" s)) "L1"
     = None
  /\ annotations (undo (deleteAnnotation "L1" true resp_success "t2" s))
     = annotations s.
Proof.
  intros s.
  destruct (deleteAnnotation_removes "L1" true resp_success "t2" s)
    as (_ & _ & D).
  - apply hist_run_inv, initializeApp_inv.
  - reflexivity.
  - destruct (D eq_refl eq_refl) as (D1 & _ & _ & _ & D5 & _).
    split; [discriminate|]. split; [exact D1|exact D5].
Defined.

(** ** Drawing a circle or rectangle by a drag *)

(** A pointer move changes nothing when no drag is in progress. *)
Lemma handleMouseMove_no_drag (e : MouseEvent) (s : STATE) :
  isDragging (pan s) = false -> polygonDragging (poly s) = false ->
  figureDragging (drag s) = false -> figureResizing (drag s) = false ->
  linePointDragging (linePoint s) = false ->
  handleMouseMove e s = s.
Proof.
  intros D PD FD FR LP. unfold handleMouseMove.
  destruct (imageLoaded s); [|reflexivity]. cbn [negb]. cbn zeta.
  unfold move_pan. rewrite D. cbn [andb].
  unfold move_polygon. rewrite PD.
  unfold move_figureDrag. rewrite FD. cbn [andb].
  unfold move_figureResize. rewrite FR. cbn [andb].
  unfold move_linePoint. rewrite LP. reflexivity.
Qed.

Lemma mouse_moves_no_drag (es : list MouseEvent) (s : STATE) :
  isDragging (pan s) = false -> polygonDragging (poly s) = false ->
  figureDragging (drag s) = false -> figureResizing (drag s) = false ->
  linePointDragging (linePoint s) = false ->
  mouse_moves es s = s.
Proof.
  intros D PD FD FR LP. induction es as [|e es IH]; [reflexivity|].
  unfold mouse_moves in *. cbn [fold_left].
  now rewrite handleMouseMove_no_drag.
Qed.

Lemma completeFigureDrawing_frame (coords : Pt.t) (r : Response)
    (now : string) (s : STATE) :
  let s' := completeFigureDrawing coords r now s in
  drag s' = drag s /\ linePoint s' = linePoint s /\ pan s' = pan s
  /\ poly s' = poly s.
Proof.
  unfold completeFigureDrawing, saveToHistory.
  destruct (negb _); [auto|]. destruct (Rltb _ 10); [cbn; auto|].
  destruct r; [destruct (_ >? _)%Z|..]; cbn; auto.
Qed.

(** Distances on the screen and in the image differ by the zoom. *)
Lemma image_distance (tx ty z a0 b0 a b : R) :
  0 < z ->
  sqrt (((a - tx) / z - (a0 - tx) / z) * ((a - tx) / z - (a0 - tx) / z)
        + ((b - ty) / z - (b0 - ty) / z) * ((b - ty) / z - (b0 - ty) / z))
  = distance a0 b0 a b / z.
Proof.
  intros Hz. unfold distance.
  replace (((a - tx) / z - (a0 - tx) / z) * ((a - tx) / z - (a0 - tx) / z)
           + ((b - ty) / z - (b0 - ty) / z) * ((b - ty) / z - (b0 - ty) / z))
    with (((a - a0) * (a - a0) + (b - b0) * (b - b0)) / (z * z))
    by (field; lra).
  rewrite sqrt_div_alt by nra.
  rewrite sqrt_square by lra. reflexivity.
Qed.

(** X18.  A circle or rectangle is drawn by a drag in annotation mode:
    the mouse-down over the image fixes the centre at the image point
    under the pointer, and the mouse-up gives the size, which is twice the
    distance on the screen between the two pointer positions, divided by
    the zoom and rounded.  When that size is at least 10 and the request
    succeeds, the figure is stored under the selected label with this
    centre, size and the selected shape; nothing else in the store
    changes, one request is made, and no gesture is left in progress. *)
Theorem figure_drawn_by_drag (e0 : ContainerMouseDown)
    (es : list MouseEvent) (e : MouseEvent) (r0 rI rL : Response)
    (now0 now name : string) (s : STATE) :
  isAnnotationMode s = true -> currentTool s = tool_figure ->
  figureShape (drawing s) <> line ->
  selectedLabel s = Some name -> name <> ""%string ->
  idle s -> 0 < currentZoom (view s) ->
  let c0 := eventToImageCoords s (md_mouse e0) in
  isWithinImageBounds s (Pt.x c0) (Pt.y c0) = true ->
  let size :=
    Math_round
      (distance (mouseX (md_mouse e0)) (mouseY (md_mouse e0))
         (mouseX e) (mouseY e) / currentZoom (view s) * 2) in
  10 <= size ->
  let s' :=
    handleMouseUp e resp_success rI rL now
      (mouse_moves es (handleMouseDown e0 r0 now0 s)) in
  Store.get (annotations s') name
  = Some (Figure
            (Fig.mk (figureShape (drawing s)) (Pt.x c0) (Pt.y c0) size
               0 0 0 0) now)
  /\ (forall k, k <> name ->
        Store.get (annotations s') k = Store.get (annotations s) k)
  /\ idle s'
  /\ fetch_count (log s') = S (fetch_count (log s)).
Proof.
  intros M T Hsh L N (I1 & I2 & I3 & I4 & I5 & I6) Hz c0 B size Hsz s'.
  set (s2 := if md_onFigurePart e0
             then set_pan (mkPan (isDragging (pan s)) (mouseX (md_mouse e0))
                             (mouseY (md_mouse e0))) s
             else deselectAllFigures
                    (set_pan (mkPan (isDragging (pan s))
                                (mouseX (md_mouse e0))
                                (mouseY (md_mouse e0))) s)).
  assert (F : selectedLabel s2 = Some name /\ annotations s2 = annotations s
              /\ log s2 = log s /\ view s2 = view s
              /\ drawing s2 = drawing s /\ poly s2 = poly s
              /\ linePoint s2 = linePoint s
              /\ isDragging (pan s2) = false
              /\ figureDragging (drag s2) = false
              /\ figureResizing (drag s2) = false
              /\ currentTool s2 = tool_figure
              /\ isAnnotationMode s2 = true).
  { subst s2. destruct (md_onFigurePart e0); cbn; auto 15. }
  destruct F as (F1 & F2 & F3 & F4 & F5 & F6 & F7 & F8 & F9 & F10 & F11 & F12).
  set (s1 := set_drawing
               (mkDraw (figureShape (drawing s)) true (Pt.x c0) (Pt.y c0)
                  (linePoints (drawing s))) s2).
  assert (E1 : handleMouseDown e0 r0 now0 s = s1).
  { unfold handleMouseDown. cbn zeta. fold s2. rewrite F12, F1.
    rewrite (truthy_Some name N). cbn [negb].
    change (eventToImageCoords s2 (md_mouse e0)) with
      (Pt.mk ((mouseX (md_mouse e0) - translateX (view s2))
              / currentZoom (view s2))
             ((mouseY (md_mouse e0) - translateY (view s2))
              / currentZoom (view s2))).
    unfold isWithinImageBounds. rewrite F4.
    change (Pt.mk _ _) with c0.
    fold (isWithinImageBounds s (Pt.x c0) (Pt.y c0)). rewrite B. cbn [negb].
    rewrite F11, F5.
    assert (Sh : Shape_eqb (figureShape (drawing s)) line = false)
      by (destruct (figureShape (drawing s)); auto; contradiction).
    rewrite Sh, andb_false_r.
    unfold startFigureDrawing. rewrite F5. subst s1.
    destruct (figureShape (drawing s)); auto; contradiction. }
  assert (Em : mouse_moves es s1 = s1).
  { apply mouse_moves_no_drag; subst s1; cbn; try assumption;
      congruence. }
  subst s'. rewrite E1, Em.
  set (t := set_selectedPointIndex (-1)
              (set_polygonDragging false
                 (set_pan (mkPan false (startDragX (pan s1))
                             (startDragY (pan s1))) s1))).
  assert (Ds : drawn_size (eventToImageCoords t e) t = size).
  { unfold drawn_size, eventToImageCoords, Math_sqrt. subst t s1.
    cbn [view drawing set_selectedPointIndex set_polygonDragging set_pan
         set_poly set_drawing figureStartX figureStartY Pt.x Pt.y mouseX
         mouseY].
    rewrite F4. subst c0. unfold eventToImageCoords. cbn [Pt.x Pt.y].
    rewrite image_distance by exact Hz. reflexivity. }
  assert (Up : handleMouseUp e resp_success rI rL now s1
               = completeFigureDrawing (eventToImageCoords t e) resp_success
                   now t).
  { unfold handleMouseUp. cbn zeta. fold t.
    assert (G : figureDrawing (drawing t) = true /\ currentTool t = tool_figure).
    { subst t s1. cbn. auto. }
    destruct G as (G1 & G2). rewrite G1, G2.
    destruct (completeFigureDrawing_frame (eventToImageCoords t e)
                resp_success now t) as (K1 & K2 & _).
    set (X := completeFigureDrawing _ _ _ t) in *.
    rewrite K1. change (drag t) with (drag s2). rewrite F9, F10.
    cbn [orb]. rewrite K2. change (linePoint t) with (linePoint s2).
    rewrite F7, I6. reflexivity. }
  rewrite Up.
  assert (Gd : figureDrawing (drawing t) = true) by (subst t s1; reflexivity).
  assert (Lt : selectedLabel t = Some name /\ annotations t = annotations s
               /\ log t = log s
               /\ figureShape (drawing t) = figureShape (drawing s)
               /\ figureStartX (drawing t) = Pt.x c0
               /\ figureStartY (drawing t) = Pt.y c0
               /\ drag t = drag s2 /\ linePoint t = linePoint s2
               /\ isDragging (pan t) = false
               /\ polygonDragging (poly t) = false).
  { subst t s1. cbn. auto 12. }
  destruct Lt as (T1 & T2 & T3 & T4 & T5 & T6 & T7 & T8 & T9 & T10).
  destruct (completeFigureDrawing_frame (eventToImageCoords t e) resp_success
              now t) as (K1 & K2 & K3 & K4).
  pose proof (completeFigureDrawing_large (eventToImageCoords t e)
                resp_success now t Gd) as EX.
  rewrite Ds in EX. specialize (EX Hsz). cbn zeta in EX.
  set (X := completeFigureDrawing _ _ _ t) in *.
  assert (A : annotations X
              = Store.set (annotations s) name
                  (Figure (Fig.mk (figureShape (drawing s)) (Pt.x c0)
                             (Pt.y c0) size 0 0 0 0) now)).
  { rewrite EX.
    cbn [annotations set_figureDrawing set_drawing showMessage set_log].
    rewrite saveToHistory_annotations.
    cbn [annotations set_annotations fetch set_log selectedLabel].
    rewrite T1, T2, T4, T5, T6. reflexivity. }
  assert (Fd : figureDrawing (drawing X) = false) by (rewrite EX; reflexivity).
  assert (Lg : fetch_count (log X) = S (fetch_count (log s))).
  { rewrite EX. cbn [log set_figureDrawing set_drawing showMessage set_log].
    rewrite saveToHistory_log. cbn [log set_annotations fetch set_log].
    rewrite fetch_count_message, fetch_count_fetch, T3. reflexivity. }
  split; [rewrite A; apply Store_get_set_eq|].
  split; [intros k Hk; rewrite A; apply Store_get_set_ne; congruence|].
  split; [|exact Lg].
  unfold idle. rewrite K1, K2, K3, K4, T7, T8, F7.
  repeat split; assumption.
Qed.

Lemma figure_drawn_by_drag_witness :
  let s := set_view (mkView 200 200 2 0 0)
             (set_currentTool tool_figure
                (set_selectedLabel (Some "F2"%string)
                   (initializeApp [] "t0"))) in
  let e0 := mkContainerMouseDown (mkMouse 100 100) false false in
  Store.get
    (annotations
       (handleMouseUp (mkMouse 130 140) resp_success resp_success resp_success
          "t1" (mouse_moves [] (handleMouseDown e0 resp_success "t1" s))))
    "F2"
  = Some (Figure (Fig.mk circle (Pt.x (eventToImageCoords s (mkMouse 100 100)))
                    (Pt.y (eventToImageCoords s (mkMouse 100 100)))
                    (Math_round (distance 100 100 130 140 / 2 * 2))
                    0 0 0 0) "t1").
Proof.
  intros s e0.
  refine (proj1 (figure_drawn_by_drag e0 [] (mkMouse 130 140) resp_success
                   resp_success resp_success "t1" "t1" "F2" s
                   eq_refl eq_refl _ eq_refl _ _ _ _ _)).
  - discriminate.
  - discriminate.
  - repeat split; reflexivity.
  - simpl. lra.
  - unfold isWithinImageBounds, eventToImageCoords. simpl.
    unfold Rleb, Rltb.
    repeat match goal with
           | |- context [Rle_dec ?a ?b] => destruct (Rle_dec a b); [|exfalso; lra]
           | |- context [Rlt_dec ?a ?b] => destruct (Rlt_dec a b); [|exfalso; lra]
           end.
    reflexivity.
  - simpl. unfold distance.
    replace ((130 - 100) * (130 - 100) + (140 - 100) * (140 - 100))
      with (50 * 50) by lra.
    rewrite sqrt_square by lra.
    rewrite (Math_round_IZR 50) by lra. lra.
Defined.

(** ** Annotating a label again *)

Lemma Store_set_keys (l : Store.t) (k : string) (a : Annotation) :
  Store.get l k <> None -> map fst (Store.set l k a) = map fst l.
Proof.
  induction l as [|[k' a'] r IH]; simpl; [congruence|].
  destruct (String.eqb k k') eqn:E; simpl; [reflexivity|].
  intros H. now rewrite IH.
Qed.

(** The calls for a label [m], with positions counted from [off], after
    the entry of another label [k] has been written. *)
Lemma calls_after_overwrite (v : gmap string bool) (k m : string)
    (a : Annotation) (l : Store.t) (off : nat) :
  m <> k ->
  filter (fun c => call_name c = m)
    (omap (fun call => call)
       (imap (fun i => render_entry v (off + i)) (Store.set l k a)))
  = filter (fun c => call_name c = m)
      (omap (fun call => call) (imap (fun i => render_entry v (off + i)) l)).
Proof.
  intros Hne. revert off. induction l as [|[k' a'] r IH]; intros off.
  - cbn [Store.set]. rewrite imap_cons, omap_cons_match.
    destruct (render_entry v (off + 0) (k, a)) as [c|] eqn:E;
      cbv beta iota; [|reflexivity].
    apply render_entry_Some in E. destruct E as (E & _).
    rewrite filter_cons. destruct (decide _); [congruence|reflexivity].
  - assert (T : forall l0 : Store.t,
               imap ((fun i => render_entry v (off + i)) ∘ S) l0
               = imap (fun i => render_entry v (S off + i)) l0).
    { intros l0. apply imap_ext. intros i x _. simpl. f_equal. lia. }
    cbn [Store.set]. destruct (String.eqb k k') eqn:E.
    + apply String.eqb_eq in E. subst k'.
      rewrite !imap_cons, !omap_cons_match.
      destruct (render_entry v (off + 0) (k, a)) as [c1|] eqn:E1;
        destruct (render_entry v (off + 0) (k, a')) as [c2|] eqn:E2;
        cbv beta iota; rewrite ?filter_cons;
        repeat match goal with
               | H : render_entry _ _ _ = Some _ |- _ =>
                   apply render_entry_Some in H; destruct H as (? & _)
               end;
        repeat (destruct (decide _); [congruence|]); reflexivity.
    + rewrite !imap_cons, !omap_cons_match, !T.
      destruct (render_entry v (off + 0) (k', a')) as [c|]; cbv beta iota.
      * rewrite !filter_cons. destruct (decide _); now rewrite IH.
      * apply IH.
Qed.

(** X19.  Annotating a label that already has an entry keeps the order of
    the labels in the store, so no other label changes its colour: for
    every other label the render pass makes the same calls, with the same
    colour, as before.  This is what a successful landmark click on an
    annotated label does. *)
Theorem overwrite_keeps_colours (k : string) (a : Annotation)
    (coords : Pt.t) (now : string) (s : STATE) :
  Store.get (annotations s) k <> None ->
  let s1 := set_annotations (Store.set (annotations s) k a) s in
  (map fst (annotations s1) = map fst (annotations s)
   /\ forall m, m <> k ->
        filter (fun c => call_name c = m) (renderAnnotations s1)
        = filter (fun c => call_name c = m) (renderAnnotations s)
        /\ color_of s1 m = color_of s m)
  /\ (selectedLabel s = Some k ->
      let s2 := annotateLandmark coords resp_success now s in
      map fst (annotations s2) = map fst (annotations s)
      /\ forall m, m <> k -> color_of s2 m = color_of s m).
Proof.
  intros Hk s1.
  assert (G : forall a0 m, m <> k ->
             filter (fun c => call_name c = m)
               (renderAnnotations
                  (set_annotations (Store.set (annotations s) k a0) s))
             = filter (fun c => call_name c = m) (renderAnnotations s)).
  { intros a0 m Hm. unfold renderAnnotations.
    cbn [annotations visibilityToggles set_annotations].
    exact (calls_after_overwrite (visibilityToggles s) k m a0
             (annotations s) 0 Hm). }
  split.
  - split; [apply Store_set_keys; exact Hk|].
    intros m Hm. split; [apply G; exact Hm|].
    unfold color_of. subst s1. now rewrite (G a m Hm).
  - intros Sel s2.
    assert (A : annotations s2
                = Store.set (annotations s) k
                    (Landmark ok (Some (Pt.mk (Pt.x coords) (Pt.y coords)))
                       now)
                /\ visibilityToggles s2 = visibilityToggles s).
    { subst s2. unfold annotateLandmark, saveToHistory.
      destruct (_ >? _)%Z; cbn; rewrite Sel; auto. }
    destruct A as (A & V). split.
    + rewrite A. apply Store_set_keys. exact Hk.
    + intros m Hm. unfold color_of, renderAnnotations. rewrite A, V.
      f_equal. f_equal.
      exact (G (Landmark ok (Some (Pt.mk (Pt.x coords) (Pt.y coords))) now)
               m Hm).
Qed.

Lemma overwrite_keeps_colours_witness :
  color_of
    (annotateLandmark (Pt.mk 9 9) resp_success "t1"
       (set_selectedLabel (Some "A"%string) three_landmarks)) "B"
  = color_of (set_selectedLabel (Some "A"%string) three_landmarks) "B".
Proof.
  destruct (overwrite_keeps_colours "A" (Landmark ok None "t1") (Pt.mk 9 9)
              "t1" (set_selectedLabel (Some "A"%string) three_landmarks))
    as (_ & B).
  - discriminate.
  - destruct (B eq_refl) as (_ & C). apply C. discriminate.
Defined.

(** ** Tools and labels *)

(** X20.  Switching the tool deselects the label, so the next click on
    the image annotates nothing: it only warns, until a label is selected
    again.  Leaving the polygon tool also discards the transient polygon,
    while switching to the polygon tool keeps it. *)
Theorem switchTool_clears_selection (tool : Tool) (e : ContainerMouseDown)
    (r : Response) (now : string) (s : STATE) :
  let s1 := switchTool tool s in
  let s2 := handleMouseDown e r now s1 in
  selectedLabel s1 = None /\ currentTool s1 = tool
  /\ activePolygonPoints (poly s1)
     = match tool with
       | tool_polygon => activePolygonPoints (poly s)
       | _ => []
       end
  /\ annotations s2 = annotations s /\ history s2 = history s
  /\ fetch_count (log s2) = fetch_count (log s)
  /\ activePolygonPoints (poly s2) = activePolygonPoints (poly s1)
  /\ drawing s2 = drawing s.
Proof.
  intros s1 s2. subst s2 s1. unfold handleMouseDown, switchTool.
  destruct tool, (md_onFigurePart e), (isAnnotationMode s) eqn:M;
    cbn; rewrite ?M; cbn; rewrite ?fetch_count_message; cbn;
    rewrite ?fetch_count_message; auto 10.
Qed.

(** X21.  Selecting a label that has a polygon, with the polygon tool,
    loads the polygon's vertices as the transient polygon, puts the
    polygon tool in edit mode and the editor in annotation mode; saving
    it again without a change stores the same vertices under the same
    label. *)
Theorem selectLabel_loads_polygon (name : string) (ps : list Pt.t)
    (ts now : string) (s : STATE) :
  currentTool s = tool_polygon ->
  Store.get (annotations s) name = Some (Polygon ps ts) ->
  (3 <= length ps)%nat ->
  let s1 := selectLabel name s in
  let s2 := completePolygon resp_success now s1 in
  selectedLabel s1 = Some name
  /\ activePolygonPoints (poly s1) = ps
  /\ polygonTool (poly s1) = edit
  /\ isAnnotationMode s1 = true
  /\ annotations s1 = annotations s
  /\ Store.get (annotations s2) name = Some (Polygon ps now)
  /\ forall k, k <> name ->
       Store.get (annotations s2) k = Store.get (annotations s) k.
Proof.
  intros T G L s1 s2.
  assert (E1 : selectedLabel s1 = Some name
               /\ activePolygonPoints (poly s1) = ps
               /\ polygonTool (poly s1) = edit
               /\ isAnnotationMode s1 = true
               /\ annotations s1 = annotations s).
  { subst s1. unfold selectLabel.
    cbn [annotations currentTool set_selectedLabel]. rewrite G, T.
    destruct (isAnnotationMode s) eqn:M; cbn; rewrite ?M; auto. }
  destruct E1 as (A & B & C & D & E).
  repeat (split; [assumption|]).
  assert (A2 : annotations s2
               = Store.set (annotations s) name (Polygon ps now)).
  { subst s2. unfold completePolygon. rewrite B.
    destruct (length ps <? 3)%nat eqn:E3; [apply Nat.ltb_lt in E3; lia|].
    cbn [annotations setPolygonTool set_poly showMessage set_log].
    rewrite saveToHistory_annotations.
    cbn [annotations set_annotations fetch set_log selectedLabel poly
         activePolygonPoints].
    rewrite A, B, E. reflexivity. }
  rewrite A2. split; [apply Store_get_set_eq|].
  intros k Hk. apply Store_get_set_ne. congruence.
Qed.

Lemma selectLabel_loads_polygon_witness :
  let tri := [Pt.mk 0 0; Pt.mk 40 0; Pt.mk 40 30] in
  let s := set_currentTool tool_polygon
             (initializeApp [("P1"%string, Polygon tri "t0")] "t0") in
  Store.get
    (annotations (completePolygon resp_success "t1" (selectLabel "P1" s)))
    "P1"
  = Some (Polygon tri "t1").
Proof.
  intros tri s.
  destruct (selectLabel_loads_polygon "P1" tri "t0" "t1" s eq_refl eq_refl)
    as (_ & _ & _ & _ & _ & A & _).
  - simpl. lia.
  - exact A.
Defined.

(** ** The outline of the transient polygon *)

Lemma omap_seq_all {B : Type} (f : nat -> option B) (a m : nat) :
  (forall i, (a <= i < a + m)%nat -> is_Some (f i)) ->
  length (omap f (seq a m)) = m
  /\ forall i, (i < m)%nat -> omap f (seq a m) !! i = f (a + i)%nat.
Proof.
  revert a. induction m as [|m IH]; intros a H.
  - split; [reflexivity|]. intros i Hi. lia.
  - cbn [seq]. rewrite omap_cons_match.
    destruct (H a) as [b Hb]; [lia|]. rewrite Hb.
    destruct (IH (S a)) as (L & K); [intros i Hi; apply H; lia|].
    split; [cbn [length]; now rewrite L|].
    intros [|i] Hi.
    + rewrite Nat.add_0_r. now rewrite Hb.
    + cbn [lookup list_lookup]. rewrite <- Nat.add_succ_comm.
      apply K. lia.
Qed.

Lemma omap_seq_none {B : Type} (f : nat -> option B) (a m : nat) :
  (forall i, (a <= i < a + m)%nat -> f i = None) ->
  omap f (seq a m) = [].
Proof.
  revert a. induction m as [|m IH]; intros a H; [reflexivity|].
  cbn [seq]. rewrite omap_cons_match, (H a) by lia.
  apply IH. intros i Hi. apply H. lia.
Qed.

(** X22.  The outline that [renderActivePolygon] draws joins each vertex
    of the transient polygon to the next one; it is closed, with a last
    segment from the last vertex back to the first, as soon as there are
    three vertices, and it is left open below that (one segment for two
    vertices, none for one). *)
Theorem renderActivePolygon_outline (s : STATE) :
  let ps := activePolygonPoints (poly s) in
  let n := length ps in
  let m := if (3 <=? n)%nat then n else (n - 1)%nat in
  let lines := renderActivePolygon_lines s in
  length lines = m
  /\ (forall i, (i < m)%nat ->
        exists p1 p2,
          ps !! i = Some p1 /\ ps !! ((i + 1) mod n)%nat = Some p2
          /\ lines !! i = Some (p1, p2))
  /\ ((3 <= n)%nat ->
      exists p q,
        last ps = Some p /\ head ps = Some q
        /\ lines !! (n - 1)%nat = Some (p, q)).
Proof.
  intros ps n m lines.
  set (f := fun i : nat =>
              match ps !! i, ps !! ((i + 1) mod n)%nat with
              | Some p1, Some p2 =>
                  if (i <? n - 1)%nat || (3 <=? n)%nat then Some (p1, p2)
                  else None
              | _, _ => None
              end).
  assert (Hm : (m <= n)%nat) by (subst m; destruct (3 <=? n)%nat; lia).
  assert (Fs : forall i, (i < m)%nat ->
                 exists p1 p2,
                   ps !! i = Some p1 /\ ps !! ((i + 1) mod n)%nat = Some p2
                   /\ f i = Some (p1, p2)).
  { intros i Hi.
    destruct (lookup_lt_is_Some_2 ps i) as [p1 H1]; [fold n; lia|].
    destruct (lookup_lt_is_Some_2 ps ((i + 1) mod n)%nat) as [p2 H2].
    { fold n. apply Nat.mod_upper_bound. lia. }
    exists p1, p2. split; [exact H1|]. split; [exact H2|].
    unfold f. rewrite H1, H2.
    assert (C : (i <? n - 1)%nat || (3 <=? n)%nat = true).
    { subst m. destruct (3 <=? n)%nat eqn:E3; [apply orb_true_r|].
      apply orb_true_iff. left. apply Nat.ltb_lt. lia. }
    now rewrite C. }
  assert (Fn : forall i, (m <= i < m + (n - m))%nat -> f i = None).
  { intros i Hi. unfold f.
    destruct (ps !! i); [|reflexivity].
    destruct (ps !! ((i + 1) mod n)%nat); [|reflexivity].
    assert (C : (i <? n - 1)%nat || (3 <=? n)%nat = false).
    { subst m. destruct (3 <=? n)%nat eqn:E3; [lia|].
      rewrite orb_false_r. apply Nat.ltb_ge. lia. }
    now rewrite C. }
  assert (E : lines = omap f (seq 0 m)).
  { subst lines. unfold renderActivePolygon_lines. fold ps n f.
    replace n with (m + (n - m))%nat at 1 by lia.
    rewrite seq_app, omap_app, Nat.add_0_l.
    rewrite (omap_seq_none f m (n - m) Fn). apply app_nil_r. }
  destruct (omap_seq_all f 0 m) as (L & K).
  { intros i Hi. destruct (Fs i) as (p1 & p2 & _ & _ & H); [lia|].
    rewrite H. eauto. }
  rewrite E. split; [exact L|]. split.
  - intros i Hi. destruct (Fs i Hi) as (p1 & p2 & H1 & H2 & H3).
    exists p1, p2. rewrite (K i Hi), Nat.add_0_l. auto.
  - intros H3. assert (M : m = n).
    { subst m. destruct (3 <=? n)%nat eqn:E3; [reflexivity|].
      apply Nat.leb_gt in E3. lia. }
    destruct (Fs (n - 1)%nat) as (p1 & p2 & H1 & H2 & H4); [lia|].
    exists p1, p2.
    replace ((n - 1 + 1) mod n)%nat with 0%nat in H2
      by (replace (n - 1 + 1)%nat with n by lia; now rewrite Nat.Div0.mod_same).
    split; [rewrite last_lookup; fold n;
            replace (Init.Nat.pred n) with (n - 1)%nat by lia; exact H1|].
    split; [rewrite head_lookup; exact H2|].
    rewrite (K (n - 1)%nat), Nat.add_0_l by lia. exact H4.
Qed.

(** ** Drawing a polygon by clicks *)

(** One click with the polygon tool in draw mode. *)
Lemma polygon_click_step (e : ContainerMouseDown) (r : Response)
    (now name : string) (s0 s : STATE) :
  isAnnotationMode s = true -> currentTool s = tool_polygon ->
  polygonTool (poly s) = draw -> selectedLabel s = Some name ->
  name <> ""%string -> view s = view s0 -> over_image s0 e ->
  let s' := handleMouseDown e r now s in
  isAnnotationMode s' = true /\ currentTool s' = tool_polygon
  /\ polygonTool (poly s') = draw /\ selectedLabel s' = Some name
  /\ view s' = view s0 /\ annotations s' = annotations s
  /\ log s' = log s /\ history s' = history s
  /\ activePolygonPoints (poly s')
     = activePolygonPoints (poly s) ++ [eventToImageCoords s0 (md_mouse e)].
Proof.
  intros M T D L N V B. unfold over_image in B.
  set (s2 := if md_onFigurePart e
             then set_pan (mkPan (isDragging (pan s)) (mouseX (md_mouse e))
                             (mouseY (md_mouse e))) s
             else deselectAllFigures
                    (set_pan (mkPan (isDragging (pan s))
                                (mouseX (md_mouse e))
                                (mouseY (md_mouse e))) s)).
  assert (F : selectedLabel s2 = Some name /\ annotations s2 = annotations s
              /\ log s2 = log s /\ view s2 = view s0 /\ poly s2 = poly s
              /\ history s2 = history s /\ currentTool s2 = tool_polygon
              /\ isAnnotationMode s2 = true).
  { subst s2. destruct (md_onFigurePart e); cbn; auto 10. }
  destruct F as (F1 & F2 & F3 & F4 & F5 & F6 & F7 & F8).
  assert (C : eventToImageCoords s2 (md_mouse e)
              = eventToImageCoords s0 (md_mouse e))
    by (unfold eventToImageCoords; now rewrite F4).
  assert (E : handleMouseDown e r now s
              = set_activePolygonPoints
                  (activePolygonPoints (poly s)
                   ++ [eventToImageCoords s0 (md_mouse e)]) s2).
  { unfold handleMouseDown. cbn zeta. fold s2.
    rewrite F8, F1, (truthy_Some name N). cbn [negb]. rewrite C.
    unfold isWithinImageBounds in *. rewrite F4, B. cbn [negb].
    rewrite F7. unfold handlePolygonClick. rewrite F5, D.
    destruct (eventToImageCoords s0 (md_mouse e)). reflexivity. }
  cbn zeta. rewrite E. cbn. rewrite F5. auto 10.
Qed.

Lemma polygon_clicks (es : list ContainerMouseDown) (r : Response)
    (now name : string) (s0 s : STATE) :
  isAnnotationMode s = true -> currentTool s = tool_polygon ->
  polygonTool (poly s) = draw -> selectedLabel s = Some name ->
  name <> ""%string -> view s = view s0 -> Forall (over_image s0) es ->
  let s' := mouse_downs es r now s in
  selectedLabel s' = Some name /\ annotations s' = annotations s
  /\ log s' = log s /\ history s' = history s
  /\ activePolygonPoints (poly s')
     = activePolygonPoints (poly s)
       ++ map (fun e => eventToImageCoords s0 (md_mouse e)) es.
Proof.
  revert s. induction es as [|e es IH]; intros s M T D L N V B.
  - cbn. rewrite app_nil_r. auto.
  - inversion B as [|? ? B1 B2]; subst.
    destruct (polygon_click_step e r now name s0 s M T D L N V B1)
      as (M1 & T1 & D1 & L1 & V1 & A1 & G1 & H1 & P1).
    specialize (IH _ M1 T1 D1 L1 N V1 B2). cbn zeta in IH.
    destruct IH as (L2 & A2 & G2 & H2 & P2).
    change (mouse_downs (e :: es) r now s)
      with (mouse_downs es r now (handleMouseDown e r now s)).
    cbn zeta. rewrite L2, A2, G2, H2, P2, P1, <- app_assoc.
    repeat split; assumption.
Qed.

(** X23.  A polygon is drawn by clicks.  With the polygon tool in draw
    mode, a label selected and no transient polygon, each click over the
    image adds the image point under the pointer as the next vertex and
    nothing else happens: nothing is stored, requested or announced.
    With at least three clicks, completing the polygon makes one request
    and, when it succeeds, stores these vertices in click order under the
    selected label, leaves all other entries as they are and puts the
    polygon tool in edit mode. *)
Theorem polygon_drawn_by_clicks (es : list ContainerMouseDown)
    (r0 : Response) (now0 now name : string) (s : STATE) :
  isAnnotationMode s = true -> currentTool s = tool_polygon ->
  polygonTool (poly s) = draw -> selectedLabel s = Some name ->
  name <> ""%string -> activePolygonPoints (poly s) = [] ->
  Forall (over_image s) es -> (3 <= length es)%nat ->
  let vertices := map (fun e => eventToImageCoords s (md_mouse e)) es in
  let s1 := mouse_downs es r0 now0 s in
  let s2 := completePolygon resp_success now s1 in
  (activePolygonPoints (poly s1) = vertices
   /\ annotations s1 = annotations s /\ history s1 = history s
   /\ log s1 = log s)
  /\ Store.get (annotations s2) name = Some (Polygon vertices now)
  /\ (forall k, k <> name ->
        Store.get (annotations s2) k = Store.get (annotations s) k)
  /\ fetch_count (log s2) = S (fetch_count (log s))
  /\ polygonTool (poly s2) = edit.
Proof.
  intros M T D L N P0 B Hlen vertices s1 s2.
  destruct (polygon_clicks es r0 now0 name s s M T D L N eq_refl B)
    as (L1 & A1 & G1 & H1 & P1).
  fold s1 in L1, A1, G1, H1, P1. rewrite P0 in P1. cbn [app] in P1.
  fold vertices in P1.
  split; [auto|].
  assert (Hv : (length vertices <? 3)%nat = false).
  { apply Nat.ltb_ge. subst vertices. rewrite length_map. exact Hlen. }
  assert (A2 : annotations s2
               = Store.set (annotations s) name (Polygon vertices now)
               /\ fetch_count (log s2) = S (fetch_count (log s))
               /\ polygonTool (poly s2) = edit).
  { subst s2. unfold completePolygon. rewrite P1, Hv.
    cbn [annotations log poly polygonTool setPolygonTool set_poly showMessage
         set_log].
    rewrite saveToHistory_annotations, saveToHistory_log.
    cbn [annotations log set_annotations fetch set_log selectedLabel poly
         activePolygonPoints].
    rewrite L1, A1, G1, P1, fetch_count_message, fetch_count_fetch. auto. }
  destruct A2 as (A2 & F2 & T2). rewrite A2.
  split; [apply Store_get_set_eq|].
  split; [intros k Hk; apply Store_get_set_ne; congruence|]. auto.
Qed.

Ltac in_bounds :=
  unfold over_image, isWithinImageBounds, eventToImageCoords; simpl;
  unfold Rleb, Rltb;
  repeat match goal with
         | |- context [Rle_dec ?a ?b] =>
             destruct (Rle_dec a b); [|exfalso; lra]
         | |- context [Rlt_dec ?a ?b] =>
             destruct (Rlt_dec a b); [|exfalso; lra]
         end;
  reflexivity.

Lemma polygon_drawn_by_clicks_witness :
  let s := set_view (mkView 200 200 1 0 0)
             (set_selectedLabel (Some "P1"%string)
                (set_currentTool tool_polygon (initializeApp [] "t0"))) in
  let click := fun x y => mkContainerMouseDown (mkMouse x y) false false in
  let es := [click 10 10; click 50 10; click 50 40] in
  Store.get
    (annotations
       (completePolygon resp_success "t1" (mouse_downs es resp_success "t1" s)))
    "P1"
  = Some (Polygon (map (fun e => eventToImageCoords s (md_mouse e)) es) "t1").
Proof.
  intros s click es.
  refine (proj1 (proj2 (polygon_drawn_by_clicks es resp_success "t1" "t1" "P1"
                          s eq_refl eq_refl eq_refl eq_refl _ eq_refl _ _))).
  - discriminate.
  - repeat constructor; in_bounds.
  - simpl. lia.
Defined.

(** ** Dragging an end marker of a line *)

Lemma drag_endpoint_twice (pt : PointType) (c1 c2 : Pt.t) (f : Fig.t) :
  drag_endpoint (Some pt) c2 (drag_endpoint (Some pt) c1 f)
  = drag_endpoint (Some pt) c2 f.
Proof. destruct pt, f; reflexivity. Qed.

Lemma drag_endpoint_invariant (pt : PointType) (c : Pt.t) (f : Fig.t) :
  line_invariant (drag_endpoint (Some pt) c f).
Proof.
  unfold line_invariant, drag_endpoint, distance, Math_sqrt.
  destruct pt; simpl; auto.
Qed.

(** One pointer move while an end marker is dragged and nothing else is
    going on. *)
Lemma linePoint_step (e : MouseEvent) (name : string) (pt : PointType)
    (f : Fig.t) (s : STATE) :
  imageLoaded s = true -> isDragging (pan s) = false ->
  polygonDragging (poly s) = false -> figureDragging (drag s) = false ->
  figureResizing (drag s) = false ->
  linePoint s = mkLinePoint true (Some name) (Some pt) ->
  name <> ""%string -> figure_at s name = Some f ->
  handleMouseMove e s
  = set_annotations
      (Store.mutate_figure (annotations s) name
         (drag_endpoint (Some pt) (eventToImageCoords s e))) s.
Proof.
  intros L D PD FD FR LP Hn Hf.
  unfold handleMouseMove. rewrite L. cbn [negb]. cbn zeta.
  unfold move_pan. rewrite D. cbn [andb].
  unfold move_polygon. rewrite PD.
  unfold move_figureDrag. rewrite FD. cbn [andb].
  unfold move_figureResize. rewrite FR. cbn [andb].
  unfold move_linePoint. rewrite LP.
  cbn [linePointDragging linePointDraggedFigure linePointDraggedType].
  rewrite (truthy_Some name Hn). cbn [andb label_key]. rewrite Hf.
  reflexivity.
Qed.

Lemma linePoint_moves (es : list MouseEvent) (e : MouseEvent)
    (name : string) (pt : PointType) (f : Fig.t) (s : STATE) :
  imageLoaded s = true -> isDragging (pan s) = false ->
  polygonDragging (poly s) = false -> figureDragging (drag s) = false ->
  figureResizing (drag s) = false ->
  linePoint s = mkLinePoint true (Some name) (Some pt) ->
  name <> ""%string -> figure_at s name = Some f ->
  mouse_moves (es ++ [e]) s
  = set_annotations
      (Store.mutate_figure (annotations s) name
         (drag_endpoint (Some pt) (eventToImageCoords s e))) s.
Proof.
  revert f s. induction es as [|e1 es IH]; intros f s L D PD FD FR LP Hn Hf.
  - apply (linePoint_step e name pt f s); assumption.
  - change (mouse_moves ((e1 :: es) ++ [e]) s)
      with (mouse_moves (es ++ [e]) (handleMouseMove e1 s)).
    rewrite (linePoint_step e1 name pt f s) by assumption.
    set (g1 := drag_endpoint (Some pt) (eventToImageCoords s e1)).
    rewrite (IH (g1 f)
               (set_annotations
                  (Store.mutate_figure (annotations s) name g1) s));
      try assumption.
    + cbn [annotations set_annotations]. rewrite Store_mutate_mutate.
      rewrite (Store_mutate_ext _ _ _
                 (drag_endpoint (Some pt) (eventToImageCoords s e)));
        [reflexivity|].
      intros f0. subst g1. apply drag_endpoint_twice.
    + apply (figure_at_mutate s name g1 f Hf).
Qed.

(** X24.  Dragging an end marker of a line in panning mode, from a state
    without a gesture in progress: after the mouse-down on the marker,
    any pointer path and the mouse-up, the dragged endpoint is the image
    point under the pointer, the other endpoint is where it was, and
    centre and size are derived from the two endpoints, so the line
    invariant holds; every other annotation is untouched, one update
    request carrying the new line is made, and no gesture is left in
    progress. *)
Theorem line_endpoint_drag (name : string) (pt : PointType) (f : Fig.t)
    (es : list MouseEvent) (e : MouseEvent) (rD rI rL : Response)
    (now : string) (s : STATE) :
  isAnnotationMode s = false -> imageLoaded s = true -> idle s ->
  name <> ""%string -> figure_at s name = Some f ->
  let s' :=
    handleMouseUp e rD rI rL now
      (mouse_moves (es ++ [e]) (handleLinePointMouseDown name pt s)) in
  let c := eventToImageCoords s e in
  let f' := drag_endpoint (Some pt) c f in
  figure_at s' name = Some f'
  /\ line_invariant f'
  /\ match pt with
     | pt_start =>
         (Fig.startX f', Fig.startY f') = (Pt.x c, Pt.y c)
         /\ (Fig.endX f', Fig.endY f') = (Fig.endX f, Fig.endY f)
     | pt_end =>
         (Fig.endX f', Fig.endY f') = (Pt.x c, Pt.y c)
         /\ (Fig.startX f', Fig.startY f') = (Fig.startX f, Fig.startY f)
     end
  /\ (forall k, k <> name ->
        Store.get (annotations s') k = Store.get (annotations s) k)
  /\ idle s'
  /\ fetch_count (log s') = S (fetch_count (log s))
  /\ In (ev_fetch api_figures name
           (act_update_line
              (Fig.mk line (Fig.x f') (Fig.y f') (Fig.size f')
                 (Fig.startX f') (Fig.startY f') (Fig.endX f')
                 (Fig.endY f')))) (log s').
Proof.
  intros M L (I1 & I2 & I3 & I4 & I5 & I6) Hn Hf s' c f'.
  set (s0 := handleLinePointMouseDown name pt s) in *.
  assert (E0 : s0 = set_linePoint (mkLinePoint true (Some name) (Some pt)) s).
  { subst s0. unfold handleLinePointMouseDown. now rewrite M. }
  assert (Em : mouse_moves (es ++ [e]) s0
               = set_annotations
                   (Store.mutate_figure (annotations s) name
                      (drag_endpoint (Some pt) c)) s0).
  { rewrite (linePoint_moves es e name pt f s0); try rewrite E0;
      first [assumption | reflexivity]. }
  subst s'. rewrite Em.
  set (t := set_annotations _ s0).
  assert (Ht : figure_at t name = Some f').
  { subst t. rewrite E0.
    exact (figure_at_mutate s name (drag_endpoint (Some pt) c) f Hf). }
  set (t2 := set_selectedPointIndex (-1)
               (set_polygonDragging false
                  (set_pan (mkPan false (startDragX (pan t))
                              (startDragY (pan t))) t))).
  assert (Up : handleMouseUp e rD rI rL now t
               = completeLinePointInteraction rL now t2).
  { unfold handleMouseUp. cbn zeta. fold t2.
    assert (G : figureDrawing (drawing t2) = false
                /\ figureDragging (drag t2) = false
                /\ figureResizing (drag t2) = false
                /\ linePointDragging (linePoint t2) = true).
    { subst t2 t. rewrite E0. cbn. auto. }
    destruct G as (G1 & G2 & G3 & G4). rewrite G1, G2, G3. cbn [orb].
    rewrite G4. reflexivity. }
  rewrite Up.
  assert (T2 : linePoint t2 = mkLinePoint true (Some name) (Some pt)
               /\ figure_at t2 name = Some f'
               /\ annotations t2 = annotations t /\ log t2 = log s
               /\ isDragging (pan t2) = false
               /\ polygonDragging (poly t2) = false
               /\ drawing t2 = drawing s /\ drag t2 = drag s).
  { split; [subst t2 t; rewrite E0; reflexivity|].
    split; [exact Ht|]. split; [reflexivity|].
    subst t2 t. rewrite E0. cbn. auto 10. }
  destruct T2 as (P1 & P2 & P3 & P4 & P5 & P6 & P7 & P8).
  unfold completeLinePointInteraction. rewrite P1.
  cbn [linePointDragging linePointDraggedFigure].
  rewrite (truthy_Some name Hn). cbn [andb label_key]. rewrite P2.
  assert (A : annotations t
              = Store.mutate_figure (annotations s) name
                  (drag_endpoint (Some pt) c))
    by (subst t; rewrite E0; reflexivity).
  split.
  { unfold figure_at. destruct rL;
      cbn [annotations set_linePoint showMessage set_log fetch];
      rewrite ?saveToHistory_annotations;
      cbn [annotations set_linePoint showMessage set_log fetch];
      exact P2. }
  split; [apply drag_endpoint_invariant|].
  split; [subst f'; destruct pt; cbn; auto|].
  split.
  { intros k Hk. destruct rL;
      cbn [annotations set_linePoint showMessage set_log fetch];
      rewrite ?saveToHistory_annotations;
      cbn [annotations set_linePoint showMessage set_log fetch];
      rewrite P3, A; apply Store_get_mutate_ne; congruence. }
  split.
  { unfold idle, saveToHistory. destruct rL; [destruct (_ >? _)%Z|..];
      cbn [pan poly drawing drag linePoint set_linePoint showMessage set_log
           set_history fetch linePointDragging];
      rewrite P5, P6, P7, P8; auto 10. }
  split.
  { destruct rL; cbn [log set_linePoint showMessage set_log fetch];
      rewrite ?saveToHistory_log;
      cbn [log set_linePoint showMessage set_log fetch];
      rewrite ?fetch_count_message, fetch_count_fetch, P4; reflexivity. }
  destruct rL; cbn [log set_linePoint showMessage set_log fetch];
    rewrite ?saveToHistory_log;
    cbn [log set_linePoint showMessage set_log fetch];
    auto using in_eq, in_cons.
Qed.

Lemma line_endpoint_drag_witness :
  let s' := handleMouseUp (mkMouse 30 40) resp_success resp_success
              resp_success "t1"
              (mouse_moves ([] ++ [mkMouse 30 40])
                 (handleLinePointMouseDown "L1" pt_end panning_STATE)) in
  exists f', figure_at s' "L1" = Some f' /\ line_invariant f'.
Proof.
  intros s'.
  destruct (line_endpoint_drag "L1" pt_end line_L1 [] (mkMouse 30 40)
              resp_success resp_success resp_success "t1" panning_STATE
              eq_refl eq_refl) as (A & B & _).
  - repeat split; reflexivity.
  - discriminate.
  - reflexivity.
  - eexists. split; [exact A|exact B].
Defined.
